(** * HomeLab Infrastructure Monitor: the collection agent

    A shallow embedding of [src/agent/agent.py] and the properties of its
    collection-and-transmission loop.

    Conventions of the embedding.
    - Python [int] is [Z]; Python [float] is idealised as an exact rational
      [Q] (no rounding error, no overflow); [int(x)] on a float is
      truncation toward zero.
    - JSON-like Python values (what [yaml.safe_load] returns, what the agent
      posts) are [pyval]; a [dict] is an association list in insertion order.
    - Exceptions follow Python's hierarchy: [Exception] subclasses are what
      [except Exception] catches; [KeyboardInterrupt] and [SystemExit] are
      not.
    - The outside world (psutil, the clock, the network, the file system,
      docker) is an [Env] of oracles indexed by the number of effects
      performed so far; every effect is recorded in the [trace]. *)

From Stdlib Require Import ZArith QArith Qround Lqa List String Ascii Bool Lia DecimalString.
Import ListNotations.

Set Warnings "-register-all".
Local Open Scope string_scope.
Local Open Scope Z_scope.

(** ** Python exceptions *)

Inductive ExcClass : Type :=
| HTTPError            (* requests.exceptions.HTTPError *)
| ConnectionError      (* requests.exceptions.ConnectionError *)
| Timeout              (* requests.exceptions.Timeout *)
| RequestException     (* any other requests.exceptions.RequestException *)
| FileNotFoundError
| ValidationError      (* pydantic.ValidationError *)
| ImportError
| ZeroDivisionError
| KeyError
| TypeError
| AttributeError
| OSError
| YAMLError
| IndexError
| ValueError
| RuntimeError.

(** [isinstance(e, requests.exceptions.RequestException)] *)
Definition is_RequestException (c : ExcClass) : bool :=
  match c with
  | HTTPError | ConnectionError | Timeout | RequestException => true
  | _ => false
  end.

Definition is_ImportError (c : ExcClass) : bool :=
  match c with ImportError => true | _ => false end.

Definition is_FileNotFoundError (c : ExcClass) : bool :=
  match c with FileNotFoundError => true | _ => false end.

Definition is_ValidationError (c : ExcClass) : bool :=
  match c with ValidationError => true | _ => false end.

Inductive BaseException : Type :=
| Exception (cls : ExcClass) (msg : string)   (* str(e) = msg *)
| KeyboardInterrupt
| SystemExit (code : Z).

Inductive Outcome (A : Type) : Type :=
| Return (a : A)
| Raise (e : BaseException).
Arguments Return {A} a.
Arguments Raise {A} e.

(** ** Python values *)

Inductive pyval : Type :=
| PNone
| PBool (b : bool)
| PInt (z : Z)
| PFloat (q : Q)
| PStr (s : string)
| PList (l : list pyval)
| PDict (d : list (string * pyval)).

Definition dict := list (string * pyval).

Fixpoint dict_get (k : string) (d : dict) : option pyval :=
  match d with
  | [] => None
  | (k', v) :: d' => if String.eqb k k' then Some v else dict_get k d'
  end.

Definition dict_has (k : string) (d : dict) : bool :=
  match dict_get k d with Some _ => true | None => false end.

(** [d[k] = v]: overwrite in place, or append a new key. *)
Fixpoint dict_set (k : string) (v : pyval) (d : dict) : dict :=
  match d with
  | [] => [(k, v)]
  | (k', v') :: d' =>
      if String.eqb k k' then (k, v) :: d' else (k', v') :: dict_set k v d'
  end.

Definition dict_keys (d : dict) : list string := map fst d.

(** [str(n)] for an int, and the rendering of an [Optional[int]] inside an
    f-string. *)
Definition str_int (z : Z) : string := NilZero.string_of_int (Z.to_int z).

Definition str_opt_int (o : option Z) : string :=
  match o with Some z => str_int z | None => "None" end.

(** [int(x)] for a float [x]. *)
Definition int_of_float (x : Q) : Z := Z.quot (Qnum x) (Zpos (Qden x)).

(** ** Rate tracking (MetricsCollector.collect_disk_io_metrics and
       MetricsCollector.collect_network_metrics) *)

(** The psutil counter tuples, restricted to the fields the agent reads. *)
Record sdiskio : Type := { read_bytes : Z; write_bytes : Z }.
Record snetio : Type := { bytes_sent : Z; bytes_recv : Z }.

(** The mutable fields of [MetricsCollector]: note the single [last_time]. *)
Record MetricsCollector : Type := {
  last_disk_io : option sdiskio;
  last_net_io : option snetio;
  last_time : option Q
}.

(** [MetricsCollector.__init__] *)
Definition MetricsCollector_init : MetricsCollector :=
  {| last_disk_io := None; last_net_io := None; last_time := None |}.

(** [a / b] for an int [a] and a float [b]. *)
Definition int_div_float (a : Z) (b : Q) : Outcome Q :=
  if Qeq_bool b 0 then Raise (Exception ZeroDivisionError "float division by zero")
  else Return (inject_Z a / b)%Q.

(** The body of [collect_disk_io_metrics] after its two reads
    [current_io = psutil.disk_io_counters()] and [current_time = time.time()]. *)
Definition collect_disk_io_metrics_from (current_io : sdiskio) (current_time : Q)
    (self : MetricsCollector) : Outcome dict * MetricsCollector :=
  match last_disk_io self, last_time self with
  | Some last_io, Some last_t =>
      let time_delta := (current_time - last_t)%Q in
      match int_div_float (read_bytes current_io - read_bytes last_io) time_delta with
      | Raise e => (Raise e, self)
      | Return read_rate =>
          match int_div_float (write_bytes current_io - write_bytes last_io) time_delta with
          | Raise e => (Raise e, self)
          | Return write_rate =>
              (Return [("read_bytes", PInt (read_bytes current_io));
                       ("write_bytes", PInt (write_bytes current_io));
                       ("read_bytes_per_sec", PInt (int_of_float read_rate));
                       ("write_bytes_per_sec", PInt (int_of_float write_rate))],
               {| last_disk_io := Some current_io;
                  last_net_io := last_net_io self;
                  last_time := Some current_time |})
          end
      end
  | _, _ =>
      (Return [("read_bytes", PInt 0);
               ("write_bytes", PInt 0);
               ("read_bytes_per_sec", PInt 0);
               ("write_bytes_per_sec", PInt 0)],
       {| last_disk_io := Some current_io;
          last_net_io := last_net_io self;
          last_time := Some current_time |})
  end.

(** The body of [collect_network_metrics] after its two reads.  The second
    branch assigns [last_net_io] only. *)
Definition collect_network_metrics_from (current_net : snetio) (current_time : Q)
    (self : MetricsCollector) : Outcome dict * MetricsCollector :=
  match last_net_io self, last_time self with
  | Some last_net, Some last_t =>
      let time_delta := (current_time - last_t)%Q in
      match int_div_float (bytes_sent current_net - bytes_sent last_net) time_delta with
      | Raise e => (Raise e, self)
      | Return send_rate =>
          match int_div_float (bytes_recv current_net - bytes_recv last_net) time_delta with
          | Raise e => (Raise e, self)
          | Return recv_rate =>
              (Return [("bytes_sent", PInt (bytes_sent current_net));
                       ("bytes_recv", PInt (bytes_recv current_net));
                       ("bytes_sent_per_sec", PInt (int_of_float send_rate));
                       ("bytes_recv_per_sec", PInt (int_of_float recv_rate))],
               {| last_disk_io := last_disk_io self;
                  last_net_io := Some current_net;
                  last_time := last_time self |})
          end
      end
  | _, _ =>
      (Return [("bytes_sent", PInt 0);
               ("bytes_recv", PInt 0);
               ("bytes_sent_per_sec", PInt 0);
               ("bytes_recv_per_sec", PInt 0)],
       {| last_disk_io := last_disk_io self;
          last_net_io := Some current_net;
          last_time := Some current_time |})
  end.

(** ** Configuration models (pydantic classes of the agent) *)

Module ServerConfig.
Record t : Type := { url : string; api_key : string }.
End ServerConfig.

Module CollectionConfig.
Record t : Type := {
  interval_seconds : Z;
  include_docker : bool;
  disk_mounts : list string
}.
(** [CollectionConfig()]: every field at its default. *)
Definition default : t :=
  {| interval_seconds := 30; include_docker := true; disk_mounts := ["/"] |}.
End CollectionConfig.

Module HealthCheckConfig.
Record t : Type := {
  name : string;
  type : string;
  url : option string;
  host : option string;
  port : option Z;
  expected_status : option Z
}.
End HealthCheckConfig.

Module AgentConfig.
Record t : Type := {
  server : ServerConfig.t;
  collection : CollectionConfig.t;
  health_checks : list HealthCheckConfig.t
}.
End AgentConfig.

(** ** The outside world *)

(** What a library call can do: return, raise an [Exception] subclass, or be
    cut short by the operator's Ctrl-C. *)
Inductive Reply (A : Type) : Type :=
| Returns (a : A)
| Fails (cls : ExcClass) (msg : string)
| Interrupted.
Arguments Returns {A} a.
Arguments Fails {A} cls msg.
Arguments Interrupted {A}.

Inductive Level : Type := INFO | WARNING | ERROR.

(** [requests.Response], the field the agent reads. *)
Record Response : Type := { status_code : Z }.

(** [psutil.disk_usage(mount)] *)
Record sdiskusage : Type := { du_total : Z; du_used : Z; du_free : Z; du_percent : Q }.

(** [psutil.virtual_memory()] and [psutil.swap_memory()], the fields read. *)
Record svmem : Type := { vm_total : Z; vm_used : Z; vm_available : Z; vm_percent : Q }.
Record sswap : Type := { sw_total : Z; sw_used : Z; sw_percent : Q }.

(** A docker container object: [attrs] holds the inspect document. *)
Record Container : Type := {
  container_id : string;
  container_name : string;
  container_status : string;
  container_attrs : dict
}.

Inductive Event : Type :=
| EvLog (level : Level) (msg : string)
| EvPsutil (what : string)
| EvDiskUsage (mount : string)
| EvDocker (what : string)
| EvGet (target : option string)
| EvConnect (h : option string) (p : option Z)
| EvPost (target : string) (payload : dict)
| EvSleep (seconds : Z)
| EvOpen (path : string)
| EvYamlLoad.

(** Oracles for every library call of the agent.  The first argument is the
    number of effects performed so far, so that the same call may answer
    differently each time. *)
Record Env : Type := {
  time_time : nat -> Q;                               (* time.time() *)
  datetime_now_isoformat : nat -> string;             (* datetime.now(utc).isoformat() *)
  isoformat_utc : Q -> string;                        (* datetime.fromtimestamp(t, utc).isoformat() *)
  psutil_has_getloadavg : bool;                       (* hasattr(psutil, 'getloadavg') *)
  psutil_has_hostname : bool;                         (* hasattr(psutil, 'hostname') *)
  psutil_cpu_percent : nat -> Reply (list Q);
  psutil_getloadavg : nat -> Reply (list Q);
  psutil_cpu_count : nat -> Reply (option Z);
  psutil_virtual_memory : nat -> Reply svmem;
  psutil_swap_memory : nat -> Reply sswap;
  psutil_disk_usage : nat -> string -> Reply sdiskusage;
  psutil_disk_io_counters : nat -> Reply sdiskio;
  psutil_net_io_counters : nat -> Reply snetio;
  psutil_boot_time : nat -> Reply Q;
  psutil_hostname : nat -> Reply string;
  docker_containers_list : nat -> Reply (list Container);  (* import, from_env, list(all=True) *)
  docker_stats : nat -> string -> Reply pyval;             (* container.stats(stream=False) *)
  docker_image_tags : nat -> string -> Reply (list string);(* container.image.tags *)
  requests_get : nat -> option string -> Reply Response;   (* requests.get(url, timeout=5) *)
  socket_connect_ex : nat -> option string -> option Z -> Reply Z;
  session_post : nat -> string -> dict -> Reply Response;  (* session.post(url, json=, timeout=10) *)
  sleep_interrupted : nat -> bool;                         (* Ctrl-C during time.sleep *)
  open_read : nat -> string -> Reply string;               (* open(path).read *)
  yaml_safe_load : string -> Reply pyval;
  os_getenv : string -> option string;
  pydantic_int : pyval -> option Z;                        (* pydantic's int validator *)
  pydantic_str : pyval -> option string;                   (* pydantic's str validator *)
  pydantic_bool : pyval -> option bool                     (* pydantic's bool validator *)
}.

(** Whatever else pydantic coerces, a value that already has the field's
    type is accepted as it is. *)
Definition pydantic_exact (env : Env) : Prop :=
  (forall z, pydantic_int env (PInt z) = Some z) /\
  (forall s, pydantic_str env (PStr s) = Some s) /\
  (forall b, pydantic_bool env (PBool b) = Some b).

(** The agent's state: the effects performed so far and the collector's
    mutable fields. *)
Record World : Type := { trace : list Event; collector : MetricsCollector }.

Definition World_init : World := {| trace := []; collector := MetricsCollector_init |}.

Definition step (w : World) : nat := List.length (trace w).

Definition record_event (ev : Event) (w : World) : World :=
  {| trace := trace w ++ [ev]; collector := collector w |}.

(** ** A state-and-exception monad for the agent's code *)

Definition M (A : Type) : Type := World -> Outcome A * World.

Definition ret {A : Type} (a : A) : M A := fun w => (Return a, w).

Definition raise {A : Type} (e : BaseException) : M A := fun w => (Raise e, w).

Definition bind {A B : Type} (m : M A) (f : A -> M B) : M B :=
  fun w =>
    match m w with
    | (Return a, w') => f a w'
    | (Raise e, w') => (Raise e, w')
    end.

Declare Scope agent_scope.
Delimit Scope agent_scope with agent.
Notation "x <- m ;; k" := (bind m (fun x => k))
  (at level 61, m at next level, right associativity) : agent_scope.
Notation "m ;;; k" := (bind m (fun _ => k))
  (at level 61, right associativity) : agent_scope.
Local Open Scope agent_scope.

(** Lift a pure computation that may raise. *)
Definition lift {A : Type} (o : Outcome A) : M A := fun w => (o, w).

(** A library call: consult the oracle at the current step, record the call. *)
Definition call {A : Type} (oracle : nat -> Reply A) (ev : Event) : M A :=
  fun w =>
    match oracle (step w) with
    | Returns a => (Return a, record_event ev w)
    | Fails c msg => (Raise (Exception c msg), record_event ev w)
    | Interrupted => (Raise KeyboardInterrupt, record_event ev w)
    end.

Definition logger (level : Level) (msg : string) : M unit :=
  fun w => (Return tt, record_event (EvLog level msg) w).

(** [try: body / except <classes> as e: handler(str(e))]; anything that is
    not an [Exception] of a listed class passes through. *)
Definition try_except {A : Type} (body : M A) (catches : ExcClass -> bool)
    (handler : string -> M A) : M A :=
  fun w =>
    match body w with
    | (Raise (Exception c msg), w') =>
        if catches c then handler msg w' else (Raise (Exception c msg), w')
    | r => r
    end.

Definition any_Exception (c : ExcClass) : bool := true.

(** [try: body / except C1 as e: h1 / except C2 as e: h2 ...]: the first
    clause whose class matches handles the exception; an exception raised by
    a handler is not offered to the other clauses. *)
Fixpoint select_handler {A : Type}
    (clauses : list ((ExcClass -> bool) * (string -> M A))) (c : ExcClass)
    : option (string -> M A) :=
  match clauses with
  | [] => None
  | (catches, handler) :: rest =>
      if catches c then Some handler else select_handler rest c
  end.

Definition try_except_clauses {A : Type} (body : M A)
    (clauses : list ((ExcClass -> bool) * (string -> M A))) : M A :=
  fun w =>
    match body w with
    | (Raise (Exception c msg), w') =>
        match select_handler clauses c with
        | Some handler => handler msg w'
        | None => (Raise (Exception c msg), w')
        end
    | r => r
    end.

(** Run a transition of the collector's fields inside the world. *)
Definition with_collector {A : Type}
    (f : MetricsCollector -> Outcome A * MetricsCollector) : M A :=
  fun w =>
    let (o, c') := f (collector w) in
    (o, {| trace := trace w; collector := c' |}).

(** ** Python arithmetic on dynamic values (used on docker's stats document) *)

Definition and_then {A B : Type} (o : Outcome A) (f : A -> Outcome B) : Outcome B :=
  match o with
  | Return a => f a
  | Raise e => Raise e
  end.

Declare Scope outcome_scope.
Delimit Scope outcome_scope with outcome.
Notation "x <~ o ;; k" := (and_then o (fun x => k))
  (at level 61, o at next level, right associativity) : outcome_scope.

Inductive pynum : Type :=
| NInt (z : Z)
| NFloat (q : Q).

Definition py_num (v : pyval) : option pynum :=
  match v with
  | PInt z => Some (NInt z)
  | PBool b => Some (NInt (if b then 1 else 0))
  | PFloat q => Some (NFloat q)
  | _ => None
  end.

Definition num_Q (n : pynum) : Q :=
  match n with NInt z => inject_Z z | NFloat q => q end.

(** [a - b] *)
Definition py_sub (a b : pyval) : Outcome pyval :=
  match py_num a, py_num b with
  | Some (NInt x), Some (NInt y) => Return (PInt (x - y))
  | Some x, Some y => Return (PFloat (num_Q x - num_Q y))
  | _, _ => Raise (Exception TypeError "unsupported operand type(s) for -")
  end.

(** [a > 0] *)
Definition py_gt_zero (a : pyval) : Outcome bool :=
  match py_num a with
  | Some x => Return (negb (Qle_bool (num_Q x) 0))
  | None => Raise (Exception TypeError "'>' not supported between these instances")
  end.

(** [a / b] (true division) *)
Definition py_truediv (a b : pyval) : Outcome pyval :=
  match py_num a, py_num b with
  | Some x, Some y =>
      if Qeq_bool (num_Q y) 0
      then Raise (Exception ZeroDivisionError "division by zero")
      else Return (PFloat (num_Q x / num_Q y))
  | _, _ => Raise (Exception TypeError "unsupported operand type(s) for /")
  end.

(** [a * 100.0] *)
Definition py_mul_100 (a : pyval) : Outcome pyval :=
  match py_num a with
  | Some x => Return (PFloat (num_Q x * 100))
  | None => Raise (Exception TypeError "unsupported operand type(s) for *")
  end.

(** Nearest integer, ties to even. *)
Definition round_half_even (x : Q) : Z :=
  let f := Qfloor x in
  match Qcompare (x - inject_Z f) (1 # 2) with
  | Lt => f
  | Gt => f + 1
  | Eq => if Z.even f then f else f + 1
  end.

(** [round(x, 2)]: an int is returned unchanged, a float is rounded to two
    decimal places. *)
Definition round2 (x : Q) : Q := Qmake (round_half_even (x * 100)) 100.

Definition py_round2 (a : pyval) : Outcome pyval :=
  match py_num a with
  | Some (NInt z) => Return (PInt z)
  | Some (NFloat q) => Return (PFloat (round2 q))
  | None => Raise (Exception TypeError "type doesn't define __round__ method")
  end.

(** [v[k]] for a string key. *)
Definition py_getitem (v : pyval) (k : string) : Outcome pyval :=
  match v with
  | PDict d =>
      match dict_get k d with
      | Some x => Return x
      | None => Raise (Exception KeyError ("'" ++ k ++ "'"))
      end
  | PStr _ | PList _ => Raise (Exception TypeError "indices must be integers")
  | _ => Raise (Exception TypeError "object is not subscriptable")
  end.

(** [v.get(k, default)] *)
Definition py_get (v : pyval) (k : string) (default : pyval) : Outcome pyval :=
  match v with
  | PDict d =>
      match dict_get k d with
      | Some x => Return x
      | None => Return default
      end
  | _ => Raise (Exception AttributeError "object has no attribute 'get'")
  end.

(** Truth value of an object. *)
Definition py_truthy (v : pyval) : bool :=
  match v with
  | PNone => false
  | PBool b => b
  | PInt z => negb (Z.eqb z 0)
  | PFloat q => negb (Qeq_bool q 0)
  | PStr s => negb (String.eqb s EmptyString)
  | PList l => match l with [] => false | _ => true end
  | PDict d => match d with [] => false | _ => true end
  end.

(** [d.update(other)] *)
Definition dict_update (d other : dict) : dict :=
  fold_left (fun acc kv => dict_set (fst kv) (snd kv) acc) other d.

Local Open Scope outcome_scope.

(** [cpu_percent = (cpu_delta / system_delta) * 100.0 if system_delta > 0 else 0] *)
Definition cpu_percent_of (cpu_delta system_delta : pyval) : Outcome pyval :=
  positive <~ py_gt_zero system_delta ;;
  if (positive : bool)
  then (ratio <~ py_truediv cpu_delta system_delta ;; py_mul_100 ratio)
  else Return (PInt 0).

(** [mem_percent = (mem_usage / mem_limit) * 100.0 if mem_limit > 0 else 0] *)
Definition mem_percent_of (mem_usage mem_limit : pyval) : Outcome pyval :=
  positive <~ py_gt_zero mem_limit ;;
  if (positive : bool)
  then (ratio <~ py_truediv mem_usage mem_limit ;; py_mul_100 ratio)
  else Return (PInt 0).

(** The block of [collect_docker_metrics] guarded by
    [container.status == 'running' and stats]: the dictionary passed to
    [container_info.update]. *)
Definition running_container_metrics (stats : pyval) : Outcome dict :=
  cpu_stats <~ py_getitem stats "cpu_stats" ;;
  cpu_usage <~ py_getitem cpu_stats "cpu_usage" ;;
  total <~ py_getitem cpu_usage "total_usage" ;;
  precpu_stats <~ py_getitem stats "precpu_stats" ;;
  precpu_usage <~ py_getitem precpu_stats "cpu_usage" ;;
  pretotal <~ py_getitem precpu_usage "total_usage" ;;
  cpu_delta <~ py_sub total pretotal ;;
  cpu_stats' <~ py_getitem stats "cpu_stats" ;;
  system <~ py_getitem cpu_stats' "system_cpu_usage" ;;
  precpu_stats' <~ py_getitem stats "precpu_stats" ;;
  presystem <~ py_getitem precpu_stats' "system_cpu_usage" ;;
  system_delta <~ py_sub system presystem ;;
  cpu_percent <~ cpu_percent_of cpu_delta system_delta ;;
  memory_stats <~ py_getitem stats "memory_stats" ;;
  mem_usage <~ py_get memory_stats "usage" (PInt 0) ;;
  memory_stats' <~ py_getitem stats "memory_stats" ;;
  mem_limit <~ py_get memory_stats' "limit" (PInt 1) ;;
  mem_percent <~ mem_percent_of mem_usage mem_limit ;;
  cpu_rounded <~ py_round2 cpu_percent ;;
  mem_rounded <~ py_round2 mem_percent ;;
  networks <~ py_getitem stats "networks" ;;
  eth0 <~ py_get networks "eth0" (PDict []) ;;
  rx <~ py_get eth0 "rx_bytes" (PInt 0) ;;
  networks' <~ py_getitem stats "networks" ;;
  eth0' <~ py_get networks' "eth0" (PDict []) ;;
  tx <~ py_get eth0' "tx_bytes" (PInt 0) ;;
  Return [("cpu_percent", cpu_rounded);
          ("memory_usage", mem_usage);
          ("memory_percent", mem_rounded);
          ("network_rx_bytes", rx);
          ("network_tx_bytes", tx)].

(** [response.raise_for_status()] of the requests library: an [HTTPError]
    for a 4xx or 5xx status, nothing otherwise. *)
Definition raise_for_status (response : Response) : Outcome unit :=
  let sc := status_code response in
  if (400 <=? sc) && (sc <? 500)
  then Raise (Exception HTTPError (str_int sc ++ " Client Error"))
  else if (500 <=? sc) && (sc <? 600)
  then Raise (Exception HTTPError (str_int sc ++ " Server Error"))
  else Return tt.

Local Close Scope outcome_scope.

(** ** The agent *)

Section Agent.

Variable env : Env.

(** [time.time()] *)
Definition now : M Q := fun w => (Return (time_time env (step w)), w).

(** [time.sleep(seconds)] *)
Definition time_sleep (seconds : Z) : M unit :=
  fun w =>
    if seconds <? 0
    then (Raise (Exception ValueError "sleep length must be non-negative"), w)
    else if sleep_interrupted env (step w)
    then (Raise KeyboardInterrupt, record_event (EvSleep seconds) w)
    else (Return tt, record_event (EvSleep seconds) w).

(** *** MetricsCollector *)

Definition collect_cpu_metrics : M dict :=
  cpu_percent <- call (psutil_cpu_percent env) (EvPsutil "cpu_percent") ;;
  load_avg <- (if psutil_has_getloadavg env
               then (l <- call (psutil_getloadavg env) (EvPsutil "getloadavg") ;;
                     ret (map PFloat l))
               else ret [PInt 0; PInt 0; PInt 0]) ;;
  count <- call (psutil_cpu_count env) (EvPsutil "cpu_count") ;;
  ret [("percent", PList (map PFloat cpu_percent));
       ("load_avg", PList load_avg);
       ("count", match count with Some n => PInt n | None => PNone end)].

Definition collect_memory_metrics : M dict :=
  mem <- call (psutil_virtual_memory env) (EvPsutil "virtual_memory") ;;
  swap <- call (psutil_swap_memory env) (EvPsutil "swap_memory") ;;
  ret [("total", PInt (vm_total mem));
       ("used", PInt (vm_used mem));
       ("available", PInt (vm_available mem));
       ("percent", PFloat (vm_percent mem));
       ("swap_total", PInt (sw_total swap));
       ("swap_used", PInt (sw_used swap));
       ("swap_percent", PFloat (sw_percent swap))].

(** The [for mount in self.config.disk_mounts] loop, [disks] accumulating. *)
Fixpoint collect_disk_metrics_loop (mounts : list string) (disks : list pyval)
    : M (list pyval) :=
  match mounts with
  | [] => ret disks
  | mount :: rest =>
      disks' <- try_except
                  (usage <- call (fun n => psutil_disk_usage env n mount) (EvDiskUsage mount) ;;
                   ret (disks ++ [PDict [("mount", PStr mount);
                                         ("total", PInt (du_total usage));
                                         ("used", PInt (du_used usage));
                                         ("free", PInt (du_free usage));
                                         ("percent", PFloat (du_percent usage))]])%list)
                  any_Exception
                  (fun e =>
                     logger WARNING ("Failed to get disk usage for " ++ mount ++ ": " ++ e) ;;;
                     ret disks) ;;
      collect_disk_metrics_loop rest disks'
  end.

Definition collect_disk_metrics (config : CollectionConfig.t) : M (list pyval) :=
  collect_disk_metrics_loop (CollectionConfig.disk_mounts config) [].

Definition collect_disk_io_metrics : M dict :=
  current_io <- call (psutil_disk_io_counters env) (EvPsutil "disk_io_counters") ;;
  current_time <- now ;;
  with_collector (collect_disk_io_metrics_from current_io current_time).

Definition collect_network_metrics : M dict :=
  current_net <- call (psutil_net_io_counters env) (EvPsutil "net_io_counters") ;;
  current_time <- now ;;
  with_collector (collect_network_metrics_from current_net current_time).

Definition collect_system_info : M dict :=
  boot_time <- call (psutil_boot_time env) (EvPsutil "boot_time") ;;
  t <- now ;;
  let uptime_seconds := int_of_float (t - boot_time) in
  hostname <- (if psutil_has_hostname env
               then call (psutil_hostname env) (EvPsutil "hostname")
               else ret "unknown") ;;
  ret [("hostname", PStr hostname);
       ("boot_time", PStr (isoformat_utc env boot_time));
       ("uptime_seconds", PInt uptime_seconds)].

(** The body of the per-container [try] of [collect_docker_metrics]:
    [Some container_info] when it is appended, [None] when the container is
    skipped with a warning. *)
Definition collect_container (container : Container) : M (option dict) :=
  let cid := container_id container in
  let running := String.eqb (container_status container) "running" in
  try_except
    (stats <- (if running
               then call (fun n => docker_stats env n cid) (EvDocker "stats")
               else ret (PDict [])) ;;
     tags <- call (fun n => docker_image_tags env n cid) (EvDocker "image") ;;
     image <- (match tags with
               | [] => ret "unknown"
               | _ :: _ =>
                   tags' <- call (fun n => docker_image_tags env n cid) (EvDocker "image") ;;
                   match tags' with
                   | first :: _ => ret first
                   | [] => raise (Exception IndexError "list index out of range")
                   end
               end) ;;
     created <- lift (py_getitem (PDict (container_attrs container)) "Created") ;;
     let container_info :=
       [("id", PStr (substring 0 12 cid));
        ("name", PStr (container_name container));
        ("image", PStr image);
        ("status", PStr (container_status container));
        ("created", created)] in
     if running && py_truthy stats
     then (more <- lift (running_container_metrics stats) ;;
           ret (Some (dict_update container_info more)))
     else ret (Some container_info))
    any_Exception
    (fun e =>
       logger WARNING ("Failed to get stats for container "
                       ++ container_name container ++ ": " ++ e) ;;;
       ret None).

Fixpoint collect_containers_loop (cs : list Container) (containers : list pyval)
    : M (list pyval) :=
  match cs with
  | [] => ret containers
  | container :: rest =>
      info <- collect_container container ;;
      collect_containers_loop rest
        (match info with
         | Some d => (containers ++ [PDict d])%list
         | None => containers
         end)
  end.

Definition collect_docker_metrics (config : CollectionConfig.t) : M (list pyval) :=
  if negb (CollectionConfig.include_docker config) then ret []
  else
    try_except_clauses
      (cs <- call (docker_containers_list env) (EvDocker "list") ;;
       collect_containers_loop cs [])
      [(is_ImportError,
        fun _ => logger WARNING "Docker library not installed, skipping Docker metrics" ;;;
                 ret []);
       (any_Exception,
        fun e => logger WARNING ("Failed to collect Docker metrics: " ++ e) ;;;
                 ret [])].

(** [datetime.now(timezone.utc).isoformat()] *)
Definition utc_now_isoformat : M string :=
  fun w => (Return (datetime_now_isoformat env (step w)), w).

Definition collect_all (config : CollectionConfig.t) : M dict :=
  timestamp <- utc_now_isoformat ;;
  system <- collect_system_info ;;
  cpu <- collect_cpu_metrics ;;
  memory <- collect_memory_metrics ;;
  disks <- collect_disk_metrics config ;;
  disk_io <- collect_disk_io_metrics ;;
  network <- collect_network_metrics ;;
  containers <- collect_docker_metrics config ;;
  ret [("timestamp", PStr timestamp);
       ("system", PDict system);
       ("metrics", PDict [("cpu", PDict cpu);
                          ("memory", PDict memory);
                          ("disks", PList disks);
                          ("disk_io", PDict disk_io);
                          ("network", PDict network)]);
       ("containers", PList containers)].

(** *** HealthChecker *)

(** [response.status_code == config.expected_status] *)
Definition status_matches (sc : Z) (expected : option Z) : bool :=
  match expected with
  | Some e => Z.eqb sc e
  | None => false
  end.

Definition opt_str (o : option string) : pyval :=
  match o with Some s => PStr s | None => PNone end.

Definition opt_int (o : option Z) : pyval :=
  match o with Some z => PInt z | None => PNone end.

Definition check_http (config : HealthCheckConfig.t) : M dict :=
  try_except
    (start_time <- now ;;
     response <- call (fun n => requests_get env n (HealthCheckConfig.url config))
                      (EvGet (HealthCheckConfig.url config)) ;;
     end_time <- now ;;
     let response_time := (end_time - start_time)%Q in
     let is_healthy :=
       status_matches (status_code response) (HealthCheckConfig.expected_status config) in
     ret [("name", PStr (HealthCheckConfig.name config));
          ("type", PStr "http");
          ("healthy", PBool is_healthy);
          ("status_code", PInt (status_code response));
          ("response_time_ms", PInt (int_of_float (response_time * 1000)));
          ("message",
           PStr (if is_healthy then "OK"
                 else "Expected " ++ str_opt_int (HealthCheckConfig.expected_status config)
                      ++ ", got " ++ str_int (status_code response)))])
    any_Exception
    (fun e =>
       ret [("name", PStr (HealthCheckConfig.name config));
            ("type", PStr "http");
            ("healthy", PBool false);
            ("message", PStr e)]).

(** The socket is created, given a 5 s timeout, connected with [connect_ex]
    and closed: one oracle answers for the four calls. *)
Definition check_tcp (config : HealthCheckConfig.t) : M dict :=
  try_except
    (result <- call (fun n => socket_connect_ex env n (HealthCheckConfig.host config)
                                (HealthCheckConfig.port config))
                    (EvConnect (HealthCheckConfig.host config)
                               (HealthCheckConfig.port config)) ;;
     let is_healthy := Z.eqb result 0 in
     ret [("name", PStr (HealthCheckConfig.name config));
          ("type", PStr "tcp");
          ("healthy", PBool is_healthy);
          ("host", opt_str (HealthCheckConfig.host config));
          ("port", opt_int (HealthCheckConfig.port config));
          ("message", PStr (if is_healthy then "Port is open" else "Port is closed"))])
    any_Exception
    (fun e =>
       ret [("name", PStr (HealthCheckConfig.name config));
            ("type", PStr "tcp");
            ("healthy", PBool false);
            ("message", PStr e)]).

(** The [for check in health_checks] loop, [results] accumulating. *)
Fixpoint check_all_loop (health_checks : list HealthCheckConfig.t) (results : list dict)
    : M (list dict) :=
  match health_checks with
  | [] => ret results
  | check :: rest =>
      if String.eqb (HealthCheckConfig.type check) "http"
      then (r <- check_http check ;; check_all_loop rest (results ++ [r])%list)
      else if String.eqb (HealthCheckConfig.type check) "tcp"
      then (r <- check_tcp check ;; check_all_loop rest (results ++ [r])%list)
      else check_all_loop rest results
  end.

Definition check_all (health_checks : list HealthCheckConfig.t) : M (list dict) :=
  check_all_loop health_checks [].

(** *** Agent *)

Definition metrics_url (config : AgentConfig.t) : string :=
  ServerConfig.url (AgentConfig.server config) ++ "/metrics".

Definition send_metrics (config : AgentConfig.t) (payload : dict) : M bool :=
  try_except
    (response <- call (fun n => session_post env n (metrics_url config) payload)
                      (EvPost (metrics_url config) payload) ;;
     lift (raise_for_status response) ;;;
     logger INFO ("Metrics sent successfully (status: "
                  ++ str_int (status_code response) ++ ")") ;;;
     ret true)
    is_RequestException
    (fun e => logger ERROR ("Failed to send metrics: " ++ e) ;;; ret false).

(** The payload of a cycle: [metrics] with the health-check results attached
    under [if health_checks:]. *)
Definition attach_health_checks (metrics : dict) (health_checks : list dict) : dict :=
  match health_checks with
  | [] => metrics
  | _ :: _ => dict_set "health_checks" (PList (map PDict health_checks)) metrics
  end.

(** The [try] block of the loop body. *)
Definition cycle (config : AgentConfig.t) : M unit :=
  metrics <- collect_all (AgentConfig.collection config) ;;
  health_checks <- check_all (AgentConfig.health_checks config) ;;
  send_metrics config (attach_health_checks metrics health_checks) ;;;
  time_sleep (CollectionConfig.interval_seconds (AgentConfig.collection config)).

Inductive LoopStep : Type := Continue | Break.

(** One pass through [while True]: the [try] block and its two [except]
    clauses. *)
Definition run_iteration (config : AgentConfig.t) : M LoopStep :=
  fun w =>
    match cycle config w with
    | (Return _, w') => (Return Continue, w')
    | (Raise KeyboardInterrupt, w') =>
        (logger INFO "Agent stopped by user" ;;; ret Break) w'
    | (Raise (Exception _ msg), w') =>
        (logger ERROR ("Error in agent loop: " ++ msg) ;;;
         time_sleep (CollectionConfig.interval_seconds (AgentConfig.collection config)) ;;;
         ret Continue) w'
    | (Raise (SystemExit code), w') => (Raise (SystemExit code), w')
    end.

(** How [run] stands after a bounded number of passes. *)
Inductive RunState : Type :=
| Looping                        (* the passes are used up, the loop goes on *)
| Stopped                        (* [break]: [run] returned *)
| Propagated (e : BaseException) (* an exception left [run] *).

Fixpoint run_loop (config : AgentConfig.t) (passes : nat) (w : World) : RunState * World :=
  match passes with
  | O => (Looping, w)
  | S n =>
      match run_iteration config w with
      | (Return Continue, w') => run_loop config n w'
      | (Return Break, w') => (Stopped, w')
      | (Raise e, w') => (Propagated e, w')
      end
  end.

Definition run (config : AgentConfig.t) (passes : nat) (w : World) : RunState * World :=
  run_loop config passes
    (record_event
       (EvLog INFO ("Starting agent loop (interval: "
                    ++ str_int (CollectionConfig.interval_seconds (AgentConfig.collection config))
                    ++ "s)")) w).

(** *** Configuration loading *)

(** A field annotated [Optional[T] = default]. *)
Definition validate_optional {A : Type} (validator : pyval -> option A)
    (default : option A) (field : option pyval) : option (option A) :=
  match field with
  | None => Some default
  | Some PNone => Some None
  | Some v =>
      match validator v with
      | Some a => Some (Some a)
      | None => None
      end
  end.

(** A field annotated [T = default]. *)
Definition validate_default {A : Type} (validator : pyval -> option A)
    (default : A) (field : option pyval) : option A :=
  match field with
  | None => Some default
  | Some v => validator v
  end.

(** A required field. *)
Definition validate_required {A : Type} (validator : pyval -> option A)
    (field : option pyval) : option A :=
  match field with
  | None => None
  | Some v => validator v
  end.

Fixpoint validate_each {A : Type} (validator : pyval -> option A) (l : list pyval)
    : option (list A) :=
  match l with
  | [] => Some []
  | v :: rest =>
      match validator v, validate_each validator rest with
      | Some a, Some rest' => Some (a :: rest')
      | _, _ => None
      end
  end.

(** A field annotated [List[T]]. *)
Definition validate_list {A : Type} (validator : pyval -> option A) (v : pyval)
    : option (list A) :=
  match v with
  | PList l => validate_each validator l
  | _ => None
  end.

(** [Field(ge=5, le=3600)] on an int. *)
Definition validate_interval (v : pyval) : option Z :=
  match pydantic_int env v with
  | Some n => if (5 <=? n) && (n <=? 3600) then Some n else None
  | None => None
  end.

Definition validate_ServerConfig (v : pyval) : option ServerConfig.t :=
  match v with
  | PDict d =>
      match validate_required (pydantic_str env) (dict_get "url" d),
            validate_required (pydantic_str env) (dict_get "api_key" d) with
      | Some u, Some k => Some {| ServerConfig.url := u; ServerConfig.api_key := k |}
      | _, _ => None
      end
  | _ => None
  end.

Definition validate_CollectionConfig (v : pyval) : option CollectionConfig.t :=
  match v with
  | PDict d =>
      match validate_default validate_interval 30 (dict_get "interval_seconds" d),
            validate_default (pydantic_bool env) true (dict_get "include_docker" d),
            validate_default (validate_list (pydantic_str env)) ["/"]
              (dict_get "disk_mounts" d) with
      | Some i, Some b, Some m =>
          Some {| CollectionConfig.interval_seconds := i;
                  CollectionConfig.include_docker := b;
                  CollectionConfig.disk_mounts := m |}
      | _, _, _ => None
      end
  | _ => None
  end.

Definition validate_HealthCheckConfig (v : pyval) : option HealthCheckConfig.t :=
  match v with
  | PDict d =>
      match validate_required (pydantic_str env) (dict_get "name" d),
            validate_required (pydantic_str env) (dict_get "type" d),
            validate_optional (pydantic_str env) None (dict_get "url" d),
            validate_optional (pydantic_str env) None (dict_get "host" d),
            validate_optional (pydantic_int env) None (dict_get "port" d),
            validate_optional (pydantic_int env) (Some 200) (dict_get "expected_status" d) with
      | Some n, Some t, Some u, Some h, Some p, Some e =>
          Some {| HealthCheckConfig.name := n;
                  HealthCheckConfig.type := t;
                  HealthCheckConfig.url := u;
                  HealthCheckConfig.host := h;
                  HealthCheckConfig.port := p;
                  HealthCheckConfig.expected_status := e |}
      | _, _, _, _, _, _ => None
      end
  | _ => None
  end.

(** Validation of the keyword arguments of [AgentConfig(...)]. *)
Definition validate_AgentConfig (d : dict) : option AgentConfig.t :=
  match validate_required validate_ServerConfig (dict_get "server" d),
        validate_default validate_CollectionConfig CollectionConfig.default
          (dict_get "collection" d),
        validate_default (validate_list validate_HealthCheckConfig) []
          (dict_get "health_checks" d) with
  | Some s, Some c, Some h =>
      Some {| AgentConfig.server := s;
              AgentConfig.collection := c;
              AgentConfig.health_checks := h |}
  | _, _, _ => None
  end.

(** The constructor call of [load_config]: [config_dict] unpacked into the
    keyword arguments of [AgentConfig]. *)
Definition AgentConfig_construct (config_dict : pyval) : Outcome AgentConfig.t :=
  match config_dict with
  | PDict d =>
      match validate_AgentConfig d with
      | Some config => Return config
      | None => Raise (Exception ValidationError "validation error for AgentConfig")
      end
  | _ => Raise (Exception TypeError "argument after ** must be a mapping")
  end.

(** [k in v] for a string [k]. *)
Definition py_contains (k : string) (v : pyval) : Outcome bool :=
  match v with
  | PDict d => Return (dict_has k d)
  | PStr s => Return (match index 0 k s with Some _ => true | None => false end)
  | PList l =>
      Return (existsb (fun x => match x with PStr s => String.eqb s k | _ => false end) l)
  | _ => Raise (Exception TypeError "argument is not iterable")
  end.

(** [s.endswith('}')] *)
Definition ends_with_brace (s : string) : bool :=
  match String.length s with
  | O => false
  | S n => match get n s with
           | Some c => Ascii.eqb c "}"%char
           | None => false
           end
  end.

(** The environment-variable substitution of [load_config]. *)
Definition substitute_api_key (config_dict : pyval) : Outcome pyval :=
  (has_server <~ py_contains "server" config_dict ;;
   if (has_server : bool) then
     server <~ py_getitem config_dict "server" ;;
     has_key <~ py_contains "api_key" server ;;
     if (has_key : bool) then
       server' <~ py_getitem config_dict "server" ;;
       api_key <~ py_getitem server' "api_key" ;;
       match api_key with
       | PStr k =>
           if prefix "${" k && ends_with_brace k then
             let env_var := substring 2 (String.length k - 3) k in
             let value := match os_getenv env env_var with
                          | Some v => v
                          | None => EmptyString
                          end in
             match config_dict, server' with
             | PDict d, PDict srv =>
                 Return (PDict (dict_set "server"
                                  (PDict (dict_set "api_key" (PStr value) srv)) d))
             | _, _ => Raise (Exception TypeError "object does not support item assignment")
             end
           else Return config_dict
       | _ => Raise (Exception AttributeError "object has no attribute 'startswith'")
       end
     else Return config_dict
   else Return config_dict)%outcome.

Definition load_config (config_path : string) : M AgentConfig.t :=
  try_except_clauses
    (text <- call (fun n => open_read env n config_path) (EvOpen config_path) ;;
     config_dict <- call (fun _ => yaml_safe_load env text) EvYamlLoad ;;
     config_dict' <- lift (substitute_api_key config_dict) ;;
     lift (AgentConfig_construct config_dict'))
    [(is_FileNotFoundError,
      fun _ => logger ERROR ("Configuration file not found: " ++ config_path) ;;;
               raise (SystemExit 1));
     (is_ValidationError,
      fun e => logger ERROR ("Configuration validation error: " ++ e) ;;;
               raise (SystemExit 1));
     (any_Exception,
      fun e => logger ERROR ("Failed to load configuration: " ++ e) ;;;
               raise (SystemExit 1))].

(** [Agent.__init__] *)
Definition Agent_init (config_path : string) : M AgentConfig.t :=
  config <- load_config config_path ;;
  with_collector (fun _ => (Return tt, MetricsCollector_init)) ;;;
  logger INFO "Agent initialized successfully" ;;;
  ret config.

(** [main], the loop cut after [passes] passes. *)
Definition main (config_path : string) (passes : nat) (w : World) : RunState * World :=
  match Agent_init config_path w with
  | (Return config, w') => run config passes w'
  | (Raise e, w') => (Propagated e, w')
  end.

End Agent.

(** ** Sample inputs *)

(** What the per-class reading of the rate tracker prescribes: the rate of a
    counter over the time since that class was last sampled. *)
Definition rate_per_second (current previous : Z) (current_t previous_t : Q) : Z :=
  int_of_float (inject_Z (current - previous) / (current_t - previous_t)).

(** Two collection cycles thirty seconds apart; in each cycle the network
    counters are read half a second after the disk counters. *)
Definition disk_sample_1 : sdiskio := {| read_bytes := 0; write_bytes := 0 |}.
Definition net_sample_1 : snetio := {| bytes_sent := 1000; bytes_recv := 2000 |}.
Definition disk_sample_2 : sdiskio := {| read_bytes := 3000; write_bytes := 6000 |}.
Definition net_sample_2 : snetio := {| bytes_sent := 31000; bytes_recv := 62000 |}.

Definition after_disk_1 : MetricsCollector :=
  snd (collect_disk_io_metrics_from disk_sample_1 100 MetricsCollector_init).
Definition after_net_1 : MetricsCollector :=
  snd (collect_network_metrics_from net_sample_1 (201 # 2) after_disk_1).
Definition after_disk_2 : MetricsCollector :=
  snd (collect_disk_io_metrics_from disk_sample_2 130 after_net_1).
Definition after_net_2 : MetricsCollector :=
  snd (collect_network_metrics_from net_sample_2 (261 # 2) after_disk_2).

(** What the first branch of either collector returns. *)
Definition zero_disk_result : dict :=
  [("read_bytes", PInt 0); ("write_bytes", PInt 0);
   ("read_bytes_per_sec", PInt 0); ("write_bytes_per_sec", PInt 0)].

Definition zero_network_result : dict :=
  [("bytes_sent", PInt 0); ("bytes_recv", PInt 0);
   ("bytes_sent_per_sec", PInt 0); ("bytes_recv_per_sec", PInt 0)].

(** A world that answers every call of the agent with fixed values; the
    answers to the probes, to the POST and to the configuration reads are
    parameters.  The clock advances one second per effect, docker is not
    installed, and pydantic accepts exactly the values of the field's type. *)
Definition sample_env (get : Reply Response) (connect : Reply Z) (post : Reply Response)
    (config_file : Reply string) (document : Reply pyval) : Env :=
  {| time_time := fun n => inject_Z (Z.of_nat n);
     datetime_now_isoformat := fun _ => "2024-01-01T00:00:00+00:00";
     isoformat_utc := fun _ => "2023-12-31T00:00:00+00:00";
     psutil_has_getloadavg := true;
     psutil_has_hostname := false;
     psutil_cpu_percent := fun _ => Returns [(25 # 2)%Q; 50%Q];
     psutil_getloadavg := fun _ => Returns [(1 # 2)%Q; (1 # 4)%Q; (1 # 8)%Q];
     psutil_cpu_count := fun _ => Returns (Some 2);
     psutil_virtual_memory := fun _ =>
       Returns {| vm_total := 8000; vm_used := 2000; vm_available := 6000;
                  vm_percent := 25%Q |};
     psutil_swap_memory := fun _ =>
       Returns {| sw_total := 1000; sw_used := 0; sw_percent := 0%Q |};
     psutil_disk_usage := fun _ _ =>
       Returns {| du_total := 100000; du_used := 40000; du_free := 60000;
                  du_percent := 40%Q |};
     psutil_disk_io_counters := fun n =>
       Returns {| read_bytes := 1000 * Z.of_nat n; write_bytes := 2000 * Z.of_nat n |};
     psutil_net_io_counters := fun n =>
       Returns {| bytes_sent := 300 * Z.of_nat n; bytes_recv := 500 * Z.of_nat n |};
     psutil_boot_time := fun _ => Returns 0%Q;
     psutil_hostname := fun _ => Returns "homelab";
     docker_containers_list := fun _ => Fails ImportError "No module named 'docker'";
     docker_stats := fun _ _ => Returns (PDict []);
     docker_image_tags := fun _ _ => Returns [];
     requests_get := fun _ _ => get;
     socket_connect_ex := fun _ _ _ => connect;
     session_post := fun _ _ _ => post;
     sleep_interrupted := fun _ => false;
     open_read := fun _ _ => config_file;
     yaml_safe_load := fun _ => document;
     os_getenv := fun _ => None;
     pydantic_int := fun v => match v with PInt z => Some z | _ => None end;
     pydantic_str := fun v => match v with PStr s => Some s | _ => None end;
     pydantic_bool := fun v => match v with PBool b => Some b | _ => None end |}.

(** Every probe answers, the server accepts the POST. *)
Definition quiet_env : Env :=
  sample_env (Returns {| status_code := 200 |}) (Returns 0)
    (Returns {| status_code := 200 |}) (Returns "server: {}") (Returns (PDict [])).

Definition sample_server : ServerConfig.t :=
  {| ServerConfig.url := "http://monitor.local:8000/api/v1";
     ServerConfig.api_key := "secret" |}.

Definition web_check : HealthCheckConfig.t :=
  {| HealthCheckConfig.name := "web"; HealthCheckConfig.type := "http";
     HealthCheckConfig.url := Some "http://localhost:8080/health";
     HealthCheckConfig.host := None; HealthCheckConfig.port := None;
     HealthCheckConfig.expected_status := Some 200 |}.

Definition db_check : HealthCheckConfig.t :=
  {| HealthCheckConfig.name := "db"; HealthCheckConfig.type := "tcp";
     HealthCheckConfig.url := None;
     HealthCheckConfig.host := Some "localhost"; HealthCheckConfig.port := Some 5432;
     HealthCheckConfig.expected_status := Some 200 |}.

Definition cron_check : HealthCheckConfig.t :=
  {| HealthCheckConfig.name := "cron"; HealthCheckConfig.type := "process";
     HealthCheckConfig.url := None; HealthCheckConfig.host := None;
     HealthCheckConfig.port := None; HealthCheckConfig.expected_status := Some 200 |}.

(** A check of type http with every optional field absent. *)
Definition bare_check : HealthCheckConfig.t :=
  {| HealthCheckConfig.name := "bare"; HealthCheckConfig.type := "http";
     HealthCheckConfig.url := None; HealthCheckConfig.host := None;
     HealthCheckConfig.port := None; HealthCheckConfig.expected_status := None |}.

Definition sample_config (checks : list HealthCheckConfig.t) : AgentConfig.t :=
  {| AgentConfig.server := sample_server;
     AgentConfig.collection := CollectionConfig.default;
     AgentConfig.health_checks := checks |}.

(** ** Vocabulary of the properties *)

(** The check types that [check_all] dispatches. *)
Definition is_probe (config : HealthCheckConfig.t) : bool :=
  String.eqb (HealthCheckConfig.type config) "http"
  || String.eqb (HealthCheckConfig.type config) "tcp".

(** [d] is the result of the check [config]. *)
Definition result_of (config : HealthCheckConfig.t) (d : dict) : Prop :=
  dict_get "name" d = Some (PStr (HealthCheckConfig.name config)) /\
  dict_get "type" d = Some (PStr (HealthCheckConfig.type config)).

(** A result carries a boolean verdict and a string message. *)
Definition verdict_and_message (d : dict) : Prop :=
  exists b m, dict_get "healthy" d = Some (PBool b) /\ dict_get "message" d = Some (PStr m).

(** No probe call is cut short by the operator's Ctrl-C. *)
Definition probes_uninterrupted (env : Env) : Prop :=
  (forall n u, requests_get env n u <> Interrupted) /\
  (forall n h p, socket_connect_ex env n h p <> Interrupted).

(** The payloads of the POST requests of a trace, oldest first. *)
Fixpoint posted_payloads (tr : list Event) : list dict :=
  match tr with
  | [] => []
  | EvPost _ payload :: rest => payload :: posted_payloads rest
  | _ :: rest => posted_payloads rest
  end.


(** An outcome or a computation that raises, if at all, only exceptions
    satisfying [P]. *)
Definition raises_only {A : Type} (P : BaseException -> Prop) (o : Outcome A) : Prop :=
  forall e, o = Raise e -> P e.

Definition not_SystemExit (e : BaseException) : Prop :=
  forall code, e <> SystemExit code.


Definition is_Exception (e : BaseException) : Prop :=
  exists cls msg, e = Exception cls msg.

Definition raises_in {A : Type} (P : BaseException -> Prop) (m : M A) : Prop :=
  forall w, raises_only P (fst (m w)).

(** The operator never presses Ctrl-C: no call of the loop is interrupted. *)
Record uninterrupted (env : Env) : Prop := {
  cpu_percent_answers : forall n, psutil_cpu_percent env n <> Interrupted;
  getloadavg_answers : forall n, psutil_getloadavg env n <> Interrupted;
  cpu_count_answers : forall n, psutil_cpu_count env n <> Interrupted;
  virtual_memory_answers : forall n, psutil_virtual_memory env n <> Interrupted;
  swap_memory_answers : forall n, psutil_swap_memory env n <> Interrupted;
  disk_usage_answers : forall n m, psutil_disk_usage env n m <> Interrupted;
  disk_io_counters_answers : forall n, psutil_disk_io_counters env n <> Interrupted;
  net_io_counters_answers : forall n, psutil_net_io_counters env n <> Interrupted;
  boot_time_answers : forall n, psutil_boot_time env n <> Interrupted;
  hostname_answers : forall n, psutil_hostname env n <> Interrupted;
  containers_list_answers : forall n, docker_containers_list env n <> Interrupted;
  stats_answers : forall n c, docker_stats env n c <> Interrupted;
  image_tags_answers : forall n c, docker_image_tags env n c <> Interrupted;
  get_answers : forall n u, requests_get env n u <> Interrupted;
  connect_answers : forall n h p, socket_connect_ex env n h p <> Interrupted;
  post_answers : forall n u d, session_post env n u d <> Interrupted;
  sleep_completes : forall n, sleep_interrupted env n = false
}.

(** The configured collection interval. *)
Definition interval_of (config : AgentConfig.t) : Z :=
  CollectionConfig.interval_seconds (AgentConfig.collection config).


(** [v[k1][k2]...] *)
Fixpoint py_path (v : pyval) (keys : list string) : Outcome pyval :=
  match keys with
  | [] => Return v
  | k :: rest => and_then (py_getitem v k) (fun x => py_path x rest)
  end.



(** A stats document as docker reports it for a running container. *)
Definition sample_stats (total pretotal system presystem usage limit : Z) : pyval :=
  PDict [("cpu_stats",
          PDict [("cpu_usage", PDict [("total_usage", PInt total)]);
                 ("system_cpu_usage", PInt system)]);
         ("precpu_stats",
          PDict [("cpu_usage", PDict [("total_usage", PInt pretotal)]);
                 ("system_cpu_usage", PInt presystem)]);
         ("memory_stats", PDict [("usage", PInt usage); ("limit", PInt limit)]);
         ("networks",
          PDict [("eth0", PDict [("rx_bytes", PInt 10); ("tx_bytes", PInt 20)])])].



(** A configuration document with a server section and a collection
    interval, as [yaml.safe_load] returns it. *)
Definition sample_document (interval : Z) : pyval :=
  PDict [("server", PDict [("url", PStr "http://monitor.local:8000/api/v1");
                           ("api_key", PStr "secret")]);
         ("collection", PDict [("interval_seconds", PInt interval)])].

(** The configuration that [sample_document] describes. *)
Definition sample_loaded_config (interval : Z) : AgentConfig.t :=
  {| AgentConfig.server := sample_server;
     AgentConfig.collection :=
       {| CollectionConfig.interval_seconds := interval;
          CollectionConfig.include_docker := true;
          CollectionConfig.disk_mounts := ["/"] |};
     AgentConfig.health_checks := [] |}.


(** The one network call that [check_all] makes for a check it runs. *)
Definition probe_event (config : HealthCheckConfig.t) : Event :=
  if String.eqb (HealthCheckConfig.type config) "http"
  then EvGet (HealthCheckConfig.url config)
  else EvConnect (HealthCheckConfig.host config) (HealthCheckConfig.port config).


(** A computation keeps a relation between the world it starts in and the
    world it leaves. *)
Definition preserves {A : Type} (R : World -> World -> Prop) (m : M A) : Prop :=
  forall w, R w (snd (m w)).

Definition same_collector (w w' : World) : Prop := collector w' = collector w.

Definition same_posts (w w' : World) : Prop :=
  posted_payloads (trace w') = posted_payloads (trace w).

Definition not_post (ev : Event) : Prop :=
  match ev with
  | EvPost _ _ => False
  | _ => True
  end.


(** A world whose collector already holds samples of both classes. *)
Definition after_net_2_world : World := {| trace := []; collector := after_net_2 |}.


(** The entry of [disks] for a mount and its usage. *)
Definition disk_entry (mount : string) (usage : sdiskusage) : pyval :=
  PDict [("mount", PStr mount);
         ("total", PInt (du_total usage));
         ("used", PInt (du_used usage));
         ("free", PInt (du_free usage));
         ("percent", PFloat (du_percent usage))].

(** The entries for the mounts whose usage can be read, in order. *)
Fixpoint reported_disks (answer : string -> Reply sdiskusage) (mounts : list string)
    : list pyval :=
  match mounts with
  | [] => []
  | mount :: rest =>
      match answer mount with
      | Returns usage => disk_entry mount usage :: reported_disks answer rest
      | _ => reported_disks answer rest
      end
  end.

(** One read per mount, and a warning after each read that failed. *)
Fixpoint disk_usage_events (answer : string -> Reply sdiskusage) (mounts : list string)
    : list Event :=
  match mounts with
  | [] => []
  | mount :: rest =>
      match answer mount with
      | Fails _ msg =>
          EvDiskUsage mount
          :: EvLog WARNING ("Failed to get disk usage for " ++ mount ++ ": " ++ msg)
          :: disk_usage_events answer rest
      | _ => EvDiskUsage mount :: disk_usage_events answer rest
      end
  end.

(** A computation that never ends in an [Exception]. *)
Definition absorbs_errors {A : Type} (m : M A) : Prop :=
  forall w cls msg, fst (m w) <> Raise (Exception cls msg).


Definition sample_usage : sdiskusage :=
  {| du_total := 100000; du_used := 40000; du_free := 60000; du_percent := 40%Q |}.

(** Every mount reports [sample_usage], except /mnt/ghost, which is not
    mounted. *)
Definition ghost_mount_answer (mount : string) : Reply sdiskusage :=
  if String.eqb mount "/mnt/ghost"
  then Fails FileNotFoundError "No such file or directory"
  else Returns sample_usage.

Definition ghost_mount_env : Env :=
  {| time_time := time_time quiet_env;
     datetime_now_isoformat := datetime_now_isoformat quiet_env;
     isoformat_utc := isoformat_utc quiet_env;
     psutil_has_getloadavg := psutil_has_getloadavg quiet_env;
     psutil_has_hostname := psutil_has_hostname quiet_env;
     psutil_cpu_percent := psutil_cpu_percent quiet_env;
     psutil_getloadavg := psutil_getloadavg quiet_env;
     psutil_cpu_count := psutil_cpu_count quiet_env;
     psutil_virtual_memory := psutil_virtual_memory quiet_env;
     psutil_swap_memory := psutil_swap_memory quiet_env;
     psutil_disk_usage := fun _ mount => ghost_mount_answer mount;
     psutil_disk_io_counters := psutil_disk_io_counters quiet_env;
     psutil_net_io_counters := psutil_net_io_counters quiet_env;
     psutil_boot_time := psutil_boot_time quiet_env;
     psutil_hostname := psutil_hostname quiet_env;
     docker_containers_list := docker_containers_list quiet_env;
     docker_stats := docker_stats quiet_env;
     docker_image_tags := docker_image_tags quiet_env;
     requests_get := requests_get quiet_env;
     socket_connect_ex := socket_connect_ex quiet_env;
     session_post := session_post quiet_env;
     sleep_interrupted := sleep_interrupted quiet_env;
     open_read := open_read quiet_env;
     yaml_safe_load := yaml_safe_load quiet_env;
     os_getenv := os_getenv quiet_env;
     pydantic_int := pydantic_int quiet_env;
     pydantic_str := pydantic_str quiet_env;
     pydantic_bool := pydantic_bool quiet_env |}.


(** The keys of a container entry: the static fields, and the fields added
    from the stats of a running container. *)
Definition static_container_keys : list string :=
  ["id"; "name"; "image"; "status"; "created"].

Definition stats_container_keys : list string :=
  ["cpu_percent"; "memory_usage"; "memory_percent"; "network_rx_bytes";
   "network_tx_bytes"].


(** Three containers: one running on a bridge network, one running on the
    host network (docker reports no [networks] for it), one stopped. *)
Definition web_container : Container :=
  {| container_id := "0123456789abcdef0123456789abcdef";
     container_name := "web";
     container_status := "running";
     container_attrs := [("Created", PStr "2024-01-01T00:00:00Z")] |}.

Definition hostnet_container : Container :=
  {| container_id := "feedfacefeedfacefeedfacefeedface";
     container_name := "proxy";
     container_status := "running";
     container_attrs := [("Created", PStr "2024-01-02T00:00:00Z")] |}.

Definition stopped_container : Container :=
  {| container_id := "abc";
     container_name := "db";
     container_status := "exited";
     container_attrs := [("Created", PStr "2024-01-03T00:00:00Z")] |}.

Definition stats_without_networks : pyval :=
  PDict [("cpu_stats",
          PDict [("cpu_usage", PDict [("total_usage", PInt 200)]);
                 ("system_cpu_usage", PInt 1000)]);
         ("precpu_stats",
          PDict [("cpu_usage", PDict [("total_usage", PInt 0)]);
                 ("system_cpu_usage", PInt 0)]);
         ("memory_stats", PDict [("usage", PInt 50); ("limit", PInt 200)])].

Definition docker_env : Env :=
  {| time_time := time_time quiet_env;
     datetime_now_isoformat := datetime_now_isoformat quiet_env;
     isoformat_utc := isoformat_utc quiet_env;
     psutil_has_getloadavg := psutil_has_getloadavg quiet_env;
     psutil_has_hostname := psutil_has_hostname quiet_env;
     psutil_cpu_percent := psutil_cpu_percent quiet_env;
     psutil_getloadavg := psutil_getloadavg quiet_env;
     psutil_cpu_count := psutil_cpu_count quiet_env;
     psutil_virtual_memory := psutil_virtual_memory quiet_env;
     psutil_swap_memory := psutil_swap_memory quiet_env;
     psutil_disk_usage := psutil_disk_usage quiet_env;
     psutil_disk_io_counters := psutil_disk_io_counters quiet_env;
     psutil_net_io_counters := psutil_net_io_counters quiet_env;
     psutil_boot_time := psutil_boot_time quiet_env;
     psutil_hostname := psutil_hostname quiet_env;
     docker_containers_list := fun _ =>
       Returns [web_container; hostnet_container; stopped_container];
     docker_stats := fun _ cid =>
       if String.eqb cid (container_id hostnet_container)
       then Returns stats_without_networks
       else Returns (sample_stats 200 0 1000 0 50 200);
     docker_image_tags := fun _ _ => Returns ["nginx:latest"];
     requests_get := requests_get quiet_env;
     socket_connect_ex := socket_connect_ex quiet_env;
     session_post := session_post quiet_env;
     sleep_interrupted := sleep_interrupted quiet_env;
     open_read := open_read quiet_env;
     yaml_safe_load := yaml_safe_load quiet_env;
     os_getenv := os_getenv quiet_env;
     pydantic_int := pydantic_int quiet_env;
     pydantic_str := pydantic_str quiet_env;
     pydantic_bool := pydantic_bool quiet_env |}.


(** A configuration document that has a server section and nothing else. *)
Definition minimal_document (url api_key : string) : pyval :=
  PDict [("server", PDict [("url", PStr url); ("api_key", PStr api_key)])].

(** [os.getenv(name, '')] *)
Definition getenv_or_empty (env : Env) (name : string) : string :=
  match os_getenv env name with
  | Some v => v
  | None => EmptyString
  end.

(** The configuration that a minimal document describes: every optional
    field at its default. *)
Definition default_config (url api_key : string) : AgentConfig.t :=
  {| AgentConfig.server := {| ServerConfig.url := url; ServerConfig.api_key := api_key |};
     AgentConfig.collection := CollectionConfig.default;
     AgentConfig.health_checks := [] |}.


(** The error line that [load_config] logs for an exception, by the first
    [except] clause that matches its class. *)
Definition load_error_text (config_path : string) (cls : ExcClass) (msg : string) : string :=
  if is_FileNotFoundError cls then "Configuration file not found: " ++ config_path
  else if is_ValidationError cls then "Configuration validation error: " ++ msg
  else "Failed to load configuration: " ++ msg.


(** The sample world, except that the boot time cannot be read. *)
Definition no_boot_time_env : Env :=
  {| time_time := time_time quiet_env;
     datetime_now_isoformat := datetime_now_isoformat quiet_env;
     isoformat_utc := isoformat_utc quiet_env;
     psutil_has_getloadavg := psutil_has_getloadavg quiet_env;
     psutil_has_hostname := psutil_has_hostname quiet_env;
     psutil_cpu_percent := psutil_cpu_percent quiet_env;
     psutil_getloadavg := psutil_getloadavg quiet_env;
     psutil_cpu_count := psutil_cpu_count quiet_env;
     psutil_virtual_memory := psutil_virtual_memory quiet_env;
     psutil_swap_memory := psutil_swap_memory quiet_env;
     psutil_disk_usage := psutil_disk_usage quiet_env;
     psutil_disk_io_counters := psutil_disk_io_counters quiet_env;
     psutil_net_io_counters := psutil_net_io_counters quiet_env;
     psutil_boot_time := fun _ => Fails OSError "boot time unavailable";
     psutil_hostname := psutil_hostname quiet_env;
     docker_containers_list := docker_containers_list quiet_env;
     docker_stats := docker_stats quiet_env;
     docker_image_tags := docker_image_tags quiet_env;
     requests_get := requests_get quiet_env;
     socket_connect_ex := socket_connect_ex quiet_env;
     session_post := session_post quiet_env;
     sleep_interrupted := sleep_interrupted quiet_env;
     open_read := open_read quiet_env;
     yaml_safe_load := yaml_safe_load quiet_env;
     os_getenv := os_getenv quiet_env;
     pydantic_int := pydantic_int quiet_env;
     pydantic_str := pydantic_str quiet_env;
     pydantic_bool := pydantic_bool quiet_env |}.

(** The sample world, except that the operator interrupts every sleep. *)
Definition interrupted_sleep_env : Env :=
  {| time_time := time_time quiet_env;
     datetime_now_isoformat := datetime_now_isoformat quiet_env;
     isoformat_utc := isoformat_utc quiet_env;
     psutil_has_getloadavg := psutil_has_getloadavg quiet_env;
     psutil_has_hostname := psutil_has_hostname quiet_env;
     psutil_cpu_percent := psutil_cpu_percent quiet_env;
     psutil_getloadavg := psutil_getloadavg quiet_env;
     psutil_cpu_count := psutil_cpu_count quiet_env;
     psutil_virtual_memory := psutil_virtual_memory quiet_env;
     psutil_swap_memory := psutil_swap_memory quiet_env;
     psutil_disk_usage := psutil_disk_usage quiet_env;
     psutil_disk_io_counters := psutil_disk_io_counters quiet_env;
     psutil_net_io_counters := psutil_net_io_counters quiet_env;
     psutil_boot_time := psutil_boot_time quiet_env;
     psutil_hostname := psutil_hostname quiet_env;
     docker_containers_list := docker_containers_list quiet_env;
     docker_stats := docker_stats quiet_env;
     docker_image_tags := docker_image_tags quiet_env;
     requests_get := requests_get quiet_env;
     socket_connect_ex := socket_connect_ex quiet_env;
     session_post := session_post quiet_env;
     sleep_interrupted := fun _ => true;
     open_read := open_read quiet_env;
     yaml_safe_load := yaml_safe_load quiet_env;
     os_getenv := os_getenv quiet_env;
     pydantic_int := pydantic_int quiet_env;
     pydantic_str := pydantic_str quiet_env;
     pydantic_bool := pydantic_bool quiet_env |}.


(** * Properties *)

(** ** Rate tracking *)

Lemma int_div_float_nonzero (a : Z) (b : Q) :
  ~ (b == 0)%Q -> int_div_float a b = Return (inject_Z a / b)%Q.
Proof.
  intros Hb. unfold int_div_float.
  destruct (Qeq_bool b 0) eqn:E; [|reflexivity].
  apply Qeq_bool_iff in E. contradiction.
Qed.

Lemma int_div_float_zero (a : Z) (b : Q) :
  (b == 0)%Q ->
  int_div_float a b = Raise (Exception ZeroDivisionError "float division by zero").
Proof.
  intros Hb. unfold int_div_float.
  apply Qeq_bool_iff in Hb. now rewrite Hb.
Qed.


(** Once a previous network sample is stored, the network rate is taken over
    the time since the shared [last_time], which is left as it was. *)
Lemma collect_network_metrics_from_next (net last_net : snetio) (t last_t : Q)
    (self : MetricsCollector) :
  last_net_io self = Some last_net ->
  last_time self = Some last_t ->
  ~ (t - last_t == 0)%Q ->
  collect_network_metrics_from net t self =
    (Return [("bytes_sent", PInt (bytes_sent net));
             ("bytes_recv", PInt (bytes_recv net));
             ("bytes_sent_per_sec",
              PInt (rate_per_second (bytes_sent net) (bytes_sent last_net) t last_t));
             ("bytes_recv_per_sec",
              PInt (rate_per_second (bytes_recv net) (bytes_recv last_net) t last_t))],
     {| last_disk_io := last_disk_io self; last_net_io := Some net;
        last_time := last_time self |}).
Proof.
  intros Hnet Ht Hd. unfold collect_network_metrics_from, rate_per_second.
  rewrite Hnet, Ht. now rewrite !int_div_float_nonzero by exact Hd.
Qed.

(** In a cycle the disk counters are collected first; the network rate that
    follows is therefore taken over the time since that disk read, whatever
    the time of the previous network sample. *)
Lemma network_rate_after_disk_collection (io : sdiskio) (net last_net : snetio)
    (t_disk t_net : Q) (self : MetricsCollector) (d : dict) (self' : MetricsCollector) :
  collect_disk_io_metrics_from io t_disk self = (Return d, self') ->
  last_net_io self = Some last_net ->
  ~ (t_net - t_disk == 0)%Q ->
  fst (collect_network_metrics_from net t_net self') =
    Return [("bytes_sent", PInt (bytes_sent net));
            ("bytes_recv", PInt (bytes_recv net));
            ("bytes_sent_per_sec",
             PInt (rate_per_second (bytes_sent net) (bytes_sent last_net) t_net t_disk));
            ("bytes_recv_per_sec",
             PInt (rate_per_second (bytes_recv net) (bytes_recv last_net) t_net t_disk))].
Proof.
  intros Hdisk Hnet Hd.
  assert (Hs : last_net_io self' = Some last_net /\ last_time self' = Some t_disk).
  { unfold collect_disk_io_metrics_from in Hdisk.
    destruct (last_disk_io self), (last_time self);
      repeat match type of Hdisk with
             | context [match ?o with Return _ => _ | Raise _ => _ end] => destruct o
             end;
      inversion Hdisk; subst; simpl; auto. }
  destruct Hs as [Hn Ht].
  now rewrite (collect_network_metrics_from_next net last_net t_net t_disk self' Hn Ht Hd).
Qed.

(** When the clock reads the same at the disk read and at the network read
    of a cycle, the network collection divides by zero. *)
Lemma network_rate_zero_division_on_same_tick (io : sdiskio) (net last_net : snetio)
    (t : Q) (self : MetricsCollector) (d : dict) (self' : MetricsCollector) :
  collect_disk_io_metrics_from io t self = (Return d, self') ->
  last_net_io self = Some last_net ->
  collect_network_metrics_from net t self' =
    (Raise (Exception ZeroDivisionError "float division by zero"), self').
Proof.
  intros Hdisk Hnet.
  assert (Hs : last_net_io self' = Some last_net /\ last_time self' = Some t).
  { unfold collect_disk_io_metrics_from in Hdisk.
    destruct (last_disk_io self), (last_time self);
      repeat match type of Hdisk with
             | context [match ?o with Return _ => _ | Raise _ => _ end] => destruct o
             end;
      inversion Hdisk; subst; simpl; auto. }
  destruct Hs as [Hn Ht]. unfold collect_network_metrics_from. rewrite Hn, Ht.
  rewrite int_div_float_zero; [reflexivity|]. unfold Qminus. apply Qplus_opp_r.
Qed.

(** C1 (the code departs from the claim).  Two cycles thirty seconds apart:
    the per-class rates are 100 and 200 bytes/s for the disk and 1000 and
    2000 bytes/s for the network.  The code reports 101 and 203 for the disk
    (its interval starts at the first network read) and 60000 and 120000 for
    the network (its interval starts at the disk read of the same cycle),
    and the network collection leaves the stored timestamp at the disk
    read's 130 instead of its own 130.5. *)
Theorem rates_share_one_timestamp :
  fst (collect_disk_io_metrics_from disk_sample_2 130 after_net_1) =
    Return [("read_bytes", PInt 3000); ("write_bytes", PInt 6000);
            ("read_bytes_per_sec", PInt 101); ("write_bytes_per_sec", PInt 203)]
  /\ fst (collect_network_metrics_from net_sample_2 (261 # 2) after_disk_2) =
    Return [("bytes_sent", PInt 31000); ("bytes_recv", PInt 62000);
            ("bytes_sent_per_sec", PInt 60000); ("bytes_recv_per_sec", PInt 120000)]
  /\ last_time after_net_2 = Some 130%Q
  /\ rate_per_second 3000 0 130 100 = 100
  /\ rate_per_second 6000 0 130 100 = 200
  /\ rate_per_second 31000 1000 (261 # 2) (201 # 2) = 1000
  /\ rate_per_second 62000 2000 (261 # 2) (201 # 2) = 2000.
Proof.
  repeat split; vm_compute; reflexivity.
Qed.

(** The same through [collect_all]: in the sample world the clock advances
    one second per effect and the counters grow by 1000 (disk reads) and 300
    (network sends) bytes per second.  The second of two consecutive
    collections reports 1100 and 3300 bytes per second. *)
Example collect_all_twice_reports_skewed_rates :
  let w1 := snd (collect_all quiet_env CollectionConfig.default World_init) in
  exists d,
    fst (collect_all quiet_env CollectionConfig.default w1) = Return d /\
    py_path (PDict d) ["metrics"; "disk_io"; "read_bytes_per_sec"] = Return (PInt 1100) /\
    py_path (PDict d) ["metrics"; "network"; "bytes_sent_per_sec"] = Return (PInt 3300).
Proof.
  eexists. split; [vm_compute; reflexivity|]. split; vm_compute; reflexivity.
Qed.

(** C2 (as amended).  On the first call of a rate collection, when no
    previous sample of that class is stored, the current counters and
    timestamp are stored as the previous sample and every field of the
    result is 0: the rate fields and the cumulative totals alike, whatever
    the counters read. *)
Theorem first_sample_stored_and_all_zero (self : MetricsCollector)
    (io : sdiskio) (net : snetio) (t : Q) :
  (last_disk_io self = None ->
   collect_disk_io_metrics_from io t self =
     (Return zero_disk_result,
      {| last_disk_io := Some io; last_net_io := last_net_io self;
         last_time := Some t |}))
  /\
  (last_net_io self = None ->
   collect_network_metrics_from net t self =
     (Return zero_network_result,
      {| last_disk_io := last_disk_io self; last_net_io := Some net;
         last_time := Some t |})).
Proof.
  split; intros H.
  - unfold collect_disk_io_metrics_from. rewrite H. reflexivity.
  - unfold collect_network_metrics_from. rewrite H. reflexivity.
Qed.

Lemma first_sample_stored_and_all_zero_witness :
  collect_disk_io_metrics_from {| read_bytes := 4096; write_bytes := 8192 |} 100
    MetricsCollector_init =
    (Return zero_disk_result,
     {| last_disk_io := Some {| read_bytes := 4096; write_bytes := 8192 |};
        last_net_io := None; last_time := Some 100%Q |})
  /\
  collect_network_metrics_from {| bytes_sent := 512; bytes_recv := 1024 |} 100
    MetricsCollector_init =
    (Return zero_network_result,
     {| last_disk_io := None;
        last_net_io := Some {| bytes_sent := 512; bytes_recv := 1024 |};
        last_time := Some 100%Q |}).
Proof.
  split.
  - apply (proj1 (first_sample_stored_and_all_zero MetricsCollector_init
                    {| read_bytes := 4096; write_bytes := 8192 |}
                    {| bytes_sent := 512; bytes_recv := 1024 |} 100)).
    reflexivity.
  - apply (proj2 (first_sample_stored_and_all_zero MetricsCollector_init
                    {| read_bytes := 4096; write_bytes := 8192 |}
                    {| bytes_sent := 512; bytes_recv := 1024 |} 100)).
    reflexivity.
Defined.

(** C2 (as stated) fails: a fresh collector that reads 4096 bytes read so far
    does not report 4096 in [read_bytes], it reports 0. *)
Lemma first_sample_totals_are_not_raw :
  ~ (exists d,
       fst (collect_disk_io_metrics_from {| read_bytes := 4096; write_bytes := 8192 |} 100
              MetricsCollector_init) = Return d /\
       dict_get "read_bytes" d = Some (PInt 4096)).
Proof.
  intros [d [Hd Hget]]. simpl in Hd. inversion Hd; subst d.
  simpl in Hget. discriminate.
Qed.

(** ** Health checks *)

(** What [check_http] does, by the answer to its GET. *)
Lemma check_http_cases (env : Env) (config : HealthCheckConfig.t) (w : World) :
  let w' := record_event (EvGet (HealthCheckConfig.url config)) w in
  match requests_get env (step w) (HealthCheckConfig.url config) with
  | Returns response =>
      let is_healthy :=
        status_matches (status_code response) (HealthCheckConfig.expected_status config) in
      check_http env config w =
        (Return [("name", PStr (HealthCheckConfig.name config));
                 ("type", PStr "http");
                 ("healthy", PBool is_healthy);
                 ("status_code", PInt (status_code response));
                 ("response_time_ms",
                  PInt (int_of_float
                          ((time_time env (step w') - time_time env (step w)) * 1000)));
                 ("message",
                  PStr (if is_healthy then "OK"
                        else "Expected "
                             ++ str_opt_int (HealthCheckConfig.expected_status config)
                             ++ ", got " ++ str_int (status_code response)))], w')
  | Fails _ msg =>
      check_http env config w =
        (Return [("name", PStr (HealthCheckConfig.name config));
                 ("type", PStr "http");
                 ("healthy", PBool false);
                 ("message", PStr msg)], w')
  | Interrupted => check_http env config w = (Raise KeyboardInterrupt, w')
  end.
Proof.
  unfold check_http, try_except, bind, now, call, ret.
  destruct (requests_get env (step w) (HealthCheckConfig.url config)); reflexivity.
Qed.

(** What [check_tcp] does, by the answer to its connection attempt. *)
Lemma check_tcp_cases (env : Env) (config : HealthCheckConfig.t) (w : World) :
  let w' := record_event (EvConnect (HealthCheckConfig.host config)
                            (HealthCheckConfig.port config)) w in
  match socket_connect_ex env (step w) (HealthCheckConfig.host config)
          (HealthCheckConfig.port config) with
  | Returns result =>
      check_tcp env config w =
        (Return [("name", PStr (HealthCheckConfig.name config));
                 ("type", PStr "tcp");
                 ("healthy", PBool (Z.eqb result 0));
                 ("host", opt_str (HealthCheckConfig.host config));
                 ("port", opt_int (HealthCheckConfig.port config));
                 ("message",
                  PStr (if Z.eqb result 0 then "Port is open" else "Port is closed"))], w')
  | Fails _ msg =>
      check_tcp env config w =
        (Return [("name", PStr (HealthCheckConfig.name config));
                 ("type", PStr "tcp");
                 ("healthy", PBool false);
                 ("message", PStr msg)], w')
  | Interrupted => check_tcp env config w = (Raise KeyboardInterrupt, w')
  end.
Proof.
  unfold check_tcp, try_except, bind, call, ret.
  destruct (socket_connect_ex env (step w) (HealthCheckConfig.host config)
              (HealthCheckConfig.port config)); reflexivity.
Qed.

Lemma status_matches_iff (sc : Z) (expected : option Z) :
  status_matches sc expected = true <-> expected = Some sc.
Proof.
  destruct expected as [e|]; simpl.
  - rewrite Z.eqb_eq. split; [intros ->; reflexivity | intros [= ->]; reflexivity].
  - split; discriminate.
Qed.

(** C6.  [check_http] reports healthy exactly when the GET returns the
    expected status; a different status gives an unhealthy result whose
    message names the expected and the actual code; an exception gives an
    unhealthy result whose message is the exception's text and which has no
    [status_code] key. *)
Theorem check_http_healthy_iff_expected_status (env : Env) (config : HealthCheckConfig.t)
    (w : World) :
  (forall response,
     requests_get env (step w) (HealthCheckConfig.url config) = Returns response ->
     exists d,
       fst (check_http env config w) = Return d /\
       (dict_get "healthy" d = Some (PBool true) <->
        HealthCheckConfig.expected_status config = Some (status_code response)) /\
       dict_get "status_code" d = Some (PInt (status_code response)) /\
       (HealthCheckConfig.expected_status config <> Some (status_code response) ->
        dict_get "healthy" d = Some (PBool false) /\
        dict_get "message" d =
          Some (PStr ("Expected " ++ str_opt_int (HealthCheckConfig.expected_status config)
                      ++ ", got " ++ str_int (status_code response)))))
  /\
  (forall cls msg,
     requests_get env (step w) (HealthCheckConfig.url config) = Fails cls msg ->
     exists d,
       fst (check_http env config w) = Return d /\
       dict_get "healthy" d = Some (PBool false) /\
       dict_get "message" d = Some (PStr msg) /\
       dict_has "status_code" d = false).
Proof.
  pose proof (check_http_cases env config w) as H. cbv zeta in H.
  split.
  - intros response Hr. rewrite Hr in H. rewrite H.
    eexists. split; [reflexivity|]. cbn [dict_get String.eqb Ascii.eqb Bool.eqb].
    pose proof (status_matches_iff (status_code response)
                  (HealthCheckConfig.expected_status config)) as Hm.
    destruct (status_matches (status_code response)
                (HealthCheckConfig.expected_status config)).
    + assert (He : HealthCheckConfig.expected_status config = Some (status_code response))
        by now apply Hm.
      split; [tauto|]. split; [reflexivity|]. intros Hne. contradiction.
    + assert (He : HealthCheckConfig.expected_status config <> Some (status_code response)).
      { intros He. apply Hm in He. discriminate. }
      split; [split; [discriminate | contradiction]|].
      split; [reflexivity|]. intros _. split; reflexivity.
  - intros cls msg Hr. rewrite Hr in H. rewrite H.
    eexists. split; [reflexivity|]. repeat split.
Qed.

Lemma check_http_healthy_iff_expected_status_witness :
  (exists d,
     fst (check_http
            (sample_env (Returns {| status_code := 503 |}) (Returns 0)
               (Returns {| status_code := 200 |}) (Returns "server: {}") (Returns (PDict [])))
            web_check World_init) = Return d /\
     dict_get "healthy" d = Some (PBool false) /\
     dict_get "message" d = Some (PStr "Expected 200, got 503"))
  /\
  (exists d,
     fst (check_http
            (sample_env (Fails Timeout "Read timed out.") (Returns 0)
               (Returns {| status_code := 200 |}) (Returns "server: {}") (Returns (PDict [])))
            web_check World_init) = Return d /\
     dict_get "message" d = Some (PStr "Read timed out.") /\
     dict_has "status_code" d = false).
Proof.
  split.
  - destruct (proj1 (check_http_healthy_iff_expected_status
                       (sample_env (Returns {| status_code := 503 |}) (Returns 0)
                          (Returns {| status_code := 200 |}) (Returns "server: {}")
                          (Returns (PDict [])))
                       web_check World_init) {| status_code := 503 |} eq_refl)
      as [d [Hd [_ [_ Hne]]]].
    exists d. split; [exact Hd|]. apply Hne. simpl. discriminate.
  - destruct (proj2 (check_http_healthy_iff_expected_status
                       (sample_env (Fails Timeout "Read timed out.") (Returns 0)
                          (Returns {| status_code := 200 |}) (Returns "server: {}")
                          (Returns (PDict [])))
                       web_check World_init) Timeout "Read timed out." eq_refl)
      as [d [Hd [_ [Hm Hs]]]].
    exists d. auto.
Defined.

Lemma check_http_returns (env : Env) (config : HealthCheckConfig.t) (w w' : World)
    (d : dict) :
  check_http env config w = (Return d, w') ->
  dict_get "name" d = Some (PStr (HealthCheckConfig.name config)) /\
  dict_get "type" d = Some (PStr "http") /\
  verdict_and_message d.
Proof.
  pose proof (check_http_cases env config w) as H. cbv zeta in H.
  destruct (requests_get env (step w) (HealthCheckConfig.url config));
    rewrite H; intros [= <- _]; unfold verdict_and_message; simpl;
    (split; [reflexivity | split; [reflexivity | do 2 eexists; split; reflexivity]]).
Qed.

Lemma check_tcp_returns (env : Env) (config : HealthCheckConfig.t) (w w' : World)
    (d : dict) :
  check_tcp env config w = (Return d, w') ->
  dict_get "name" d = Some (PStr (HealthCheckConfig.name config)) /\
  dict_get "type" d = Some (PStr "tcp") /\
  verdict_and_message d.
Proof.
  pose proof (check_tcp_cases env config w) as H. cbv zeta in H.
  destruct (socket_connect_ex env (step w) (HealthCheckConfig.host config)
              (HealthCheckConfig.port config));
    rewrite H; intros [= <- _]; unfold verdict_and_message; simpl;
    (split; [reflexivity | split; [reflexivity | do 2 eexists; split; reflexivity]]).
Qed.

Lemma check_http_total (env : Env) (config : HealthCheckConfig.t) (w : World) :
  probes_uninterrupted env ->
  exists d w', check_http env config w = (Return d, w').
Proof.
  intros [Hget _].
  pose proof (check_http_cases env config w) as H. cbv zeta in H.
  specialize (Hget (step w) (HealthCheckConfig.url config)).
  destruct (requests_get env (step w) (HealthCheckConfig.url config));
    [eauto | eauto | contradiction].
Qed.

Lemma check_tcp_total (env : Env) (config : HealthCheckConfig.t) (w : World) :
  probes_uninterrupted env ->
  exists d w', check_tcp env config w = (Return d, w').
Proof.
  intros [_ Hconn].
  pose proof (check_tcp_cases env config w) as H. cbv zeta in H.
  specialize (Hconn (step w) (HealthCheckConfig.host config) (HealthCheckConfig.port config)).
  destruct (socket_connect_ex env (step w) (HealthCheckConfig.host config)
              (HealthCheckConfig.port config));
    [eauto | eauto | contradiction].
Qed.

(** The loop of [check_all] appends to [results] one result per dispatched
    check, in the order of the list. *)
Lemma check_all_loop_returns (env : Env) (checks : list HealthCheckConfig.t) :
  forall (results : list dict) (w : World) (rs : list dict) (w' : World),
    check_all_loop env checks results w = (Return rs, w') ->
    exists added,
      rs = (results ++ added)%list /\
      Forall2 result_of (filter is_probe checks) added /\
      Forall verdict_and_message added.
Proof.
  induction checks as [|check rest IH]; intros results w rs w' H; simpl in H.
  - inversion H; subst. exists []. rewrite app_nil_r. simpl. auto.
  - simpl filter. unfold is_probe at 1.
    destruct (String.eqb (HealthCheckConfig.type check) "http") eqn:Ehttp.
    + unfold bind in H.
      destruct (check_http env check w) as [[d|e] w1] eqn:Hc; [|discriminate].
      apply IH in H. destruct H as [added [-> [Hf Hv]]].
      apply check_http_returns in Hc. destruct Hc as [Hn [Ht Hvm]].
      apply String.eqb_eq in Ehttp.
      exists (d :: added). rewrite <- app_assoc. simpl.
      repeat split; auto. constructor; auto.
      unfold result_of. rewrite Ehttp. auto.
    + destruct (String.eqb (HealthCheckConfig.type check) "tcp") eqn:Etcp.
      * unfold bind in H.
        destruct (check_tcp env check w) as [[d|e] w1] eqn:Hc; [|discriminate].
        apply IH in H. destruct H as [added [-> [Hf Hv]]].
        apply check_tcp_returns in Hc. destruct Hc as [Hn [Ht Hvm]].
        apply String.eqb_eq in Etcp.
        exists (d :: added). rewrite <- app_assoc. simpl.
        repeat split; auto. constructor; auto.
        unfold result_of. rewrite Etcp. auto.
      * simpl. eapply IH; eauto.
Qed.

Lemma check_all_loop_total (env : Env) (checks : list HealthCheckConfig.t) :
  probes_uninterrupted env ->
  forall (results : list dict) (w : World),
    exists rs w', check_all_loop env checks results w = (Return rs, w').
Proof.
  intros Hp. induction checks as [|check rest IH]; intros results w; simpl.
  - unfold ret. eauto.
  - destruct (String.eqb (HealthCheckConfig.type check) "http").
    + destruct (check_http_total env check w Hp) as [d [w1 Hc]].
      unfold bind. rewrite Hc. apply IH.
    + destruct (String.eqb (HealthCheckConfig.type check) "tcp").
      * destruct (check_tcp_total env check w Hp) as [d [w1 Hc]].
        unfold bind. rewrite Hc. apply IH.
      * apply IH.
Qed.

(** A check of another type leaves no mark: the loop behaves as if the
    list held the http and tcp checks only. *)
Lemma check_all_loop_skips (env : Env) (checks : list HealthCheckConfig.t) :
  forall (results : list dict) (w : World),
    check_all_loop env checks results w =
    check_all_loop env (filter is_probe checks) results w.
Proof.
  induction checks as [|check rest IH]; intros results w; [reflexivity|].
  simpl filter. unfold is_probe at 1.
  destruct (String.eqb (HealthCheckConfig.type check) "http") eqn:Ehttp.
  - simpl. rewrite Ehttp. unfold bind.
    destruct (check_http env check w) as [[d|e] w1]; [apply IH | reflexivity].
  - destruct (String.eqb (HealthCheckConfig.type check) "tcp") eqn:Etcp.
    + simpl. rewrite Ehttp, Etcp. unfold bind.
      destruct (check_tcp env check w) as [[d|e] w1]; [apply IH | reflexivity].
    + simpl. rewrite Ehttp, Etcp. apply IH.
Qed.

(** C5.  As long as no probe is interrupted by the operator, [check_all]
    returns one result per check of type http or tcp, in the order of the
    list; checks of any other type contribute nothing, and the call runs as
    if they were not in the list. *)
Theorem check_all_one_result_per_probe (env : Env) (checks : list HealthCheckConfig.t)
    (w : World) :
  probes_uninterrupted env ->
  (exists rs w',
     check_all env checks w = (Return rs, w') /\
     Forall2 result_of (filter is_probe checks) rs /\
     List.length rs = List.length (filter is_probe checks))
  /\
  check_all env checks w = check_all env (filter is_probe checks) w.
Proof.
  intros Hp. split; [|apply check_all_loop_skips]. unfold check_all.
  destruct (check_all_loop_total env checks Hp [] w) as [rs [w' H]].
  exists rs, w'. split; [exact H|].
  apply check_all_loop_returns in H. destruct H as [added [-> [Hf _]]].
  simpl. split; [exact Hf|]. symmetry. eapply Forall2_length; eauto.
Qed.

Lemma quiet_probes_uninterrupted : probes_uninterrupted quiet_env.
Proof. split; intros; discriminate. Defined.

Lemma check_all_one_result_per_probe_witness :
  exists rs w',
    check_all quiet_env [web_check; cron_check; db_check] World_init = (Return rs, w') /\
    Forall2 result_of [web_check; db_check] rs /\
    List.length rs = 2%nat.
Proof.
  exact (proj1 (check_all_one_result_per_probe quiet_env [web_check; cron_check; db_check]
                  World_init quiet_probes_uninterrupted)).
Defined.

(** C10.  Whatever the check (its url, host or port may be absent) and
    whatever the library call answers or raises, [check_http], [check_tcp] and
    [check_all] return; an exception of the call becomes a result with
    [healthy] false and the exception's text as message.  The operator's
    Ctrl-C is not an [Exception]: the statement is about calls that are not
    interrupted. *)
Theorem health_checks_never_raise (env : Env) (w : World) :
  probes_uninterrupted env ->
  (forall config,
     exists d w',
       check_http env config w = (Return d, w') /\
       verdict_and_message d /\
       (forall cls msg,
          requests_get env (step w) (HealthCheckConfig.url config) = Fails cls msg ->
          dict_get "healthy" d = Some (PBool false) /\
          dict_get "message" d = Some (PStr msg)))
  /\
  (forall config,
     exists d w',
       check_tcp env config w = (Return d, w') /\
       verdict_and_message d /\
       (forall cls msg,
          socket_connect_ex env (step w) (HealthCheckConfig.host config)
            (HealthCheckConfig.port config) = Fails cls msg ->
          dict_get "healthy" d = Some (PBool false) /\
          dict_get "message" d = Some (PStr msg)))
  /\
  (forall checks,
     exists rs w',
       check_all env checks w = (Return rs, w') /\
       Forall verdict_and_message rs).
Proof.
  intros Hp. split; [|split].
  - intros config. destruct (check_http_total env config w Hp) as [d [w' H]].
    exists d, w'. split; [exact H|].
    split; [apply (check_http_returns env config w w' d H)|].
    intros cls msg Hf. pose proof (check_http_cases env config w) as Hc.
    cbv zeta in Hc. rewrite Hf in Hc. rewrite Hc in H. inversion H; subst. auto.
  - intros config. destruct (check_tcp_total env config w Hp) as [d [w' H]].
    exists d, w'. split; [exact H|].
    split; [apply (check_tcp_returns env config w w' d H)|].
    intros cls msg Hf. pose proof (check_tcp_cases env config w) as Hc.
    cbv zeta in Hc. rewrite Hf in Hc. rewrite Hc in H. inversion H; subst. auto.
  - intros checks. unfold check_all.
    destruct (check_all_loop_total env checks Hp [] w) as [rs [w' H]].
    exists rs, w'. split; [exact H|].
    apply check_all_loop_returns in H. destruct H as [added [-> [_ Hv]]]. exact Hv.
Qed.

Lemma failing_probes_uninterrupted :
  probes_uninterrupted
    (sample_env (Fails RequestException "Invalid URL 'None': No scheme supplied")
       (Fails TypeError "str, bytes or bytearray expected, not NoneType")
       (Returns {| status_code := 200 |}) (Returns "server: {}") (Returns (PDict []))).
Proof. split; intros; discriminate. Defined.

Lemma health_checks_never_raise_witness :
  exists d w',
    check_http
      (sample_env (Fails RequestException "Invalid URL 'None': No scheme supplied")
         (Fails TypeError "str, bytes or bytearray expected, not NoneType")
         (Returns {| status_code := 200 |}) (Returns "server: {}") (Returns (PDict [])))
      bare_check World_init = (Return d, w') /\
    dict_get "healthy" d = Some (PBool false) /\
    dict_get "message" d = Some (PStr "Invalid URL 'None': No scheme supplied").
Proof.
  destruct (proj1 (health_checks_never_raise
                     (sample_env
                        (Fails RequestException "Invalid URL 'None': No scheme supplied")
                        (Fails TypeError "str, bytes or bytearray expected, not NoneType")
                        (Returns {| status_code := 200 |}) (Returns "server: {}")
                        (Returns (PDict [])))
                     World_init failing_probes_uninterrupted) bare_check)
    as [d [w' [H [_ Hf]]]].
  exists d, w'. split; [exact H|].
  exact (Hf RequestException "Invalid URL 'None': No scheme supplied" eq_refl).
Defined.

(** ** Transmission *)

Lemma posted_payloads_app (tr1 tr2 : list Event) :
  posted_payloads (tr1 ++ tr2) = (posted_payloads tr1 ++ posted_payloads tr2)%list.
Proof.
  induction tr1 as [|ev tr1 IH]; simpl; [reflexivity|].
  destruct ev; simpl; rewrite IH; reflexivity.
Qed.

Lemma raise_for_status_cases (response : Response) :
  (400 <= status_code response < 600 /\
   exists msg, raise_for_status response = Raise (Exception HTTPError msg))
  \/
  (~ 400 <= status_code response < 600 /\ raise_for_status response = Return tt).
Proof.
  unfold raise_for_status. cbv zeta.
  destruct (400 <=? status_code response) eqn:E1;
    destruct (status_code response <? 500) eqn:E2;
    destruct (500 <=? status_code response) eqn:E3;
    destruct (status_code response <? 600) eqn:E4; simpl;
    try apply Z.leb_le in E1; try apply Z.leb_gt in E1;
    try apply Z.ltb_lt in E2; try apply Z.ltb_ge in E2;
    try apply Z.leb_le in E3; try apply Z.leb_gt in E3;
    try apply Z.ltb_lt in E4; try apply Z.ltb_ge in E4;
    first [ left; split; [lia | eexists; reflexivity]
          | right; split; [lia | reflexivity] ].
Qed.

(** What [send_metrics] does, by the answer to its POST. *)
Lemma send_metrics_cases (env : Env) (config : AgentConfig.t) (payload : dict) (w : World) :
  let w1 := record_event (EvPost (metrics_url config) payload) w in
  match session_post env (step w) (metrics_url config) payload with
  | Returns response =>
      match raise_for_status response with
      | Return _ =>
          send_metrics env config payload w =
            (Return true,
             record_event (EvLog INFO ("Metrics sent successfully (status: "
                                       ++ str_int (status_code response) ++ ")")) w1)
      | Raise (Exception _ msg) =>
          send_metrics env config payload w =
            (Return false, record_event (EvLog ERROR ("Failed to send metrics: " ++ msg)) w1)
      | Raise _ => True
      end
  | Fails cls msg =>
      send_metrics env config payload w =
        if is_RequestException cls
        then (Return false, record_event (EvLog ERROR ("Failed to send metrics: " ++ msg)) w1)
        else (Raise (Exception cls msg), w1)
  | Interrupted => send_metrics env config payload w = (Raise KeyboardInterrupt, w1)
  end.
Proof.
  unfold send_metrics, try_except, bind, call, lift, logger, ret. cbv zeta.
  destruct (session_post env (step w) (metrics_url config) payload) as [response|cls msg|].
  - destruct (raise_for_status_cases response) as [[_ [msg H]]|[_ H]]; rewrite H; reflexivity.
  - destruct (is_RequestException cls); reflexivity.
  - reflexivity.
Qed.

(** C3 (as amended).  [send_metrics] returns true exactly when the POST
    completes with a status that is not an HTTP error (not in 400..599), so in
    particular for every 2xx; a requests-layer exception or a 4xx or 5xx
    status is logged as an error and gives false; in every case the call
    performs one POST and no more. *)
Theorem send_metrics_true_iff_no_http_error (env : Env) (config : AgentConfig.t)
    (payload : dict) (w : World) :
  let reply := session_post env (step w) (metrics_url config) payload in
  let r := send_metrics env config payload w in
  (fst r = Return true <->
   exists response, reply = Returns response /\ ~ 400 <= status_code response < 600)
  /\
  (forall response,
     reply = Returns response -> 200 <= status_code response < 300 -> fst r = Return true)
  /\
  ((exists cls msg, reply = Fails cls msg /\ is_RequestException cls = true) \/
   (exists response, reply = Returns response /\ 400 <= status_code response < 600) ->
   fst r = Return false /\
   exists msg,
     trace (snd r) =
       (trace w ++ [EvPost (metrics_url config) payload;
                    EvLog ERROR ("Failed to send metrics: " ++ msg)])%list)
  /\
  posted_payloads (trace (snd r)) = (posted_payloads (trace w) ++ [payload])%list.
Proof.
  cbv zeta. pose proof (send_metrics_cases env config payload w) as H. cbv zeta in H.
  destruct (session_post env (step w) (metrics_url config) payload) as [response|cls msg|].
  - destruct (raise_for_status_cases response) as [[Hr [m Hm]]|[Hr Hm]];
      rewrite Hm in H; rewrite H; simpl.
    + split; [|split; [|split]].
      * split; [discriminate|]. intros [r' [[= <-] Hn]]. contradiction.
      * intros r' [= <-] Hs. lia.
      * intros _. split; [reflexivity|]. exists m. rewrite <- app_assoc. reflexivity.
      * rewrite !posted_payloads_app. simpl. rewrite <- app_assoc. reflexivity.
    + split; [|split; [|split]].
      * split; [|reflexivity]. intros _. exists response. auto.
      * reflexivity.
      * intros [[c [m [Hc _]]]|[r' [[= <-] Hs]]]; [discriminate | contradiction].
      * rewrite !posted_payloads_app. simpl. rewrite <- app_assoc. reflexivity.
  - rewrite H. destruct (is_RequestException cls) eqn:Ec; simpl.
    + split; [|split; [|split]].
      * split; [discriminate|]. intros [r' [Hr' _]]. discriminate.
      * intros r' Hr'. discriminate.
      * intros _. split; [reflexivity|]. exists msg. rewrite <- app_assoc. reflexivity.
      * rewrite !posted_payloads_app. simpl. rewrite <- app_assoc. reflexivity.
    + split; [|split; [|split]].
      * split; [discriminate|]. intros [r' [Hr' _]]. discriminate.
      * intros r' Hr'. discriminate.
      * intros [[c [m [[= <- <-] Hc]]]|[r' [Hr' _]]]; [congruence | discriminate].
      * rewrite posted_payloads_app. reflexivity.
  - rewrite H. simpl. split; [|split; [|split]].
    + split; [discriminate|]. intros [r' [Hr' _]]. discriminate.
    + intros r' Hr'. discriminate.
    + intros [[c [m [Hc _]]]|[r' [Hr' _]]]; discriminate.
    + rewrite posted_payloads_app. reflexivity.
Qed.

Lemma send_metrics_true_iff_no_http_error_witness :
  fst (send_metrics
         (sample_env (Returns {| status_code := 200 |}) (Returns 0)
            (Fails ConnectionError "Connection refused") (Returns "server: {}")
            (Returns (PDict [])))
         (sample_config []) [] World_init) = Return false
  /\
  fst (send_metrics
         (sample_env (Returns {| status_code := 200 |}) (Returns 0)
            (Returns {| status_code := 204 |}) (Returns "server: {}")
            (Returns (PDict [])))
         (sample_config []) [] World_init) = Return true.
Proof.
  split.
  - pose proof (send_metrics_true_iff_no_http_error
                  (sample_env (Returns {| status_code := 200 |}) (Returns 0)
                     (Fails ConnectionError "Connection refused") (Returns "server: {}")
                     (Returns (PDict [])))
                  (sample_config []) [] World_init) as H.
    cbv zeta in H. destruct H as [_ [_ [H _]]].
    apply H. left. exists ConnectionError, "Connection refused". split; reflexivity.
  - pose proof (send_metrics_true_iff_no_http_error
                  (sample_env (Returns {| status_code := 200 |}) (Returns 0)
                     (Returns {| status_code := 204 |}) (Returns "server: {}")
                     (Returns (PDict [])))
                  (sample_config []) [] World_init) as H.
    cbv zeta in H. destruct H as [_ [H _]].
    apply (H {| status_code := 204 |}); [reflexivity | simpl; lia].
Defined.

(** C3 (as stated) fails: a POST answered with 304 Not Modified is not a 2xx
    response, and [send_metrics] returns true. *)
Lemma send_metrics_true_on_304 :
  fst (send_metrics
         (sample_env (Returns {| status_code := 200 |}) (Returns 0)
            (Returns {| status_code := 304 |}) (Returns "server: {}")
            (Returns (PDict [])))
         (sample_config []) [] World_init) = Return true
  /\ ~ 200 <= 304 < 300.
Proof.
  split; [vm_compute; reflexivity | lia].
Qed.

(** ** Monadic reasoning *)

Lemma bind_Return {A B : Type} (m : M A) (f : A -> M B) (w w' : World) (b : B) :
  bind m f w = (Return b, w') ->
  exists a w1, m w = (Return a, w1) /\ f a w1 = (Return b, w').
Proof.
  unfold bind. destruct (m w) as [[a|e] w1]; [eauto | discriminate].
Qed.

Lemma raises_only_and_then {A B : Type} (P : BaseException -> Prop)
    (o : Outcome A) (f : A -> Outcome B) :
  raises_only P o -> (forall a, raises_only P (f a)) -> raises_only P (and_then o f).
Proof.
  intros Ho Hf. destruct o as [a|e]; simpl; [apply Hf|].
  intros e' [= <-]. now apply Ho.
Qed.

Lemma raises_only_Return {A : Type} (P : BaseException -> Prop) (a : A) :
  raises_only P (Return a).
Proof. intros e H. discriminate. Qed.

Lemma raises_only_Exception {A : Type} (P : BaseException -> Prop) (cls : ExcClass)
    (msg : string) :
  P (Exception cls msg) -> raises_only P (@Raise A (Exception cls msg)).
Proof. intros HP e [= <-]. exact HP. Qed.

Section Raises.

Variable P : BaseException -> Prop.
Hypothesis P_Exception : forall cls msg, P (Exception cls msg).

Lemma raises_in_ret {A : Type} (a : A) : raises_in P (ret a).
Proof. intros w e H. discriminate. Qed.

Lemma raises_in_bind {A B : Type} (m : M A) (f : A -> M B) :
  raises_in P m -> (forall a, raises_in P (f a)) -> raises_in P (bind m f).
Proof.
  intros Hm Hf w. unfold bind. specialize (Hm w).
  destruct (m w) as [[a|e] w1]; simpl in *; [apply Hf|].
  intros e' [= <-]. now apply Hm.
Qed.

Lemma raises_in_call {A : Type} (oracle : nat -> Reply A) (ev : Event) :
  P KeyboardInterrupt \/ (forall n, oracle n <> Interrupted) ->
  raises_in P (call oracle ev).
Proof.
  intros Hi w. unfold call. destruct (oracle (step w)) eqn:E; simpl; intros e [= <-].
  - apply P_Exception.
  - destruct Hi as [Hi|Hi]; [exact Hi | now apply Hi in E].
Qed.

Lemma raises_in_logger (level : Level) (msg : string) : raises_in P (logger level msg).
Proof. intros w e H. discriminate. Qed.

Lemma raises_in_now (env : Env) : raises_in P (now env).
Proof. intros w e H. discriminate. Qed.

Lemma raises_in_lift {A : Type} (o : Outcome A) : raises_only P o -> raises_in P (lift o).
Proof. intros Ho w. exact Ho. Qed.

Lemma raises_in_raise_Exception {A : Type} (cls : ExcClass) (msg : string) :
  raises_in P (@raise A (Exception cls msg)).
Proof. intros w e [= <-]. apply P_Exception. Qed.

Lemma raises_in_try_except {A : Type} (body : M A) (catches : ExcClass -> bool)
    (handler : string -> M A) :
  raises_in P body -> (forall msg, raises_in P (handler msg)) ->
  raises_in P (try_except body catches handler).
Proof.
  intros Hb Hh w. unfold try_except. specialize (Hb w).
  destruct (body w) as [[a|[cls msg| |code]] w1]; simpl in *; try exact Hb.
  destruct (catches cls); [apply Hh | exact Hb].
Qed.

Lemma raises_in_try_except_clauses {A : Type} (body : M A)
    (clauses : list ((ExcClass -> bool) * (string -> M A))) :
  raises_in P body ->
  Forall (fun clause => forall msg, raises_in P (snd clause msg)) clauses ->
  raises_in P (try_except_clauses body clauses).
Proof.
  intros Hb Hh w. unfold try_except_clauses. specialize (Hb w).
  destruct (body w) as [[a|[cls msg| |code]] w1]; simpl in *; try exact Hb.
  destruct (select_handler clauses cls) as [handler|] eqn:Hs; [|exact Hb].
  assert (Hin : forall msg', raises_in P (handler msg')).
  { clear Hb. induction Hh as [|[c h] rest Hc _ IH]; simpl in Hs; [discriminate|].
    destruct (c cls); [inversion Hs; subst; exact Hc | auto]. }
  apply Hin.
Qed.

Lemma raises_in_with_collector {A : Type}
    (f : MetricsCollector -> Outcome A * MetricsCollector) :
  (forall c, raises_only P (fst (f c))) -> raises_in P (with_collector f).
Proof.
  intros Hf w. unfold with_collector. specialize (Hf (collector w)).
  destruct (f (collector w)) as [o c']. exact Hf.
Qed.

Lemma raises_in_time_sleep (env : Env) (seconds : Z) :
  P KeyboardInterrupt \/ (forall n, sleep_interrupted env n = false) ->
  raises_in P (time_sleep env seconds).
Proof.
  intros Hi w. unfold time_sleep.
  destruct (seconds <? 0); [simpl; intros e [= <-]; apply P_Exception|].
  destruct (sleep_interrupted env (step w)) eqn:E; simpl; intros e [= <-].
  destruct Hi as [Hi|Hi]; [exact Hi | rewrite Hi in E; discriminate].
Qed.

End Raises.

(** ** Arithmetic on the stats document raises no division error *)

Section StatsExceptions.

Variable P : BaseException -> Prop.
Hypothesis P_other : forall cls msg, cls <> ZeroDivisionError -> P (Exception cls msg).

Lemma py_getitem_raises (v : pyval) (k : string) : raises_only P (py_getitem v k).
Proof.
  unfold py_getitem. destruct v; try (apply raises_only_Exception, P_other; discriminate).
  destruct (dict_get k d);
    [apply raises_only_Return | apply raises_only_Exception, P_other; discriminate].
Qed.

Lemma py_get_raises (v : pyval) (k : string) (default : pyval) :
  raises_only P (py_get v k default).
Proof.
  unfold py_get. destruct v; try (apply raises_only_Exception, P_other; discriminate).
  destruct (dict_get k d); apply raises_only_Return.
Qed.

Lemma py_sub_raises (a b : pyval) : raises_only P (py_sub a b).
Proof.
  unfold py_sub.
  destruct (py_num a) as [[x|x]|], (py_num b) as [[y|y]|];
    first [apply raises_only_Return | apply raises_only_Exception, P_other; discriminate].
Qed.

Lemma py_gt_zero_raises (a : pyval) : raises_only P (py_gt_zero a).
Proof.
  unfold py_gt_zero.
  destruct (py_num a);
    [apply raises_only_Return | apply raises_only_Exception, P_other; discriminate].
Qed.

Lemma py_mul_100_raises (a : pyval) : raises_only P (py_mul_100 a).
Proof.
  unfold py_mul_100.
  destruct (py_num a);
    [apply raises_only_Return | apply raises_only_Exception, P_other; discriminate].
Qed.

Lemma py_round2_raises (a : pyval) : raises_only P (py_round2 a).
Proof.
  unfold py_round2.
  destruct (py_num a) as [[x|x]|];
    first [apply raises_only_Return | apply raises_only_Exception, P_other; discriminate].
Qed.

(** The division is reached only with a positive divisor. *)
Lemma py_truediv_guarded (a b : pyval) :
  py_gt_zero b = Return true -> raises_only P (py_truediv a b).
Proof.
  unfold py_gt_zero, py_truediv. intros Hpos.
  destruct (py_num b) as [y|]; [|discriminate].
  destruct (py_num a) as [x|];
    [|apply raises_only_Exception, P_other; discriminate].
  injection Hpos as Hpos. apply negb_true_iff in Hpos.
  destruct (Qeq_bool (num_Q y) 0) eqn:E; [|apply raises_only_Return].
  apply Qeq_bool_iff in E.
  assert (Hle : Qle_bool (num_Q y) 0 = true).
  { apply Qle_bool_iff. rewrite E. apply Qle_refl. }
  congruence.
Qed.

Lemma cpu_percent_of_raises (cpu_delta system_delta : pyval) :
  raises_only P (cpu_percent_of cpu_delta system_delta).
Proof.
  unfold cpu_percent_of.
  destruct (py_gt_zero system_delta) as [[|]|e] eqn:Hpos; simpl.
  - apply raises_only_and_then; [now apply py_truediv_guarded|].
    intros ratio. apply py_mul_100_raises.
  - apply raises_only_Return.
  - intros e' [= <-]. exact (py_gt_zero_raises system_delta e Hpos).
Qed.

Lemma mem_percent_of_raises (mem_usage mem_limit : pyval) :
  raises_only P (mem_percent_of mem_usage mem_limit).
Proof.
  unfold mem_percent_of.
  destruct (py_gt_zero mem_limit) as [[|]|e] eqn:Hpos; simpl.
  - apply raises_only_and_then; [now apply py_truediv_guarded|].
    intros ratio. apply py_mul_100_raises.
  - apply raises_only_Return.
  - intros e' [= <-]. exact (py_gt_zero_raises mem_limit e Hpos).
Qed.

Lemma running_container_metrics_raises (stats : pyval) :
  raises_only P (running_container_metrics stats).
Proof.
  unfold running_container_metrics.
  repeat (apply raises_only_and_then;
          [first [ apply py_getitem_raises | apply py_get_raises | apply py_sub_raises
                 | apply cpu_percent_of_raises | apply mem_percent_of_raises
                 | apply py_round2_raises ]
          | intros ?]).
  apply raises_only_Return.
Qed.

End StatsExceptions.

Lemma not_SystemExit_Exception (cls : ExcClass) (msg : string) :
  not_SystemExit (Exception cls msg).
Proof. intros code. discriminate. Qed.


(** ** Container percentages *)











(** ** What a cycle can raise *)

Lemma raise_for_status_raises (P : BaseException -> Prop) (response : Response) :
  (forall cls msg, P (Exception cls msg)) ->
  raises_only P (raise_for_status response).
Proof.
  intros HP. destruct (raise_for_status_cases response) as [[_ [msg H]]|[_ H]]; rewrite H.
  - apply raises_only_Exception, HP.
  - apply raises_only_Return.
Qed.

Section CycleRaises.

Variable P : BaseException -> Prop.
Hypothesis P_Exception : forall cls msg, P (Exception cls msg).
Variable env : Env.
Hypothesis P_interrupt : P KeyboardInterrupt \/ uninterrupted env.

Ltac interruption :=
  destruct P_interrupt as [Hi|Hi]; [left; exact Hi | right; intros; destruct Hi; auto].

Ltac raises_step :=
  first
    [ apply raises_in_ret
    | apply raises_in_call; [exact P_Exception | interruption]
    | apply raises_in_logger
    | apply raises_in_now
    | apply raises_in_time_sleep; [exact P_Exception | interruption]
    | apply raises_in_raise_Exception; exact P_Exception
    | apply raises_in_bind; [|intros ?]
    | apply raises_in_try_except; [|intros ?]
    | match goal with
      | |- raises_in _ (if ?c then _ else _) => destruct c
      | |- raises_in _ (match ?x with _ => _ end) => destruct x
      end ].

Lemma collect_disk_io_metrics_from_raises (io : sdiskio) (t : Q) (self : MetricsCollector) :
  raises_only P (fst (collect_disk_io_metrics_from io t self)).
Proof.
  unfold collect_disk_io_metrics_from, int_div_float.
  destruct (last_disk_io self), (last_time self); simpl;
    try (intros e H; discriminate).
  destruct (Qeq_bool (t - q) 0); simpl; intros e [= <-]; apply P_Exception.
Qed.

Lemma collect_network_metrics_from_raises (net : snetio) (t : Q) (self : MetricsCollector) :
  raises_only P (fst (collect_network_metrics_from net t self)).
Proof.
  unfold collect_network_metrics_from, int_div_float.
  destruct (last_net_io self), (last_time self); simpl;
    try (intros e H; discriminate).
  destruct (Qeq_bool (t - q) 0); simpl; intros e [= <-]; apply P_Exception.
Qed.

Lemma utc_now_isoformat_raises : raises_in P (utc_now_isoformat env).
Proof. intros w e H. discriminate. Qed.

Lemma collect_system_info_raises : raises_in P (collect_system_info env).
Proof. unfold collect_system_info. repeat raises_step. Qed.

Lemma collect_cpu_metrics_raises : raises_in P (collect_cpu_metrics env).
Proof. unfold collect_cpu_metrics. repeat raises_step. Qed.

Lemma collect_memory_metrics_raises : raises_in P (collect_memory_metrics env).
Proof. unfold collect_memory_metrics. repeat raises_step. Qed.

Lemma collect_disk_metrics_raises (config : CollectionConfig.t) :
  raises_in P (collect_disk_metrics env config).
Proof.
  unfold collect_disk_metrics. generalize (@nil pyval) as disks.
  induction (CollectionConfig.disk_mounts config) as [|mount rest IH]; intros disks; simpl.
  - apply raises_in_ret.
  - apply raises_in_bind; [repeat raises_step | intros disks'; apply IH].
Qed.

Lemma collect_disk_io_metrics_raises : raises_in P (collect_disk_io_metrics env).
Proof.
  unfold collect_disk_io_metrics. repeat raises_step.
  apply raises_in_with_collector. intros c. apply collect_disk_io_metrics_from_raises.
Qed.

Lemma collect_network_metrics_raises : raises_in P (collect_network_metrics env).
Proof.
  unfold collect_network_metrics. repeat raises_step.
  apply raises_in_with_collector. intros c. apply collect_network_metrics_from_raises.
Qed.

Lemma collect_container_raises (container : Container) :
  raises_in P (collect_container env container).
Proof.
  unfold collect_container. cbv zeta.
  repeat first
    [ raises_step
    | apply raises_in_lift;
      first [ apply py_getitem_raises
            | apply running_container_metrics_raises ];
      intros cls msg _; apply P_Exception ].
Qed.

Lemma collect_containers_loop_raises (cs : list Container) :
  forall containers, raises_in P (collect_containers_loop env cs containers).
Proof.
  induction cs as [|container rest IH]; intros containers; simpl.
  - apply raises_in_ret.
  - apply raises_in_bind; [apply collect_container_raises | intros info; apply IH].
Qed.

Lemma collect_docker_metrics_raises (config : CollectionConfig.t) :
  raises_in P (collect_docker_metrics env config).
Proof.
  unfold collect_docker_metrics.
  destruct (negb (CollectionConfig.include_docker config)); [apply raises_in_ret|].
  apply raises_in_try_except_clauses.
  - apply raises_in_bind; [raises_step | intros cs; apply collect_containers_loop_raises].
  - repeat constructor; simpl; intros msg; repeat raises_step.
Qed.

Lemma collect_all_raises (config : CollectionConfig.t) : raises_in P (collect_all env config).
Proof.
  unfold collect_all.
  repeat first
    [ apply utc_now_isoformat_raises
    | apply collect_system_info_raises
    | apply collect_cpu_metrics_raises
    | apply collect_memory_metrics_raises
    | apply collect_disk_metrics_raises
    | apply collect_disk_io_metrics_raises
    | apply collect_network_metrics_raises
    | apply collect_docker_metrics_raises
    | apply raises_in_ret
    | apply raises_in_bind; [|intros ?] ].
Qed.

Lemma check_http_raises (config : HealthCheckConfig.t) : raises_in P (check_http env config).
Proof. unfold check_http. repeat raises_step. Qed.

Lemma check_tcp_raises (config : HealthCheckConfig.t) : raises_in P (check_tcp env config).
Proof. unfold check_tcp. repeat raises_step. Qed.

Lemma check_all_raises (checks : list HealthCheckConfig.t) :
  raises_in P (check_all env checks).
Proof.
  unfold check_all. generalize (@nil dict) as results.
  induction checks as [|check rest IH]; intros results; simpl.
  - apply raises_in_ret.
  - destruct (String.eqb (HealthCheckConfig.type check) "http").
    + apply raises_in_bind; [apply check_http_raises | intros r; apply IH].
    + destruct (String.eqb (HealthCheckConfig.type check) "tcp").
      * apply raises_in_bind; [apply check_tcp_raises | intros r; apply IH].
      * apply IH.
Qed.

Lemma send_metrics_raises (config : AgentConfig.t) (payload : dict) :
  raises_in P (send_metrics env config payload).
Proof.
  unfold send_metrics.
  repeat first
    [ raises_step
    | apply raises_in_lift, raise_for_status_raises; exact P_Exception ].
Qed.

Lemma cycle_raises (config : AgentConfig.t) : raises_in P (cycle env config).
Proof.
  unfold cycle.
  repeat first
    [ apply collect_all_raises
    | apply check_all_raises
    | apply send_metrics_raises
    | apply raises_in_bind; [|intros ?]
    | raises_step ].
Qed.

End CycleRaises.

(** ** The agent loop *)

Lemma not_SystemExit_KeyboardInterrupt : not_SystemExit KeyboardInterrupt.
Proof. intros code. discriminate. Qed.

Lemma cycle_never_exits (env : Env) (config : AgentConfig.t) :
  raises_in not_SystemExit (cycle env config).
Proof.
  apply cycle_raises; [apply not_SystemExit_Exception|].
  left. apply not_SystemExit_KeyboardInterrupt.
Qed.

Lemma cycle_raises_errors_only (env : Env) (config : AgentConfig.t) :
  uninterrupted env -> raises_in is_Exception (cycle env config).
Proof.
  intros Hu. apply cycle_raises; [|right; exact Hu].
  intros cls msg. exists cls, msg. reflexivity.
Qed.

(** One pass of the loop, by the outcome of its [try] block. *)
Lemma run_iteration_cases (env : Env) (config : AgentConfig.t) (w : World) :
  match cycle env config w with
  | (Return _, w1) => run_iteration env config w = (Return Continue, w1)
  | (Raise (Exception _ msg), w1) =>
      let w2 := record_event (EvLog ERROR ("Error in agent loop: " ++ msg)) w1 in
      run_iteration env config w =
        if interval_of config <? 0
        then (Raise (Exception ValueError "sleep length must be non-negative"), w2)
        else if sleep_interrupted env (step w2)
        then (Raise KeyboardInterrupt, record_event (EvSleep (interval_of config)) w2)
        else (Return Continue, record_event (EvSleep (interval_of config)) w2)
  | (Raise KeyboardInterrupt, w1) =>
      run_iteration env config w =
        (Return Break, record_event (EvLog INFO "Agent stopped by user") w1)
  | (Raise (SystemExit code), w1) =>
      run_iteration env config w = (Raise (SystemExit code), w1)
  end.
Proof.
  unfold run_iteration, interval_of.
  destruct (cycle env config w) as [[u|[cls msg| |code]] w1]; try reflexivity.
  cbv zeta. unfold bind, logger, time_sleep, ret.
  destruct (CollectionConfig.interval_seconds (AgentConfig.collection config) <? 0);
    [reflexivity|].
  destruct (sleep_interrupted env
              (step (record_event (EvLog ERROR ("Error in agent loop: " ++ msg)) w1)));
    reflexivity.
Qed.

Lemma step_record_event (ev : Event) (w : World) : step (record_event ev w) = S (step w).
Proof. unfold step, record_event. simpl. rewrite length_app. simpl. lia. Qed.

(** A pass whose POST fails goes on to the interval sleep. *)
Lemma run_iteration_failed_post (env : Env) (config : AgentConfig.t)
    (w w1 w2 : World) (metrics : dict) (results : list dict) (cls : ExcClass) (msg : string) :
  0 <= interval_of config ->
  collect_all env (AgentConfig.collection config) w = (Return metrics, w1) ->
  check_all env (AgentConfig.health_checks config) w1 = (Return results, w2) ->
  session_post env (step w2) (metrics_url config) (attach_health_checks metrics results)
    = Fails cls msg ->
  sleep_interrupted env (S (S (step w2))) = false ->
  exists logged w3,
    run_iteration env config w = (Return Continue, w3) /\
    trace w3 =
      (trace w2 ++ [EvPost (metrics_url config) (attach_health_checks metrics results);
                    EvLog ERROR logged;
                    EvSleep (interval_of config)])%list.
Proof.
  intros Hi Hcollect Hcheck Hpost Hsleep.
  assert (Hlt : (interval_of config <? 0) = false) by (apply Z.ltb_ge; exact Hi).
  pose proof (run_iteration_cases env config w) as Hrun.
  pose proof (send_metrics_cases env config (attach_health_checks metrics results) w2)
    as Hsend.
  cbv zeta in Hsend. rewrite Hpost in Hsend.
  unfold cycle in Hrun. unfold bind at 1 in Hrun. rewrite Hcollect in Hrun.
  unfold bind at 1 in Hrun. rewrite Hcheck in Hrun.
  unfold bind at 1 in Hrun. rewrite Hsend in Hrun.
  destruct (is_RequestException cls).
  - unfold time_sleep in Hrun. fold (interval_of config) in Hrun.
    rewrite Hlt in Hrun. rewrite !step_record_event in Hrun. rewrite Hsleep in Hrun.
    eexists. eexists. split; [exact Hrun|].
    simpl. rewrite <- !app_assoc. reflexivity.
  - cbv zeta in Hrun. rewrite Hlt in Hrun.
    rewrite !step_record_event in Hrun. rewrite Hsleep in Hrun.
    eexists. eexists. split; [exact Hrun|].
    simpl. rewrite <- !app_assoc. reflexivity.
Qed.

(** An exception that leaves the loop is the operator's interrupt. *)
Lemma run_loop_propagates_interrupt_only (env : Env) (config : AgentConfig.t) :
  0 <= interval_of config ->
  forall passes w e,
    fst (run_loop env config passes w) = Propagated e -> e = KeyboardInterrupt.
Proof.
  intros Hi. assert (Hlt : (interval_of config <? 0) = false) by (apply Z.ltb_ge; exact Hi).
  induction passes as [|n IH]; intros w e H; simpl in H; [discriminate|].
  pose proof (run_iteration_cases env config w) as Hrun.
  pose proof (cycle_never_exits env config w) as Hexit.
  destruct (cycle env config w) as [[u|[cls msg| |code]] w1].
  - rewrite Hrun in H. eapply IH; eauto.
  - cbv zeta in Hrun. rewrite Hlt in Hrun. rewrite Hrun in H.
    destruct (sleep_interrupted env _).
    + simpl in H. congruence.
    + eapply IH; eauto.
  - rewrite Hrun in H. discriminate.
  - exfalso. apply (Hexit (SystemExit code) eq_refl code). reflexivity.
Qed.

(** The loop stops through [break] only after a cycle was interrupted. *)
Lemma run_loop_stops_on_interrupt_only (env : Env) (config : AgentConfig.t) :
  0 <= interval_of config ->
  forall passes w w',
    run_loop env config passes w = (Stopped, w') ->
    exists w0 w1,
      cycle env config w0 = (Raise KeyboardInterrupt, w1) /\
      w' = record_event (EvLog INFO "Agent stopped by user") w1.
Proof.
  intros Hi. assert (Hlt : (interval_of config <? 0) = false) by (apply Z.ltb_ge; exact Hi).
  induction passes as [|n IH]; intros w w' H; simpl in H; [discriminate|].
  pose proof (run_iteration_cases env config w) as Hrun.
  destruct (cycle env config w) as [[u|[cls msg| |code]] w1] eqn:Hc.
  - rewrite Hrun in H. eapply IH; eauto.
  - cbv zeta in Hrun. rewrite Hlt in Hrun. rewrite Hrun in H.
    destruct (sleep_interrupted env _); [discriminate | eapply IH; eauto].
  - rewrite Hrun in H. injection H as <-. exists w, w1. auto.
  - rewrite Hrun in H. discriminate.
Qed.

(** Without an interrupt the loop is still running after any number of
    passes, whatever failed in them. *)
Lemma run_loop_keeps_looping (env : Env) (config : AgentConfig.t) :
  0 <= interval_of config ->
  uninterrupted env ->
  forall passes w, fst (run_loop env config passes w) = Looping.
Proof.
  intros Hi Hu. assert (Hlt : (interval_of config <? 0) = false) by (apply Z.ltb_ge; exact Hi).
  induction passes as [|n IH]; intros w; simpl; [reflexivity|].
  pose proof (run_iteration_cases env config w) as Hrun.
  pose proof (cycle_raises_errors_only env config Hu w) as Herr.
  destruct (cycle env config w) as [[u|[cls msg| |code]] w1].
  - rewrite Hrun. apply IH.
  - cbv zeta in Hrun. rewrite Hlt in Hrun. rewrite (sleep_completes env Hu) in Hrun.
    rewrite Hrun. apply IH.
  - destruct (Herr KeyboardInterrupt eq_refl) as [cls [msg Hk]]. discriminate.
  - destruct (Herr (SystemExit code) eq_refl) as [cls [msg Hk]]. discriminate.
Qed.

(** C4.  With a valid (non-negative) interval: an error raised by a cycle is
    logged, the interval sleep follows and the next pass runs; a failed POST
    leaves the loop running; the loop ends only through the operator's
    interrupt; and as long as no interrupt arrives it never ends. *)
Theorem loop_survives_cycle_errors (env : Env) (config : AgentConfig.t) :
  0 <= interval_of config ->
  (forall w cls msg w1,
     cycle env config w = (Raise (Exception cls msg), w1) ->
     let w2 := record_event (EvLog ERROR ("Error in agent loop: " ++ msg)) w1 in
     let w3 := record_event (EvSleep (interval_of config)) w2 in
     sleep_interrupted env (step w2) = false ->
     run_iteration env config w = (Return Continue, w3) /\
     forall passes, run_loop env config (S passes) w = run_loop env config passes w3)
  /\
  (forall w metrics w1 results w2 cls msg,
     collect_all env (AgentConfig.collection config) w = (Return metrics, w1) ->
     check_all env (AgentConfig.health_checks config) w1 = (Return results, w2) ->
     session_post env (step w2) (metrics_url config) (attach_health_checks metrics results)
       = Fails cls msg ->
     sleep_interrupted env (S (S (step w2))) = false ->
     exists logged w3,
       run_iteration env config w = (Return Continue, w3) /\
       trace w3 =
         (trace w2 ++ [EvPost (metrics_url config) (attach_health_checks metrics results);
                       EvLog ERROR logged;
                       EvSleep (interval_of config)])%list)
  /\
  (forall passes w e,
     fst (run_loop env config passes w) = Propagated e -> e = KeyboardInterrupt)
  /\
  (forall passes w w',
     run_loop env config passes w = (Stopped, w') ->
     exists w0 w1,
       cycle env config w0 = (Raise KeyboardInterrupt, w1) /\
       w' = record_event (EvLog INFO "Agent stopped by user") w1)
  /\
  (uninterrupted env -> forall passes w, fst (run_loop env config passes w) = Looping).
Proof.
  intros Hi. assert (Hlt : (interval_of config <? 0) = false) by (apply Z.ltb_ge; exact Hi).
  split; [|split; [|split; [|split]]].
  - intros w cls msg w1 Hc w2 w3 Hs.
    pose proof (run_iteration_cases env config w) as Hrun.
    rewrite Hc in Hrun. cbv zeta in Hrun. rewrite Hlt in Hrun.
    subst w2 w3. rewrite Hs in Hrun.
    split; [exact Hrun|]. intros passes. simpl. rewrite Hrun. reflexivity.
  - intros w metrics w1 results w2 cls msg.
    apply run_iteration_failed_post. exact Hi.
  - apply run_loop_propagates_interrupt_only. exact Hi.
  - apply run_loop_stops_on_interrupt_only. exact Hi.
  - apply run_loop_keeps_looping. exact Hi.
Qed.

Lemma sample_env_uninterrupted (get : Reply Response) (connect : Reply Z)
    (post : Reply Response) (config_file : Reply string) (document : Reply pyval) :
  get <> Interrupted -> connect <> Interrupted -> post <> Interrupted ->
  uninterrupted (sample_env get connect post config_file document).
Proof.
  intros Hg Hc Hp. constructor; simpl; intros; try discriminate; auto.
Defined.

Lemma loop_survives_cycle_errors_witness :
  fst (run_loop
         (sample_env (Returns {| status_code := 200 |}) (Returns 0)
            (Fails ConnectionError "Connection refused") (Returns "server: {}")
            (Returns (PDict [])))
         (sample_config [web_check]) 3 World_init) = Looping
  /\
  exists logged w3,
    run_iteration
      (sample_env (Returns {| status_code := 200 |}) (Returns 0)
         (Fails ConnectionError "Connection refused") (Returns "server: {}")
         (Returns (PDict [])))
      (sample_config [web_check]) World_init = (Return Continue, w3) /\
    In (EvLog ERROR logged) (trace w3) /\
    In (EvSleep 30) (trace w3).
Proof.
  assert (Hi : 0 <= interval_of (sample_config [web_check])) by (vm_compute; discriminate).
  pose proof (loop_survives_cycle_errors
                (sample_env (Returns {| status_code := 200 |}) (Returns 0)
                   (Fails ConnectionError "Connection refused") (Returns "server: {}")
                   (Returns (PDict [])))
                (sample_config [web_check]) Hi) as [_ [Hpost [_ [_ Hloop]]]].
  split.
  - apply Hloop. apply sample_env_uninterrupted; discriminate.
  - edestruct (Hpost World_init) as [logged [w3 [Hrun Htrace]]].
    + vm_compute. reflexivity.
    + vm_compute. reflexivity.
    + reflexivity.
    + reflexivity.
    + exists logged, w3. split; [exact Hrun|]. rewrite Htrace.
      split; apply in_or_app; right; simpl; auto.
Defined.

(** ** The payload of a cycle *)

Lemma dict_get_set (k : string) (v : pyval) (d : dict) :
  dict_get k (dict_set k v d) = Some v.
Proof.
  induction d as [|[k' v'] d IH]; simpl.
  - now rewrite String.eqb_refl.
  - destruct (String.eqb k k') eqn:E; simpl; [now rewrite String.eqb_refl|].
    now rewrite E.
Qed.

(** The snapshot built by [collect_all] has four keys, none of them
    [health_checks]. *)
Lemma collect_all_keys (env : Env) (config : CollectionConfig.t) (w w' : World) (d : dict) :
  collect_all env config w = (Return d, w') ->
  dict_keys d = ["timestamp"; "system"; "metrics"; "containers"] /\
  dict_has "health_checks" d = false.
Proof.
  unfold collect_all. intros H.
  repeat (apply bind_Return in H; destruct H as [? [? [_ H]]]).
  unfold ret in H. injection H as <- _. split; reflexivity.
Qed.

Lemma filter_nonempty_iff {A : Type} (f : A -> bool) (l : list A) :
  filter f l <> [] <-> exists x, In x l /\ f x = true.
Proof.
  split.
  - intros H. destruct (filter f l) as [|x rest] eqn:E; [contradiction|].
    exists x. apply filter_In. rewrite E. now left.
  - intros [x Hx] E. apply filter_In in Hx. rewrite E in Hx. contradiction.
Qed.

(** Whatever the answer to the POST, [send_metrics] sends the payload once. *)
Lemma send_metrics_posts_once (env : Env) (config : AgentConfig.t) (payload : dict)
    (w : World) :
  exists rest,
    trace (snd (send_metrics env config payload w)) =
      (trace w ++ EvPost (metrics_url config) payload :: rest)%list /\
    posted_payloads rest = [].
Proof.
  pose proof (send_metrics_cases env config payload w) as H. cbv zeta in H.
  destruct (session_post env (step w) (metrics_url config) payload) as [response|cls msg|].
  - destruct (raise_for_status_cases response) as [[_ [m Hm]]|[_ Hm]];
      rewrite Hm in H; rewrite H; simpl; rewrite <- app_assoc; eexists; split; reflexivity.
  - rewrite H. destruct (is_RequestException cls); simpl.
    + rewrite <- app_assoc. eexists; split; reflexivity.
    + exists []. split; reflexivity.
  - rewrite H. exists []. split; reflexivity.
Qed.

(** C9 (as amended).  In a cycle that reaches transmission, the payload sent
    to the server is the snapshot with the probe results attached; it has a
    [health_checks] key exactly when at least one configured check is of type
    http or tcp, and that key then holds the results. *)
Theorem health_checks_attached_iff_probe_configured (env : Env) (config : AgentConfig.t)
    (w w1 w2 : World) (metrics : dict) (results : list dict) :
  collect_all env (AgentConfig.collection config) w = (Return metrics, w1) ->
  check_all env (AgentConfig.health_checks config) w1 = (Return results, w2) ->
  let payload := attach_health_checks metrics results in
  posted_payloads (trace (snd (cycle env config w))) =
    (posted_payloads (trace w2) ++ [payload])%list
  /\
  (dict_has "health_checks" payload = true <->
   exists check, In check (AgentConfig.health_checks config) /\ is_probe check = true)
  /\
  (dict_has "health_checks" payload = true ->
   dict_get "health_checks" payload = Some (PList (map PDict results))).
Proof.
  intros Hcollect Hcheck payload.
  destruct (collect_all_keys env _ w w1 metrics Hcollect) as [_ Hno].
  split; [|split].
  - unfold cycle. unfold bind at 1. rewrite Hcollect.
    unfold bind at 1. rewrite Hcheck. fold payload.
    destruct (send_metrics_posts_once env config payload w2) as [rest [Htr Hrest]].
    unfold bind.
    destruct (send_metrics env config payload w2) as [[b|e] w3]; simpl in Htr |- *.
    + unfold time_sleep.
      destruct (_ <? 0); [|destruct (sleep_interrupted env (step w3))]; simpl;
        rewrite ?posted_payloads_app, Htr, posted_payloads_app; simpl;
        rewrite Hrest, ?app_nil_r; reflexivity.
    + rewrite Htr, posted_payloads_app. simpl. rewrite Hrest. reflexivity.
  - unfold check_all in Hcheck. apply check_all_loop_returns in Hcheck.
    destruct Hcheck as [added [-> [Hf _]]]. simpl in payload.
    rewrite <- filter_nonempty_iff. subst payload. unfold attach_health_checks.
    destruct Hf as [|check r checks rs Hr Hf].
    + rewrite Hno. split; [discriminate | intros H; contradiction].
    + unfold dict_has. rewrite dict_get_set. split; [discriminate | reflexivity].
  - subst payload. unfold attach_health_checks. destruct results as [|r rs].
    + rewrite Hno. discriminate.
    + intros _. apply dict_get_set.
Qed.

Lemma health_checks_attached_iff_probe_configured_witness :
  exists payload,
    posted_payloads (trace (snd (cycle quiet_env (sample_config [web_check; db_check])
                                   World_init))) = [payload] /\
    dict_has "health_checks" payload = true.
Proof.
  edestruct (health_checks_attached_iff_probe_configured quiet_env
               (sample_config [web_check; db_check]) World_init)
    as [Hposted [Hiff _]].
  - vm_compute. reflexivity.
  - vm_compute. reflexivity.
  - eexists. split.
    + rewrite Hposted. simpl. reflexivity.
    + apply Hiff. exists web_check. split; [left; reflexivity | reflexivity].
Defined.

(** C9 (as stated) fails: with one configured check, of type process, the
    snapshot that is sent has no [health_checks] key. *)
Lemma configured_check_without_health_checks_key :
  AgentConfig.health_checks (sample_config [cron_check]) <> [] /\
  exists payload,
    posted_payloads (trace (snd (cycle quiet_env (sample_config [cron_check])
                                   World_init))) = [payload] /\
    dict_has "health_checks" payload = false.
Proof.
  split; [discriminate|].
  eexists. split; vm_compute; reflexivity.
Qed.

(** ** Configuration loading *)

Lemma dict_get_set_other (k k' : string) (v : pyval) (d : dict) :
  String.eqb k k' = false -> dict_get k (dict_set k' v d) = dict_get k d.
Proof.
  intros Hk. induction d as [|[k0 v0] d IH]; simpl.
  - now rewrite Hk.
  - destruct (String.eqb k' k0) eqn:E; simpl.
    + apply String.eqb_eq in E. subst k0. now rewrite Hk.
    + now rewrite IH.
Qed.

Lemma py_contains_raises (P : BaseException -> Prop) (k : string) (v : pyval) :
  (forall cls msg, P (Exception cls msg)) -> raises_only P (py_contains k v).
Proof.
  intros HP. destruct v; simpl;
    first [apply raises_only_Return | apply raises_only_Exception, HP].
Qed.

(** The substitution raises ordinary exceptions only. *)
Lemma substitute_api_key_raises (env : Env) (doc : pyval) :
  raises_only is_Exception (substitute_api_key env doc).
Proof.
  assert (HP : forall cls msg, is_Exception (Exception cls msg))
    by (intros cls msg; exists cls, msg; reflexivity).
  unfold substitute_api_key.
  apply raises_only_and_then; [apply py_contains_raises, HP|].
  intros [|]; [|apply raises_only_Return].
  apply raises_only_and_then; [apply py_getitem_raises; intros; apply HP|].
  intros server.
  apply raises_only_and_then; [apply py_contains_raises, HP|].
  intros [|]; [|apply raises_only_Return].
  apply raises_only_and_then; [apply py_getitem_raises; intros; apply HP|].
  intros server'.
  apply raises_only_and_then; [apply py_getitem_raises; intros; apply HP|].
  intros api_key.
  destruct api_key; try (apply raises_only_Exception, HP).
  destruct (prefix "${" s && ends_with_brace s); [|apply raises_only_Return].
  destruct doc, server';
    first [apply raises_only_Return | apply raises_only_Exception, HP].
Qed.

(** The substitution touches the [server] section only. *)
Lemma substitute_api_key_keeps_collection (env : Env) (d : dict) (doc' : pyval) :
  substitute_api_key env (PDict d) = Return doc' ->
  exists d', doc' = PDict d' /\ dict_get "collection" d' = dict_get "collection" d.
Proof.
  unfold substitute_api_key. intros H.
  assert (Hsame : exists d', PDict d = PDict d' /\
                             dict_get "collection" d' = dict_get "collection" d)
    by (exists d; auto).
  cbn [py_contains and_then] in H.
  destruct (dict_has "server" d); [|injection H as <-; exact Hsame].
  destruct (py_getitem (PDict d) "server") as [server|e]; cbn [and_then] in H;
    [|discriminate].
  destruct (py_contains "api_key" server) as [[|]|e]; cbn [and_then] in H;
    [|injection H as <-; exact Hsame|discriminate].
  destruct (py_getitem server "api_key") as [api_key|e]; cbn [and_then] in H;
    [|discriminate].
  destruct api_key; try discriminate.
  destruct (prefix "${" s && ends_with_brace s); [|injection H as <-; exact Hsame].
  destruct server; try discriminate. injection H as <-.
  eexists. split; [reflexivity|]. apply dict_get_set_other. reflexivity.
Qed.

(** What [load_config] does, stage by stage. *)
Lemma load_config_cases (env : Env) (config_path : string) (w : World) :
  match open_read env (step w) config_path with
  | Interrupted => fst (load_config env config_path w) = Raise KeyboardInterrupt
  | Fails _ _ => fst (load_config env config_path w) = Raise (SystemExit 1)
  | Returns text =>
      match yaml_safe_load env text with
      | Interrupted => fst (load_config env config_path w) = Raise KeyboardInterrupt
      | Fails _ _ => fst (load_config env config_path w) = Raise (SystemExit 1)
      | Returns doc =>
          match and_then (substitute_api_key env doc) (AgentConfig_construct env) with
          | Return config => fst (load_config env config_path w) = Return config
          | Raise _ => fst (load_config env config_path w) = Raise (SystemExit 1)
          end
      end
  end.
Proof.
  unfold load_config, try_except_clauses, bind, call, lift, logger, raise.
  destruct (open_read env (step w) config_path) as [text|cls msg|]; [| |reflexivity].
  - destruct (yaml_safe_load env text) as [doc|cls msg|]; [| |reflexivity].
    + pose proof (substitute_api_key_raises env doc) as Hsub.
      destruct (substitute_api_key env doc) as [doc'|e]; cbn [and_then].
      * unfold AgentConfig_construct.
        destruct doc'; try reflexivity.
        destruct (validate_AgentConfig env d); reflexivity.
      * destruct (Hsub e eq_refl) as [cls [msg ->]]. simpl.
        destruct (is_FileNotFoundError cls); [reflexivity|].
        destruct (is_ValidationError cls); reflexivity.
    + simpl. destruct (is_FileNotFoundError cls); [reflexivity|].
      destruct (is_ValidationError cls); reflexivity.
  - simpl. destruct (is_FileNotFoundError cls); [reflexivity|].
    destruct (is_ValidationError cls); reflexivity.
Qed.

Lemma validate_interval_range (env : Env) (v : pyval) (n : Z) :
  validate_interval env v = Some n -> 5 <= n <= 3600.
Proof.
  unfold validate_interval. destruct (pydantic_int env v) as [m|]; [|discriminate].
  destruct ((5 <=? m) && (m <=? 3600)) eqn:E; [|discriminate].
  intros [= <-]. apply andb_true_iff in E. destruct E as [E1 E2].
  apply Z.leb_le in E1. apply Z.leb_le in E2. lia.
Qed.

Lemma validate_interval_out_of_range (env : Env) (n : Z) :
  pydantic_exact env -> n < 5 \/ 3600 < n -> validate_interval env (PInt n) = None.
Proof.
  intros [Hint _] Hn. unfold validate_interval. rewrite Hint.
  destruct ((5 <=? n) && (n <=? 3600)) eqn:E; [|reflexivity].
  apply andb_true_iff in E. destruct E as [E1 E2].
  apply Z.leb_le in E1. apply Z.leb_le in E2. lia.
Qed.

Lemma validate_AgentConfig_interval (env : Env) (d : dict) (config : AgentConfig.t) :
  validate_AgentConfig env d = Some config -> 5 <= interval_of config <= 3600.
Proof.
  unfold validate_AgentConfig, interval_of.
  destruct (validate_required (validate_ServerConfig env) (dict_get "server" d));
    [|discriminate].
  destruct (validate_default (validate_CollectionConfig env) CollectionConfig.default
              (dict_get "collection" d)) as [c|] eqn:Hc; [|discriminate].
  destruct (validate_default (validate_list (validate_HealthCheckConfig env)) []
              (dict_get "health_checks" d)); [|discriminate].
  intros [= <-]. simpl.
  unfold validate_default in Hc. destruct (dict_get "collection" d) as [v|].
  - unfold validate_CollectionConfig in Hc. destruct v; try discriminate.
    destruct (validate_default (validate_interval env) 30 (dict_get "interval_seconds" d0))
      as [i|] eqn:Hi; [|discriminate].
    destruct (validate_default (pydantic_bool env) true (dict_get "include_docker" d0));
      [|discriminate].
    destruct (validate_default (validate_list (pydantic_str env)) ["/"]
                (dict_get "disk_mounts" d0)); [|discriminate].
    injection Hc as <-. simpl.
    unfold validate_default in Hi. destruct (dict_get "interval_seconds" d0).
    + eapply validate_interval_range; eauto.
    + injection Hi as <-. lia.
  - injection Hc as <-. simpl. lia.
Qed.

Lemma validate_AgentConfig_bad_interval (env : Env) (d coll : dict) (n : Z) :
  pydantic_exact env ->
  dict_get "collection" d = Some (PDict coll) ->
  dict_get "interval_seconds" coll = Some (PInt n) ->
  n < 5 \/ 3600 < n ->
  validate_AgentConfig env d = None.
Proof.
  intros Hex Hc Hi Hn. unfold validate_AgentConfig. rewrite Hc.
  unfold validate_default at 1. unfold validate_CollectionConfig. rewrite Hi.
  unfold validate_default at 1. rewrite (validate_interval_out_of_range env n Hex Hn).
  destruct (validate_required (validate_ServerConfig env) (dict_get "server" d));
    reflexivity.
Qed.

(** A failure of [load_config] leaves [main] before the loop starts. *)
Lemma main_propagates_load_config (env : Env) (config_path : string) (passes : nat)
    (w : World) (e : BaseException) :
  fst (load_config env config_path w) = Raise e ->
  fst (main env config_path passes w) = Propagated e.
Proof.
  unfold main, Agent_init, bind. intros H.
  destruct (load_config env config_path w) as [[config|e'] w']; simpl in H;
    [discriminate|].
  injection H as ->. reflexivity.
Qed.

Lemma construct_sample_document (env : Env) (n : Z) :
  pydantic_exact env -> 5 <= n <= 3600 ->
  and_then (substitute_api_key env (sample_document n)) (AgentConfig_construct env) =
    Return (sample_loaded_config n).
Proof.
  intros [Hint [Hstr Hbool]] Hn.
  assert (Hrange : (5 <=? n) && (n <=? 3600) = true).
  { apply andb_true_iff. split; apply Z.leb_le; lia. }
  unfold sample_document, substitute_api_key. cbn.
  unfold validate_AgentConfig, validate_ServerConfig, validate_CollectionConfig,
    validate_interval. cbn.
  rewrite !Hstr, Hint, Hrange. reflexivity.
Qed.

(** C7.  [load_config] ends in [sys.exit(1)] when the file cannot be opened,
    when the document cannot be parsed and when validation fails, which
    covers every interval outside 5..3600 (such as 3); a document with an
    interval inside the range (such as 30) is returned as a configuration;
    a configuration is returned only for a document that passes validation,
    never with an interval out of range; the only exit status is 1 (short of
    an interrupt by the operator); and the exit leaves [main] before the loop
    starts.  Pydantic is taken to accept a value that already has the field's
    type. *)
Theorem load_config_fatal_unless_valid (env : Env) (config_path : string) (w : World) :
  pydantic_exact env ->
  let r := fst (load_config env config_path w) in
  (forall cls msg,
     open_read env (step w) config_path = Fails cls msg -> r = Raise (SystemExit 1))
  /\
  (forall text cls msg,
     open_read env (step w) config_path = Returns text ->
     yaml_safe_load env text = Fails cls msg ->
     r = Raise (SystemExit 1))
  /\
  (forall text doc d',
     open_read env (step w) config_path = Returns text ->
     yaml_safe_load env text = Returns doc ->
     substitute_api_key env doc = Return (PDict d') ->
     validate_AgentConfig env d' = None ->
     r = Raise (SystemExit 1))
  /\
  (forall text d coll n,
     open_read env (step w) config_path = Returns text ->
     yaml_safe_load env text = Returns (PDict d) ->
     dict_get "collection" d = Some (PDict coll) ->
     dict_get "interval_seconds" coll = Some (PInt n) ->
     n < 5 \/ 3600 < n ->
     r = Raise (SystemExit 1))
  /\
  (forall text n,
     open_read env (step w) config_path = Returns text ->
     yaml_safe_load env text = Returns (sample_document n) ->
     5 <= n <= 3600 ->
     r = Return (sample_loaded_config n))
  /\
  (forall config,
     r = Return config ->
     5 <= interval_of config <= 3600 /\
     exists text doc d',
       open_read env (step w) config_path = Returns text /\
       yaml_safe_load env text = Returns doc /\
       substitute_api_key env doc = Return (PDict d') /\
       validate_AgentConfig env d' = Some config)
  /\
  (forall e, r = Raise e -> e = SystemExit 1 \/ e = KeyboardInterrupt)
  /\
  (forall e passes, r = Raise e -> fst (main env config_path passes w) = Propagated e).
Proof.
  intros Hex r. subst r.
  pose proof (load_config_cases env config_path w) as H.
  split; [|split; [|split; [|split; [|split; [|split; [|split]]]]]];
    [| | | | | | |intros e passes; apply main_propagates_load_config].
  - intros cls msg Ho. now rewrite Ho in H.
  - intros text cls msg Ho Hy. rewrite Ho, Hy in H. exact H.
  - intros text doc d' Ho Hy Hs Hv. rewrite Ho, Hy, Hs in H.
    cbn [and_then] in H. unfold AgentConfig_construct in H. rewrite Hv in H. exact H.
  - intros text d coll n Ho Hy Hc Hi Hn. rewrite Ho, Hy in H.
    destruct (substitute_api_key env (PDict d)) as [doc'|e] eqn:Hs;
      cbn [and_then] in H; [|exact H].
    destruct (substitute_api_key_keeps_collection env d doc' Hs) as [d' [-> Hd']].
    rewrite <- Hd' in Hc.
    unfold AgentConfig_construct in H.
    rewrite (validate_AgentConfig_bad_interval env d' coll n Hex Hc Hi Hn) in H.
    exact H.
  - intros text n Ho Hy Hn. rewrite Ho, Hy in H.
    rewrite (construct_sample_document env n Hex Hn) in H. exact H.
  - intros config Hr.
    destruct (open_read env (step w) config_path) as [text|cls msg|] eqn:Ho;
      [|congruence|congruence].
    destruct (yaml_safe_load env text) as [doc|cls msg|] eqn:Hy; [|congruence|congruence].
    destruct (substitute_api_key env doc) as [doc'|e] eqn:Hs; cbn [and_then] in H;
      [|congruence].
    unfold AgentConfig_construct in H. destruct doc'; try congruence.
    destruct (validate_AgentConfig env d) as [config'|] eqn:Hv; [|congruence].
    rewrite H in Hr. injection Hr as <-.
    split; [eapply validate_AgentConfig_interval; eauto|].
    exists text, doc, d. auto.
  - intros e Hr.
    destruct (open_read env (step w) config_path) as [text|cls msg|];
      [|left; congruence|right; congruence].
    destruct (yaml_safe_load env text) as [doc|cls msg|];
      [|left; congruence|right; congruence].
    destruct (and_then (substitute_api_key env doc) (AgentConfig_construct env));
      [congruence | left; congruence].
Qed.

Lemma sample_env_pydantic_exact (get : Reply Response) (connect : Reply Z)
    (post : Reply Response) (config_file : Reply string) (document : Reply pyval) :
  pydantic_exact (sample_env get connect post config_file document).
Proof. repeat split. Defined.

Lemma load_config_fatal_unless_valid_witness :
  fst (load_config
         (sample_env (Returns {| status_code := 200 |}) (Returns 0)
            (Returns {| status_code := 200 |}) (Returns "collection: {interval_seconds: 3}")
            (Returns (sample_document 3)))
         "config.yaml" World_init) = Raise (SystemExit 1)
  /\
  fst (load_config
         (sample_env (Returns {| status_code := 200 |}) (Returns 0)
            (Returns {| status_code := 200 |}) (Returns "collection: {interval_seconds: 30}")
            (Returns (sample_document 30)))
         "config.yaml" World_init) = Return (sample_loaded_config 30)
  /\
  fst (load_config
         (sample_env (Returns {| status_code := 200 |}) (Returns 0)
            (Returns {| status_code := 200 |})
            (Fails FileNotFoundError "No such file or directory: 'config.yaml'")
            (Returns (sample_document 30)))
         "config.yaml" World_init) = Raise (SystemExit 1).
Proof.
  split; [|split].
  - pose proof (load_config_fatal_unless_valid
                  (sample_env (Returns {| status_code := 200 |}) (Returns 0)
                     (Returns {| status_code := 200 |})
                     (Returns "collection: {interval_seconds: 3}")
                     (Returns (sample_document 3)))
                  "config.yaml" World_init (sample_env_pydantic_exact _ _ _ _ _)) as H.
    cbv zeta in H. destruct H as [_ [_ [_ [H _]]]].
    eapply (H "collection: {interval_seconds: 3}" _ [("interval_seconds", PInt 3)] 3);
      [reflexivity | unfold sample_document; reflexivity | reflexivity | reflexivity
      | left; lia].
  - pose proof (load_config_fatal_unless_valid
                  (sample_env (Returns {| status_code := 200 |}) (Returns 0)
                     (Returns {| status_code := 200 |})
                     (Returns "collection: {interval_seconds: 30}")
                     (Returns (sample_document 30)))
                  "config.yaml" World_init (sample_env_pydantic_exact _ _ _ _ _)) as H.
    cbv zeta in H. destruct H as [_ [_ [_ [_ [H _]]]]].
    apply (H "collection: {interval_seconds: 30}" 30); try reflexivity. lia.
  - pose proof (load_config_fatal_unless_valid
                  (sample_env (Returns {| status_code := 200 |}) (Returns 0)
                     (Returns {| status_code := 200 |})
                     (Fails FileNotFoundError "No such file or directory: 'config.yaml'")
                     (Returns (sample_document 30)))
                  "config.yaml" World_init (sample_env_pydantic_exact _ _ _ _ _)) as H.
    cbv zeta in H. destruct H as [H _].
    apply (H FileNotFoundError "No such file or directory: 'config.yaml'"). reflexivity.
Defined.

(** * Further properties of the agent *)

(** ** Truncation *)

Lemma int_of_float_nonneg (q : Q) :
  (0 <= q)%Q -> 0 <= int_of_float q /\ (inject_Z (int_of_float q) <= q)%Q.
Proof.
  destruct q as [n d]. unfold Qle, int_of_float. simpl. intros Hn.
  assert (Hn' : 0 <= n) by lia.
  rewrite Z.quot_div_nonneg by lia. split.
  - apply Z.div_pos; lia.
  - rewrite Z.mul_1_r. rewrite Z.mul_comm. apply Z.mul_div_le. lia.
Qed.

Lemma int_of_float_nonpos (q : Q) : (q <= 0)%Q -> int_of_float q <= 0.
Proof.
  destruct q as [n d]. unfold Qle, int_of_float. simpl. intros Hn.
  assert (Hn' : n <= 0) by lia.
  replace n with (- (- n)) by lia. rewrite Z.quot_opp_l by lia.
  assert (0 <= (- n) ÷ Z.pos d) by (apply Z.quot_pos; lia). lia.
Qed.

(** ** TCP probes *)

(** X1.  [check_tcp] reports healthy exactly when [connect_ex] returns 0; the
    result then carries the host and port and the message says whether the
    port is open; an exception gives an unhealthy result with the exception's
    text and without host and port. *)
Theorem check_tcp_healthy_iff_connected (env : Env) (config : HealthCheckConfig.t)
    (w : World) :
  (forall result,
     socket_connect_ex env (step w) (HealthCheckConfig.host config)
       (HealthCheckConfig.port config) = Returns result ->
     exists d,
       fst (check_tcp env config w) = Return d /\
       (dict_get "healthy" d = Some (PBool true) <-> result = 0) /\
       dict_get "host" d = Some (opt_str (HealthCheckConfig.host config)) /\
       dict_get "port" d = Some (opt_int (HealthCheckConfig.port config)) /\
       (result = 0 -> dict_get "message" d = Some (PStr "Port is open")) /\
       (result <> 0 ->
        dict_get "healthy" d = Some (PBool false) /\
        dict_get "message" d = Some (PStr "Port is closed")))
  /\
  (forall cls msg,
     socket_connect_ex env (step w) (HealthCheckConfig.host config)
       (HealthCheckConfig.port config) = Fails cls msg ->
     exists d,
       fst (check_tcp env config w) = Return d /\
       dict_get "healthy" d = Some (PBool false) /\
       dict_get "message" d = Some (PStr msg) /\
       dict_has "host" d = false /\
       dict_has "port" d = false).
Proof.
  pose proof (check_tcp_cases env config w) as H. cbv zeta in H.
  split.
  - intros result Hr. rewrite Hr in H. rewrite H.
    eexists. split; [reflexivity|]. cbn [dict_get String.eqb Ascii.eqb Bool.eqb].
    destruct (Z.eqb_spec result 0) as [E|E].
    + split; [tauto|]. split; [reflexivity|]. split; [reflexivity|].
      split; [reflexivity | intros Hne; contradiction].
    + split; [split; [discriminate | contradiction]|].
      split; [reflexivity|]. split; [reflexivity|].
      split; [contradiction | intros _; split; reflexivity].
  - intros cls msg Hr. rewrite Hr in H. rewrite H.
    eexists. split; [reflexivity|]. repeat split.
Qed.

Lemma check_tcp_healthy_iff_connected_witness :
  (exists d,
     fst (check_tcp
            (sample_env (Returns {| status_code := 200 |}) (Returns 111)
               (Returns {| status_code := 200 |}) (Returns "server: {}") (Returns (PDict [])))
            db_check World_init) = Return d /\
     dict_get "healthy" d = Some (PBool false) /\
     dict_get "message" d = Some (PStr "Port is closed"))
  /\
  (exists d,
     fst (check_tcp
            (sample_env (Returns {| status_code := 200 |})
               (Fails OSError "Name or service not known")
               (Returns {| status_code := 200 |}) (Returns "server: {}") (Returns (PDict [])))
            db_check World_init) = Return d /\
     dict_get "message" d = Some (PStr "Name or service not known") /\
     dict_has "port" d = false).
Proof.
  split.
  - destruct (proj1 (check_tcp_healthy_iff_connected
                       (sample_env (Returns {| status_code := 200 |}) (Returns 111)
                          (Returns {| status_code := 200 |}) (Returns "server: {}")
                          (Returns (PDict [])))
                       db_check World_init) 111 eq_refl)
      as [d [Hd [_ [_ [_ [_ Hne]]]]]].
    exists d. split; [exact Hd|]. apply Hne. discriminate.
  - destruct (proj2 (check_tcp_healthy_iff_connected
                       (sample_env (Returns {| status_code := 200 |})
                          (Fails OSError "Name or service not known")
                          (Returns {| status_code := 200 |}) (Returns "server: {}")
                          (Returns (PDict [])))
                       db_check World_init) OSError "Name or service not known" eq_refl)
      as [d [Hd [_ [Hm [_ Hp]]]]].
    exists d. auto.
Defined.

(** ** The effects of a round of health checks *)

Lemma check_http_effect (env : Env) (config : HealthCheckConfig.t) (w w' : World) (d : dict) :
  check_http env config w = (Return d, w') ->
  w' = record_event (EvGet (HealthCheckConfig.url config)) w.
Proof.
  pose proof (check_http_cases env config w) as H. cbv zeta in H.
  destruct (requests_get env (step w) (HealthCheckConfig.url config));
    rewrite H; intros [= _ <-]; reflexivity.
Qed.

Lemma check_tcp_effect (env : Env) (config : HealthCheckConfig.t) (w w' : World) (d : dict) :
  check_tcp env config w = (Return d, w') ->
  w' = record_event (EvConnect (HealthCheckConfig.host config)
                       (HealthCheckConfig.port config)) w.
Proof.
  pose proof (check_tcp_cases env config w) as H. cbv zeta in H.
  destruct (socket_connect_ex env (step w) (HealthCheckConfig.host config)
              (HealthCheckConfig.port config));
    rewrite H; intros [= _ <-]; reflexivity.
Qed.

Lemma check_all_loop_effect (env : Env) (checks : list HealthCheckConfig.t) :
  forall (results : list dict) (w : World) (rs : list dict) (w' : World),
    check_all_loop env checks results w = (Return rs, w') ->
    trace w' = (trace w ++ map probe_event (filter is_probe checks))%list /\
    collector w' = collector w.
Proof.
  induction checks as [|check rest IH]; intros results w rs w' H; simpl in H.
  - injection H as _ <-. simpl. rewrite app_nil_r. auto.
  - simpl filter. unfold is_probe at 1.
    destruct (String.eqb (HealthCheckConfig.type check) "http") eqn:Ehttp.
    + unfold bind in H.
      destruct (check_http env check w) as [[d|e] w1] eqn:Hc; [|discriminate].
      apply check_http_effect in Hc. subst w1. apply IH in H. destruct H as [Ht Hcol].
      simpl. unfold probe_event at 1. rewrite Ehttp. rewrite Ht. simpl.
      rewrite <- app_assoc. auto.
    + destruct (String.eqb (HealthCheckConfig.type check) "tcp") eqn:Etcp.
      * unfold bind in H.
        destruct (check_tcp env check w) as [[d|e] w1] eqn:Hc; [|discriminate].
        apply check_tcp_effect in Hc. subst w1. apply IH in H. destruct H as [Ht Hcol].
        simpl. unfold probe_event at 1. rewrite Ehttp. rewrite Ht. simpl.
        rewrite <- app_assoc. auto.
      * simpl. eapply IH; eauto.
Qed.

(** X2.  A round of health checks makes exactly one network call per check
    of type http or tcp, in the order of the list, and nothing else: no log
    line, no retry, no change to the collector's state. *)
Theorem check_all_one_call_per_probe (env : Env) (checks : list HealthCheckConfig.t)
    (w : World) :
  probes_uninterrupted env ->
  exists rs w',
    check_all env checks w = (Return rs, w') /\
    trace w' = (trace w ++ map probe_event (filter is_probe checks))%list /\
    collector w' = collector w.
Proof.
  intros Hp. unfold check_all.
  destruct (check_all_loop_total env checks Hp [] w) as [rs [w' H]].
  exists rs, w'. split; [exact H|]. eapply check_all_loop_effect; eauto.
Qed.

Lemma check_all_one_call_per_probe_witness :
  exists rs w',
    check_all quiet_env [web_check; cron_check; db_check] World_init = (Return rs, w') /\
    trace w' = [EvGet (Some "http://localhost:8080/health");
                EvConnect (Some "localhost") (Some 5432)] /\
    collector w' = MetricsCollector_init.
Proof.
  exact (check_all_one_call_per_probe quiet_env [web_check; cron_check; db_check]
           World_init quiet_probes_uninterrupted).
Defined.

(** X3.  When the clock does not run backwards during the request, the
    latency that [check_http] reports is non-negative and not more than the
    elapsed time in milliseconds. *)
Theorem check_http_latency_bounds (env : Env) (config : HealthCheckConfig.t) (w : World)
    (response : Response) :
  requests_get env (step w) (HealthCheckConfig.url config) = Returns response ->
  (time_time env (step w) <= time_time env (S (step w)))%Q ->
  exists d ms,
    fst (check_http env config w) = Return d /\
    dict_get "response_time_ms" d = Some (PInt ms) /\
    0 <= ms /\
    (inject_Z ms <= (time_time env (S (step w)) - time_time env (step w)) * 1000)%Q.
Proof.
  intros Hr Hclock.
  pose proof (check_http_cases env config w) as H. cbv zeta in H. rewrite Hr in H.
  rewrite step_record_event in H. rewrite H.
  eexists. eexists. split; [reflexivity|]. split; [reflexivity|].
  apply int_of_float_nonneg.
  apply Qmult_le_0_compat; [|discriminate].
  unfold Qminus. rewrite <- Qle_minus_iff. exact Hclock.
Qed.

Lemma check_http_latency_bounds_witness :
  exists d,
    fst (check_http quiet_env web_check World_init) = Return d /\
    dict_get "response_time_ms" d = Some (PInt 1000).
Proof.
  destruct (check_http_latency_bounds quiet_env web_check World_init
              {| status_code := 200 |} eq_refl) as [d [ms [Hd [Hms _]]]].
  - vm_compute. discriminate.
  - exists d. split; [exact Hd|].
    rewrite Hms. vm_compute in Hd. injection Hd as <-. vm_compute in Hms.
    injection Hms as <-. reflexivity.
Defined.

(** ** The stored samples of the rate tracker *)



(** ** The sign and size of a rate *)




(** ** What the parts of a cycle leave untouched *)

Section Preserves.

Variable R : World -> World -> Prop.
Hypothesis R_refl : forall w, R w w.
Hypothesis R_trans : forall w1 w2 w3, R w1 w2 -> R w2 w3 -> R w1 w3.
Hypothesis R_event : forall ev w, not_post ev -> R w (record_event ev w).

Lemma preserves_ret {A : Type} (a : A) : preserves R (ret a).
Proof. intros w. apply R_refl. Qed.

Lemma preserves_raise {A : Type} (e : BaseException) : preserves R (@raise A e).
Proof. intros w. apply R_refl. Qed.

Lemma preserves_lift {A : Type} (o : Outcome A) : preserves R (lift o).
Proof. intros w. apply R_refl. Qed.

Lemma preserves_bind {A B : Type} (m : M A) (f : A -> M B) :
  preserves R m -> (forall a, preserves R (f a)) -> preserves R (bind m f).
Proof.
  intros Hm Hf w. unfold bind. specialize (Hm w).
  destruct (m w) as [[a|e] w1]; simpl in *; [|exact Hm].
  eapply R_trans; [exact Hm | apply Hf].
Qed.

Lemma preserves_call {A : Type} (oracle : nat -> Reply A) (ev : Event) :
  not_post ev -> preserves R (call oracle ev).
Proof.
  intros Hev w. unfold call. destruct (oracle (step w)); simpl; now apply R_event.
Qed.

Lemma preserves_logger (level : Level) (msg : string) : preserves R (logger level msg).
Proof. intros w. simpl. now apply R_event. Qed.

Lemma preserves_now (env : Env) : preserves R (now env).
Proof. intros w. apply R_refl. Qed.

Lemma preserves_time_sleep (env : Env) (seconds : Z) : preserves R (time_sleep env seconds).
Proof.
  intros w. unfold time_sleep.
  destruct (seconds <? 0); [apply R_refl|].
  destruct (sleep_interrupted env (step w)); simpl; now apply R_event.
Qed.

Lemma preserves_try_except {A : Type} (body : M A) (catches : ExcClass -> bool)
    (handler : string -> M A) :
  preserves R body -> (forall msg, preserves R (handler msg)) ->
  preserves R (try_except body catches handler).
Proof.
  intros Hb Hh w. unfold try_except. specialize (Hb w).
  destruct (body w) as [[a|[cls msg| |code]] w1]; simpl in *; try exact Hb.
  destruct (catches cls); [|exact Hb].
  eapply R_trans; [exact Hb | apply Hh].
Qed.

Lemma preserves_try_except_clauses {A : Type} (body : M A)
    (clauses : list ((ExcClass -> bool) * (string -> M A))) :
  preserves R body ->
  Forall (fun clause => forall msg, preserves R (snd clause msg)) clauses ->
  preserves R (try_except_clauses body clauses).
Proof.
  intros Hb Hh w. unfold try_except_clauses. specialize (Hb w).
  destruct (body w) as [[a|[cls msg| |code]] w1]; simpl in *; try exact Hb.
  destruct (select_handler clauses cls) as [handler|] eqn:Hs; [|exact Hb].
  assert (Hin : forall msg', preserves R (handler msg')).
  { clear Hb. induction Hh as [|[c h] rest Hc _ IH]; simpl in Hs; [discriminate|].
    destruct (c cls); [inversion Hs; subst; exact Hc | auto]. }
  eapply R_trans; [exact Hb | apply Hin].
Qed.

Variable env : Env.

Ltac preserves_step :=
  first
    [ apply preserves_ret
    | apply preserves_call; exact I
    | apply preserves_logger
    | apply preserves_now
    | apply preserves_lift
    | apply preserves_raise
    | apply preserves_time_sleep
    | apply preserves_bind; [|intros ?]
    | apply preserves_try_except; [|intros ?]
    | match goal with
      | |- preserves _ (if ?c then _ else _) => destruct c
      | |- preserves _ (match ?x with _ => _ end) => destruct x
      end ].

Lemma utc_now_isoformat_preserves : preserves R (utc_now_isoformat env).
Proof. intros w. apply R_refl. Qed.

Lemma collect_system_info_preserves : preserves R (collect_system_info env).
Proof. unfold collect_system_info. repeat preserves_step. Qed.

Lemma collect_cpu_metrics_preserves : preserves R (collect_cpu_metrics env).
Proof. unfold collect_cpu_metrics. repeat preserves_step. Qed.

Lemma collect_memory_metrics_preserves : preserves R (collect_memory_metrics env).
Proof. unfold collect_memory_metrics. repeat preserves_step. Qed.

Lemma collect_disk_metrics_preserves (config : CollectionConfig.t) :
  preserves R (collect_disk_metrics env config).
Proof.
  unfold collect_disk_metrics. generalize (@nil pyval) as disks.
  induction (CollectionConfig.disk_mounts config) as [|mount rest IH]; intros disks; simpl.
  - apply preserves_ret.
  - apply preserves_bind; [repeat preserves_step | intros disks'; apply IH].
Qed.

Lemma collect_container_preserves (container : Container) :
  preserves R (collect_container env container).
Proof. unfold collect_container. cbv zeta. repeat preserves_step. Qed.

Lemma collect_containers_loop_preserves (cs : list Container) :
  forall containers, preserves R (collect_containers_loop env cs containers).
Proof.
  induction cs as [|container rest IH]; intros containers; simpl.
  - apply preserves_ret.
  - apply preserves_bind; [apply collect_container_preserves | intros info; apply IH].
Qed.

Lemma collect_docker_metrics_preserves (config : CollectionConfig.t) :
  preserves R (collect_docker_metrics env config).
Proof.
  unfold collect_docker_metrics.
  destruct (negb (CollectionConfig.include_docker config)); [apply preserves_ret|].
  apply preserves_try_except_clauses.
  - apply preserves_bind;
      [preserves_step | intros cs; apply collect_containers_loop_preserves].
  - repeat constructor; simpl; intros msg; repeat preserves_step.
Qed.

Lemma check_http_preserves (config : HealthCheckConfig.t) :
  preserves R (check_http env config).
Proof. unfold check_http. repeat preserves_step. Qed.

Lemma check_tcp_preserves (config : HealthCheckConfig.t) :
  preserves R (check_tcp env config).
Proof. unfold check_tcp. repeat preserves_step. Qed.

Lemma check_all_preserves (checks : list HealthCheckConfig.t) :
  preserves R (check_all env checks).
Proof.
  unfold check_all. generalize (@nil dict) as results.
  induction checks as [|check rest IH]; intros results; simpl.
  - apply preserves_ret.
  - destruct (String.eqb (HealthCheckConfig.type check) "http").
    + apply preserves_bind; [apply check_http_preserves | intros r; apply IH].
    + destruct (String.eqb (HealthCheckConfig.type check) "tcp").
      * apply preserves_bind; [apply check_tcp_preserves | intros r; apply IH].
      * apply IH.
Qed.

End Preserves.

Lemma same_collector_refl (w : World) : same_collector w w.
Proof. reflexivity. Qed.

Lemma same_collector_trans (w1 w2 w3 : World) :
  same_collector w1 w2 -> same_collector w2 w3 -> same_collector w1 w3.
Proof. unfold same_collector. congruence. Qed.

Lemma same_collector_event (ev : Event) (w : World) :
  not_post ev -> same_collector w (record_event ev w).
Proof. reflexivity. Qed.

Lemma same_posts_refl (w : World) : same_posts w w.
Proof. reflexivity. Qed.

Lemma same_posts_trans (w1 w2 w3 : World) :
  same_posts w1 w2 -> same_posts w2 w3 -> same_posts w1 w3.
Proof. unfold same_posts. congruence. Qed.

Lemma same_posts_event (ev : Event) (w : World) :
  not_post ev -> same_posts w (record_event ev w).
Proof.
  intros Hev. unfold same_posts, record_event. simpl. rewrite posted_payloads_app.
  destruct ev; simpl in *; try contradiction; apply app_nil_r.
Qed.

(** The two rate collections append their psutil read to the trace and
    nothing else. *)
Lemma collect_disk_io_metrics_trace (env : Env) (w : World) :
  trace (snd (collect_disk_io_metrics env w)) =
    (trace w ++ [EvPsutil "disk_io_counters"])%list.
Proof.
  unfold collect_disk_io_metrics, bind, call, now, with_collector.
  destruct (psutil_disk_io_counters env (step w)); simpl; try reflexivity.
  destruct (collect_disk_io_metrics_from _ _ _); reflexivity.
Qed.

Lemma collect_network_metrics_trace (env : Env) (w : World) :
  trace (snd (collect_network_metrics env w)) =
    (trace w ++ [EvPsutil "net_io_counters"])%list.
Proof.
  unfold collect_network_metrics, bind, call, now, with_collector.
  destruct (psutil_net_io_counters env (step w)); simpl; try reflexivity.
  destruct (collect_network_metrics_from _ _ _); reflexivity.
Qed.

Lemma collect_all_same_posts (env : Env) (config : CollectionConfig.t) :
  preserves same_posts (collect_all env config).
Proof.
  assert (Hd : preserves same_posts (collect_disk_io_metrics env)).
  { intros w. unfold same_posts. rewrite collect_disk_io_metrics_trace.
    rewrite posted_payloads_app. apply app_nil_r. }
  assert (Hn : preserves same_posts (collect_network_metrics env)).
  { intros w. unfold same_posts. rewrite collect_network_metrics_trace.
    rewrite posted_payloads_app. apply app_nil_r. }
  unfold collect_all.
  repeat first
    [ exact Hd
    | exact Hn
    | apply (utc_now_isoformat_preserves same_posts same_posts_refl)
    | apply (collect_system_info_preserves same_posts same_posts_refl same_posts_trans
               same_posts_event)
    | apply (collect_cpu_metrics_preserves same_posts same_posts_refl same_posts_trans
               same_posts_event)
    | apply (collect_memory_metrics_preserves same_posts same_posts_refl same_posts_trans
               same_posts_event)
    | apply (collect_disk_metrics_preserves same_posts same_posts_refl same_posts_trans
               same_posts_event)
    | apply (collect_docker_metrics_preserves same_posts same_posts_refl same_posts_trans
               same_posts_event)
    | apply (preserves_ret same_posts same_posts_refl)
    | apply (preserves_bind same_posts same_posts_trans); [|intros ?] ].
Qed.

Lemma send_metrics_same_collector (env : Env) (config : AgentConfig.t) (payload : dict) :
  preserves same_collector (send_metrics env config payload).
Proof.
  intros w. pose proof (send_metrics_cases env config payload w) as H. cbv zeta in H.
  destruct (session_post env (step w) (metrics_url config) payload) as [response|cls msg|].
  - destruct (raise_for_status_cases response) as [[_ [m Hm]]|[_ Hm]];
      rewrite Hm in H; rewrite H; reflexivity.
  - rewrite H. destruct (is_RequestException cls); reflexivity.
  - rewrite H. reflexivity.
Qed.

(** ** The first snapshot after start *)

Lemma Agent_init_collector (env : Env) (config_path : string) (w0 w : World)
    (config : AgentConfig.t) :
  Agent_init env config_path w0 = (Return config, w) ->
  collector w = MetricsCollector_init.
Proof.
  unfold Agent_init. intros H.
  apply bind_Return in H. destruct H as [c [w1 [_ H]]].
  apply bind_Return in H. destruct H as [u [w2 [Hc H]]].
  apply bind_Return in H. destruct H as [u' [w3 [Hl H]]].
  unfold ret in H. injection H as _ <-.
  unfold logger in Hl. injection Hl as _ <-.
  unfold with_collector in Hc. injection Hc as _ <-. reflexivity.
Qed.

Lemma collect_disk_io_metrics_first (env : Env) (w w' : World) (d : dict) :
  last_disk_io (collector w) = None ->
  collect_disk_io_metrics env w = (Return d, w') ->
  d = zero_disk_result /\ last_net_io (collector w') = last_net_io (collector w).
Proof.
  intros Hnone. unfold collect_disk_io_metrics, bind, call, now, with_collector.
  destruct (psutil_disk_io_counters env (step w)); simpl; try discriminate.
  unfold collect_disk_io_metrics_from. rewrite Hnone. intros [= <- <-]. auto.
Qed.

Lemma collect_network_metrics_first (env : Env) (w w' : World) (d : dict) :
  last_net_io (collector w) = None ->
  collect_network_metrics env w = (Return d, w') ->
  d = zero_network_result.
Proof.
  intros Hnone. unfold collect_network_metrics, bind, call, now, with_collector.
  destruct (psutil_net_io_counters env (step w)); simpl; try discriminate.
  unfold collect_network_metrics_from. rewrite Hnone. intros [= <- _]. auto.
Qed.

(** A collection that starts without stored samples reports zero for both
    classes. *)
Lemma collect_all_without_samples (env : Env) (config : CollectionConfig.t)
    (w w' : World) (d : dict) :
  last_disk_io (collector w) = None ->
  last_net_io (collector w) = None ->
  collect_all env config w = (Return d, w') ->
  py_path (PDict d) ["metrics"; "disk_io"] = Return (PDict zero_disk_result) /\
  py_path (PDict d) ["metrics"; "network"] = Return (PDict zero_network_result).
Proof.
  intros Hdisk Hnet H. unfold collect_all in H.
  apply bind_Return in H. destruct H as [ts [w1 [H1 H]]].
  apply bind_Return in H. destruct H as [sys [w2 [H2 H]]].
  apply bind_Return in H. destruct H as [cpu [w3 [H3 H]]].
  apply bind_Return in H. destruct H as [mem [w4 [H4 H]]].
  apply bind_Return in H. destruct H as [disks [w5 [H5 H]]].
  apply bind_Return in H. destruct H as [dio [w6 [H6 H]]].
  apply bind_Return in H. destruct H as [net [w7 [H7 H]]].
  apply bind_Return in H. destruct H as [cs [w8 [H8 H]]].
  unfold ret in H. injection H as <- _.
  pose proof (utc_now_isoformat_preserves same_collector same_collector_refl env w) as P1.
  pose proof (collect_system_info_preserves same_collector same_collector_refl
                same_collector_trans same_collector_event env w1) as P2.
  pose proof (collect_cpu_metrics_preserves same_collector same_collector_refl
                same_collector_trans same_collector_event env w2) as P3.
  pose proof (collect_memory_metrics_preserves same_collector same_collector_refl
                same_collector_trans same_collector_event env w3) as P4.
  pose proof (collect_disk_metrics_preserves same_collector same_collector_refl
                same_collector_trans same_collector_event env config w4) as P5.
  rewrite H1 in P1. rewrite H2 in P2. rewrite H3 in P3. rewrite H4 in P4.
  rewrite H5 in P5. unfold same_collector in *. simpl in *.
  assert (Hc : collector w5 = collector w) by congruence.
  rewrite <- Hc in Hdisk, Hnet.
  destruct (collect_disk_io_metrics_first env w5 w6 dio Hdisk H6) as [-> Hn6].
  rewrite <- Hn6 in Hnet.
  rewrite (collect_network_metrics_first env w6 w7 net Hnet H7).
  split; reflexivity.
Qed.

(** X6.  The first snapshot collected after the agent is constructed reports
    zero in every field of the disk and network sections, whatever psutil
    reads and whatever state the process had before. *)
Theorem first_snapshot_reports_zero_rates (env : Env) (config_path : string)
    (config : AgentConfig.t) (w0 w w' : World) (d : dict) :
  Agent_init env config_path w0 = (Return config, w) ->
  collect_all env (AgentConfig.collection config) w = (Return d, w') ->
  py_path (PDict d) ["metrics"; "disk_io"] = Return (PDict zero_disk_result) /\
  py_path (PDict d) ["metrics"; "network"] = Return (PDict zero_network_result).
Proof.
  intros Hinit Hcollect.
  pose proof (Agent_init_collector env config_path w0 w config Hinit) as Hc.
  apply (collect_all_without_samples env (AgentConfig.collection config) w w' d);
    [rewrite Hc; reflexivity | rewrite Hc; reflexivity | exact Hcollect].
Qed.

Lemma first_snapshot_reports_zero_rates_witness :
  exists config w d w',
    Agent_init
      (sample_env (Returns {| status_code := 200 |}) (Returns 0)
         (Returns {| status_code := 200 |}) (Returns "server: {}")
         (Returns (sample_document 30)))
      "config.yaml" after_net_2_world = (Return config, w) /\
    collect_all
      (sample_env (Returns {| status_code := 200 |}) (Returns 0)
         (Returns {| status_code := 200 |}) (Returns "server: {}")
         (Returns (sample_document 30)))
      (AgentConfig.collection config) w = (Return d, w') /\
    py_path (PDict d) ["metrics"; "network"] = Return (PDict zero_network_result).
Proof.
  do 4 eexists. split; [vm_compute; reflexivity|]. split; [vm_compute; reflexivity|].
  refine (proj2 (first_snapshot_reports_zero_rates
                   (sample_env (Returns {| status_code := 200 |}) (Returns 0)
                      (Returns {| status_code := 200 |}) (Returns "server: {}")
                      (Returns (sample_document 30)))
                   "config.yaml" _ after_net_2_world _ _ _ _ _));
    vm_compute; reflexivity.
Defined.

(** ** What a pass of the loop does to the stored samples and to the server *)

Lemma after_collection_same_collector (env : Env) (config : AgentConfig.t) (metrics : dict) :
  preserves same_collector
    (bind (check_all env (AgentConfig.health_checks config))
       (fun health_checks =>
          bind (send_metrics env config (attach_health_checks metrics health_checks))
            (fun _ =>
               time_sleep env
                 (CollectionConfig.interval_seconds (AgentConfig.collection config))))).
Proof.
  apply (preserves_bind same_collector same_collector_trans).
  - apply (check_all_preserves same_collector same_collector_refl same_collector_trans
             same_collector_event).
  - intros health_checks. apply (preserves_bind same_collector same_collector_trans).
    + apply send_metrics_same_collector.
    + intros _. apply (preserves_time_sleep same_collector same_collector_refl
                         same_collector_event).
Qed.

Lemma cycle_collector (env : Env) (config : AgentConfig.t) (w : World) :
  collector (snd (cycle env config w)) =
  collector (snd (collect_all env (AgentConfig.collection config) w)).
Proof.
  unfold cycle. unfold bind at 1.
  destruct (collect_all env (AgentConfig.collection config) w) as [[metrics|e] w1];
    [|reflexivity].
  apply (after_collection_same_collector env config metrics w1).
Qed.

(** X7.  After a pass of the loop the stored samples are those that
    [collect_all] left: neither the health checks, nor the transmission and
    its failure, nor the sleep, nor the loop's error handling changes them. *)
Theorem pass_keeps_collected_samples (env : Env) (config : AgentConfig.t) (w : World) :
  collector (snd (run_iteration env config w)) =
  collector (snd (collect_all env (AgentConfig.collection config) w)).
Proof.
  rewrite <- cycle_collector.
  pose proof (run_iteration_cases env config w) as H.
  destruct (cycle env config w) as [[u|[cls msg| |code]] w1]; simpl.
  - rewrite H. reflexivity.
  - cbv zeta in H. rewrite H.
    destruct (interval_of config <? 0); [reflexivity|].
    destruct (sleep_interrupted env _); reflexivity.
  - rewrite H. reflexivity.
  - rewrite H. reflexivity.
Qed.

Lemma cycle_posts (env : Env) (config : AgentConfig.t) (w : World) :
  exists new,
    posted_payloads (trace (snd (cycle env config w))) =
      (posted_payloads (trace w) ++ new)%list /\
    (List.length new <= 1)%nat.
Proof.
  unfold cycle. unfold bind at 1.
  pose proof (collect_all_same_posts env (AgentConfig.collection config) w) as Hc.
  destruct (collect_all env (AgentConfig.collection config) w) as [[metrics|e] w1];
    unfold same_posts in Hc; simpl in Hc;
    [|exists []; simpl; rewrite app_nil_r; split; [exact Hc | lia]].
  unfold bind at 1.
  pose proof (check_all_preserves same_posts same_posts_refl same_posts_trans
                same_posts_event env (AgentConfig.health_checks config) w1) as Hh.
  destruct (check_all env (AgentConfig.health_checks config) w1) as [[results|e] w2];
    unfold same_posts in Hh; simpl in Hh;
    [|exists []; simpl; rewrite app_nil_r; split; [congruence | lia]].
  exists [attach_health_checks metrics results]. split; [|simpl; lia].
  destruct (send_metrics_posts_once env config (attach_health_checks metrics results) w2)
    as [rest [Htr Hrest]].
  unfold bind.
  destruct (send_metrics env config (attach_health_checks metrics results) w2)
    as [[b|e] w3]; simpl in Htr |- *.
  - pose proof (preserves_time_sleep same_posts same_posts_refl same_posts_event env
                  (CollectionConfig.interval_seconds (AgentConfig.collection config)) w3)
      as Hs.
    unfold same_posts in Hs. rewrite Hs, Htr, posted_payloads_app. simpl.
    rewrite Hrest. congruence.
  - rewrite Htr, posted_payloads_app. simpl. rewrite Hrest. congruence.
Qed.

Lemma run_iteration_posts (env : Env) (config : AgentConfig.t) (w : World) :
  exists new,
    posted_payloads (trace (snd (run_iteration env config w))) =
      (posted_payloads (trace w) ++ new)%list /\
    (List.length new <= 1)%nat.
Proof.
  destruct (cycle_posts env config w) as [new [Hp Hl]]. exists new. split; [|exact Hl].
  rewrite <- Hp.
  pose proof (run_iteration_cases env config w) as H.
  destruct (cycle env config w) as [[u|[cls msg| |code]] w1]; simpl.
  - rewrite H. reflexivity.
  - cbv zeta in H. rewrite H.
    destruct (interval_of config <? 0);
      [|destruct (sleep_interrupted env _)]; simpl;
      rewrite ?posted_payloads_app; simpl; rewrite ?app_nil_r; reflexivity.
  - rewrite H. simpl. rewrite posted_payloads_app. simpl. apply app_nil_r.
  - rewrite H. reflexivity.
Qed.

(** X8.  The loop sends at most one snapshot per pass and never alters what
    it sent before: after any number of passes the payloads posted so far are
    the earlier ones followed by at most that many new ones. *)
Theorem at_most_one_post_per_pass (env : Env) (config : AgentConfig.t) (passes : nat)
    (w : World) :
  exists new,
    posted_payloads (trace (snd (run_loop env config passes w))) =
      (posted_payloads (trace w) ++ new)%list /\
    (List.length new <= passes)%nat.
Proof.
  revert w. induction passes as [|n IH]; intros w; simpl.
  - exists []. rewrite app_nil_r. split; [reflexivity | simpl; lia].
  - destruct (run_iteration_posts env config w) as [new1 [Hp1 Hl1]].
    destruct (run_iteration env config w) as [[[|]|e] w1]; simpl in Hp1.
    + destruct (IH w1) as [new2 [Hp2 Hl2]]. exists (new1 ++ new2)%list.
      rewrite Hp2, Hp1, <- app_assoc. split; [reflexivity|].
      rewrite length_app. lia.
    + exists new1. simpl. split; [exact Hp1 | lia].
    + exists new1. simpl. split; [exact Hp1 | lia].
Qed.

(** X9.  A pass after which the loop goes on has ended with the interval
    sleep, whether the cycle succeeded or raised: the loop never starts the
    next cycle without having slept. *)
Theorem continued_pass_ends_with_sleep (env : Env) (config : AgentConfig.t) (w w' : World) :
  run_iteration env config w = (Return Continue, w') ->
  0 <= interval_of config /\
  exists w1, w' = record_event (EvSleep (interval_of config)) w1.
Proof.
  intros Hrun. pose proof (run_iteration_cases env config w) as H.
  destruct (cycle env config w) as [[u|[cls msg| |code]] w1] eqn:Hc.
  - rewrite H in Hrun. injection Hrun as <-.
    unfold cycle in Hc.
    apply bind_Return in Hc. destruct Hc as [metrics [wa [_ Hc]]].
    apply bind_Return in Hc. destruct Hc as [results [wb [_ Hc]]].
    apply bind_Return in Hc. destruct Hc as [sent [wc [_ Hc]]].
    unfold time_sleep in Hc. fold (interval_of config) in Hc.
    destruct (interval_of config <? 0) eqn:E; [discriminate|].
    apply Z.ltb_ge in E.
    destruct (sleep_interrupted env (step wc)); [discriminate|].
    injection Hc as _ <-. split; [exact E|]. eexists. reflexivity.
  - cbv zeta in H. rewrite H in Hrun.
    destruct (interval_of config <? 0) eqn:E; [discriminate|].
    apply Z.ltb_ge in E.
    destruct (sleep_interrupted env _); [discriminate|].
    injection Hrun as <-. split; [exact E|]. eexists. reflexivity.
  - rewrite H in Hrun. discriminate.
  - rewrite H in Hrun. discriminate.
Qed.

Lemma continued_pass_ends_with_sleep_witness :
  exists w1,
    snd (run_iteration quiet_env (sample_config [web_check]) World_init) =
    record_event (EvSleep 30) w1.
Proof.
  destruct (run_iteration quiet_env (sample_config [web_check]) World_init)
    as [o w'] eqn:H.
  assert (Ho : o = Return Continue).
  { apply (f_equal fst) in H. vm_compute in H. symmetry. exact H. }
  subst o.
  destruct (continued_pass_ends_with_sleep quiet_env (sample_config [web_check])
              World_init w' H) as [_ [w1 Hw]].
  exists w1. exact Hw.
Defined.

(** ** Disk usage *)

Lemma collect_disk_metrics_loop_stationary (env : Env)
    (answer : string -> Reply sdiskusage) (mounts : list string) :
  (forall n mount, psutil_disk_usage env n mount = answer mount) ->
  (forall mount, In mount mounts -> answer mount <> Interrupted) ->
  forall (disks : list pyval) (w : World),
    collect_disk_metrics_loop env mounts disks w =
      (Return (disks ++ reported_disks answer mounts)%list,
       {| trace := (trace w ++ disk_usage_events answer mounts)%list;
          collector := collector w |}).
Proof.
  intros Hst. induction mounts as [|mount rest IH]; intros Hin disks w.
  - simpl. rewrite !app_nil_r. destruct w; reflexivity.
  - assert (Hrest : forall m, In m rest -> answer m <> Interrupted)
      by (intros m Hm; apply Hin; now right).
    assert (Hm : answer mount <> Interrupted) by (apply Hin; now left).
    simpl. unfold bind at 1. unfold try_except, bind, call, logger, ret.
    rewrite Hst.
    destruct (answer mount) as [usage|cls msg|]; [| |contradiction]; simpl.
    + rewrite (IH Hrest). unfold disk_entry. simpl.
      rewrite <- !app_assoc. reflexivity.
    + rewrite (IH Hrest). simpl. rewrite <- !app_assoc. reflexivity.
Qed.

(** X10.  When every configured mount either reports its usage or fails,
    [collect_disk_metrics] returns the entries of the mounts that report, in
    the configured order; it reads each mount once, logs one warning for each
    mount that fails and goes on with the next one. *)
Theorem collect_disk_metrics_omits_failed_mounts (env : Env) (config : CollectionConfig.t)
    (answer : string -> Reply sdiskusage) (w : World) :
  (forall n mount, psutil_disk_usage env n mount = answer mount) ->
  (forall mount, In mount (CollectionConfig.disk_mounts config) ->
                 answer mount <> Interrupted) ->
  collect_disk_metrics env config w =
    (Return (reported_disks answer (CollectionConfig.disk_mounts config)),
     {| trace := (trace w
                  ++ disk_usage_events answer (CollectionConfig.disk_mounts config))%list;
        collector := collector w |}).
Proof.
  intros Hst Hin. unfold collect_disk_metrics.
  now rewrite (collect_disk_metrics_loop_stationary env answer _ Hst Hin).
Qed.

Lemma collect_disk_metrics_omits_failed_mounts_witness :
  collect_disk_metrics ghost_mount_env
    {| CollectionConfig.interval_seconds := 30;
       CollectionConfig.include_docker := false;
       CollectionConfig.disk_mounts := ["/"; "/mnt/ghost"; "/home"] |}
    World_init =
    (Return [disk_entry "/" sample_usage; disk_entry "/home" sample_usage],
     {| trace := [EvDiskUsage "/";
                  EvDiskUsage "/mnt/ghost";
                  EvLog WARNING
                    "Failed to get disk usage for /mnt/ghost: No such file or directory";
                  EvDiskUsage "/home"];
        collector := MetricsCollector_init |}).
Proof.
  assert (Hin : forall mount,
            In mount ["/"; "/mnt/ghost"; "/home"] -> ghost_mount_answer mount <> Interrupted).
  { intros mount _. unfold ghost_mount_answer.
    destruct (String.eqb mount "/mnt/ghost"); discriminate. }
  exact (collect_disk_metrics_omits_failed_mounts ghost_mount_env
           {| CollectionConfig.interval_seconds := 30;
              CollectionConfig.include_docker := false;
              CollectionConfig.disk_mounts := ["/"; "/mnt/ghost"; "/home"] |}
           ghost_mount_answer World_init (fun _ _ => eq_refl) Hin).
Defined.

(** ** Failures that stay inside the collector *)

Lemma absorbs_errors_ret {A : Type} (a : A) : absorbs_errors (ret a).
Proof. intros w cls msg H. discriminate. Qed.

Lemma absorbs_errors_bind {A B : Type} (m : M A) (f : A -> M B) :
  absorbs_errors m -> (forall a, absorbs_errors (f a)) -> absorbs_errors (bind m f).
Proof.
  intros Hm Hf w cls msg. unfold bind. specialize (Hm w cls msg).
  destruct (m w) as [[a|e] w1]; simpl in *; [apply Hf|].
  intros [= ->]. now apply Hm.
Qed.

Lemma absorbs_errors_log_ret {A : Type} (level : Level) (text : string) (a : A) :
  absorbs_errors (bind (logger level text) (fun _ => ret a)).
Proof. intros w cls msg H. discriminate. Qed.

Lemma absorbs_errors_try_except {A : Type} (body : M A) (handler : string -> M A) :
  (forall msg, absorbs_errors (handler msg)) ->
  absorbs_errors (try_except body any_Exception handler).
Proof.
  intros Hh w cls msg. unfold try_except.
  destruct (body w) as [[a|[c m| |code]] w1]; simpl; try discriminate.
  apply Hh.
Qed.

Lemma collect_disk_metrics_absorbs (env : Env) (config : CollectionConfig.t) :
  absorbs_errors (collect_disk_metrics env config).
Proof.
  unfold collect_disk_metrics. generalize (@nil pyval) as disks.
  induction (CollectionConfig.disk_mounts config) as [|mount rest IH]; intros disks; simpl.
  - apply absorbs_errors_ret.
  - apply absorbs_errors_bind; [|intros disks'; apply IH].
    apply absorbs_errors_try_except. intros msg. apply absorbs_errors_log_ret.
Qed.

Lemma collect_containers_loop_absorbs (env : Env) (cs : list Container) :
  forall containers, absorbs_errors (collect_containers_loop env cs containers).
Proof.
  induction cs as [|container rest IH]; intros containers; simpl.
  - apply absorbs_errors_ret.
  - apply absorbs_errors_bind; [|intros info; apply IH].
    unfold collect_container. cbv zeta.
    apply absorbs_errors_try_except. intros msg. apply absorbs_errors_log_ret.
Qed.

(** X11.  Container collection never fails a cycle.  Switched off, it returns
    the empty list without touching docker; when docker cannot be imported or
    listed, it returns the empty list after one warning, which names the
    missing library for an [ImportError] and the error text otherwise; and
    neither it nor the disk usage collection ever ends in an [Exception]. *)
Theorem docker_failures_stay_local (env : Env) (config : CollectionConfig.t) (w : World) :
  (CollectionConfig.include_docker config = false ->
   collect_docker_metrics env config w = (Return [], w))
  /\
  (forall cls msg,
     CollectionConfig.include_docker config = true ->
     docker_containers_list env (step w) = Fails cls msg ->
     collect_docker_metrics env config w =
       (Return [],
        record_event
          (EvLog WARNING
             (if is_ImportError cls
              then "Docker library not installed, skipping Docker metrics"
              else "Failed to collect Docker metrics: " ++ msg))
          (record_event (EvDocker "list") w)))
  /\
  absorbs_errors (collect_docker_metrics env config)
  /\
  absorbs_errors (collect_disk_metrics env config).
Proof.
  split; [|split; [|split]].
  - intros Hoff. unfold collect_docker_metrics. rewrite Hoff. reflexivity.
  - intros cls msg Hon Hlist. unfold collect_docker_metrics. rewrite Hon. simpl.
    unfold try_except_clauses, bind, call. rewrite Hlist. simpl.
    destruct (is_ImportError cls); reflexivity.
  - unfold collect_docker_metrics.
    destruct (negb (CollectionConfig.include_docker config)); [apply absorbs_errors_ret|].
    intros w0 cls msg. unfold try_except_clauses.
    pose proof (absorbs_errors_bind (call (docker_containers_list env) (EvDocker "list"))
                  (fun cs => collect_containers_loop env cs [])) as Hb.
    destruct (bind (call (docker_containers_list env) (EvDocker "list"))
                (fun cs => collect_containers_loop env cs []) w0)
      as [[a|[c m| |code]] w1]; simpl; try discriminate.
    destruct (is_ImportError c); simpl; discriminate.
  - apply collect_disk_metrics_absorbs.
Qed.

Lemma docker_failures_stay_local_witness :
  collect_docker_metrics quiet_env CollectionConfig.default World_init =
    (Return [],
     {| trace := [EvDocker "list";
                  EvLog WARNING "Docker library not installed, skipping Docker metrics"];
        collector := MetricsCollector_init |}).
Proof.
  exact (proj1 (proj2 (docker_failures_stay_local quiet_env CollectionConfig.default
                         World_init))
           ImportError "No module named 'docker'" eq_refl eq_refl).
Defined.

(** ** Container entries *)

Lemma and_then_Return {A B : Type} (o : Outcome A) (f : A -> Outcome B) (b : B) :
  and_then o f = Return b -> exists a, o = Return a /\ f a = Return b.
Proof. destruct o as [a|e]; simpl; [eauto | discriminate]. Qed.

Lemma substring_length_le (n : nat) (s : string) :
  (String.length (substring 0 n s) <= n)%nat.
Proof.
  revert s. induction n as [|n IH]; intros [|c s]; simpl; try lia.
  specialize (IH s). lia.
Qed.

Lemma substring_prefix (n : nat) (s : string) : prefix (substring 0 n s) s = true.
Proof.
  revert s. induction n as [|n IH]; intros [|c s]; simpl; try reflexivity.
  rewrite IH. destruct (ascii_dec c c); [reflexivity | contradiction].
Qed.

(** The stats block returns all five fields or raises. *)
Lemma running_container_metrics_keys (stats : pyval) (more : dict) :
  running_container_metrics stats = Return more ->
  dict_keys more = stats_container_keys /\
  exists networks, py_getitem stats "networks" = Return networks.
Proof.
  unfold running_container_metrics. intros H.
  repeat (apply and_then_Return in H; destruct H as [? [? H]]).
  injection H as <-. split; [reflexivity|].
  match goal with
  | Hn : py_getitem stats "networks" = Return ?x |- _ => exists x; exact Hn
  end.
Qed.

Lemma collect_container_body_returns (env : Env) (container : Container) (w w' : World)
    (d : dict) :
  collect_container env container w = (Return (Some d), w') ->
  exists image created,
    let container_info :=
      [("id", PStr (substring 0 12 (container_id container)));
       ("name", PStr (container_name container));
       ("image", PStr image);
       ("status", PStr (container_status container));
       ("created", created)] in
    d = container_info \/
    (container_status container = "running" /\
     exists more, dict_keys more = stats_container_keys /\
                  d = dict_update container_info more).
Proof.
  unfold collect_container. cbv zeta. unfold try_except.
  match goal with
  | |- context [match ?body w with _ => _ end] => destruct (body w) as [[r|e] w1] eqn:Hb
  end.
  - intros [= -> ->].
    apply bind_Return in Hb. destruct Hb as [stats [wa [_ Hb]]].
    apply bind_Return in Hb. destruct Hb as [tags [wb [_ Hb]]].
    apply bind_Return in Hb. destruct Hb as [image [wc [_ Hb]]].
    apply bind_Return in Hb. destruct Hb as [created [wd [_ Hb]]].
    exists image, created.
    destruct (String.eqb (container_status container) "running") eqn:Erun; simpl in Hb.
    + destruct (py_truthy stats).
      * apply bind_Return in Hb. destruct Hb as [more [we [Hm Hb]]].
        unfold ret in Hb. injection Hb as <- _.
        unfold lift in Hm. injection Hm as Hm _.
        apply running_container_metrics_keys in Hm. destruct Hm as [Hk _].
        right. split; [now apply String.eqb_eq|]. exists more. auto.
      * unfold ret in Hb. injection Hb as <- _. now left.
    + unfold ret in Hb. injection Hb as <- _. now left.
  - destruct e as [cls msg| |code]; [|discriminate|discriminate].
    unfold any_Exception, bind, logger, ret. discriminate.
Qed.

Lemma dict_update_fresh_keys (info more : dict) :
  dict_keys info = static_container_keys ->
  dict_keys more = stats_container_keys ->
  dict_keys (dict_update info more) = (static_container_keys ++ stats_container_keys)%list.
Proof.
  intros Hi Hm.
  destruct info as [|[k1 v1] [|[k2 v2] [|[k3 v3] [|[k4 v4] [|[k5 v5] [|]]]]]];
    try discriminate.
  destruct more as [|[m1 x1] [|[m2 x2] [|[m3 x3] [|[m4 x4] [|[m5 x5] [|]]]]]];
    try discriminate.
  injection Hi as -> -> -> -> ->. injection Hm as -> -> -> -> ->. reflexivity.
Qed.

(** X12.  An entry that [collect_docker_metrics] appends for a container
    carries the container's id cut to its first twelve characters, and either
    just the five static fields or, for a running container only, those and
    all five stats fields: stats are never reported in part. *)
Theorem container_entry_is_static_or_complete (env : Env) (container : Container)
    (w w' : World) (d : dict) :
  collect_container env container w = (Return (Some d), w') ->
  (exists id,
     dict_get "id" d = Some (PStr id) /\
     (String.length id <= 12)%nat /\
     prefix id (container_id container) = true) /\
  (dict_keys d = static_container_keys \/
   (container_status container = "running" /\
    dict_keys d = (static_container_keys ++ stats_container_keys)%list)).
Proof.
  intros H. apply collect_container_body_returns in H.
  destruct H as [image [created H]]. cbv zeta in H.
  destruct H as [->|[Hrun [more [Hk ->]]]].
  - split; [|left; reflexivity].
    eexists. split; [reflexivity|].
    split; [apply substring_length_le | apply substring_prefix].
  - split.
    + destruct more as [|[m1 x1] [|[m2 x2] [|[m3 x3] [|[m4 x4] [|[m5 x5] [|]]]]]];
        try discriminate.
      injection Hk as -> -> -> -> ->.
      eexists. split; [reflexivity|].
      split; [apply substring_length_le | apply substring_prefix].
    + right. split; [exact Hrun|].
      apply dict_update_fresh_keys; auto.
Qed.

Lemma container_entry_is_static_or_complete_witness :
  exists d w',
    collect_container docker_env web_container World_init = (Return (Some d), w') /\
    dict_get "id" d = Some (PStr "0123456789ab") /\
    dict_keys d = (static_container_keys ++ stats_container_keys)%list.
Proof.
  destruct (collect_container docker_env web_container World_init) as [[[d|]|e] w']
    eqn:H; try (vm_compute in H; discriminate).
  exists d, w'. split; [reflexivity|].
  destruct (container_entry_is_static_or_complete docker_env web_container World_init
              w' d H) as [_ [Hk|[_ Hk]]].
  - vm_compute in H. injection H as <- _. discriminate.
  - split; [|exact Hk]. vm_compute in H. injection H as <- _. reflexivity.
Defined.

(** A stats document without [networks] makes the stats block raise. *)
Lemma running_container_metrics_without_networks (d : dict) :
  dict_get "networks" d = None ->
  exists cls msg, running_container_metrics (PDict d) = Raise (Exception cls msg).
Proof.
  intros Hnone.
  destruct (running_container_metrics (PDict d)) as [more|e] eqn:H.
  - apply running_container_metrics_keys in H. destruct H as [_ [networks Hn]].
    simpl in Hn. rewrite Hnone in Hn. discriminate.
  - assert (He : is_Exception e).
    { apply (running_container_metrics_raises is_Exception) with (stats := PDict d);
        [|exact H].
      intros cls msg _. exists cls, msg. reflexivity. }
    destruct He as [cls [msg ->]]. eauto.
Qed.

(** X13.  A running container whose stats document has no [networks] section
    (as for a container on the host network) is left out of the result
    altogether, static fields included, and a warning is logged for it. *)
Theorem running_container_without_networks_is_dropped (env : Env) (container : Container)
    (w : World) (d : dict) :
  container_status container = "running" ->
  docker_stats env (step w) (container_id container) = Returns (PDict d) ->
  d <> [] ->
  dict_get "networks" d = None ->
  (forall n, docker_image_tags env n (container_id container) <> Interrupted) ->
  exists text w1,
    collect_container env container w =
      (Return None,
       record_event
         (EvLog WARNING ("Failed to get stats for container "
                         ++ container_name container ++ ": " ++ text)) w1).
Proof.
  intros Hrun Hstats Hne Hnone Htags.
  destruct (running_container_metrics_without_networks d Hnone) as [cls [msg Hraise]].
  unfold collect_container. cbv zeta. rewrite Hrun. simpl String.eqb.
  unfold try_except, bind at 1, call at 1. rewrite Hstats.
  unfold bind at 1, call at 1.
  pose proof (Htags (step (record_event (EvDocker "stats") w))) as Ht1.
  destruct (docker_image_tags env _ (container_id container)) as [tags|c1 m1|];
    [| |contradiction].
  - destruct tags as [|tag tags].
    + unfold bind at 1, ret at 1. unfold bind at 1, lift at 1.
      destruct (py_getitem (PDict (container_attrs container)) "Created") as [created|e]
        eqn:Hc.
      * assert (Htruthy : py_truthy (PDict d) = true) by (destruct d; [contradiction | reflexivity]).
        rewrite Htruthy. cbn [andb]. unfold bind at 1, lift at 1.
        rewrite Hraise. unfold any_Exception, bind, logger, ret. eauto.
      * pose proof (py_getitem_raises is_Exception
                      (fun c m _ => ex_intro _ c (ex_intro _ m eq_refl))
                      (PDict (container_attrs container)) "Created" e Hc)
          as [c2 [m2 ->]].
        unfold any_Exception, bind, logger, ret. eauto.
    + unfold bind at 1. unfold bind at 1, call at 1.
      pose proof (Htags (step (record_event (EvDocker "image")
                                 (record_event (EvDocker "stats") w)))) as Ht2.
      destruct (docker_image_tags env _ (container_id container)) as [tags'|c2 m2|];
        [| |contradiction].
      * destruct tags' as [|first rest].
        -- unfold raise, any_Exception, bind, logger, ret. eauto.
        -- unfold ret at 1. unfold bind at 1, lift at 1.
           destruct (py_getitem (PDict (container_attrs container)) "Created")
             as [created|e] eqn:Hc.
           ++ assert (Htruthy : py_truthy (PDict d) = true)
                by (destruct d; [contradiction | reflexivity]).
              rewrite Htruthy. cbn [andb]. unfold bind at 1, lift at 1.
              rewrite Hraise. unfold any_Exception, bind, logger, ret. eauto.
           ++ pose proof (py_getitem_raises is_Exception
                            (fun c m _ => ex_intro _ c (ex_intro _ m eq_refl))
                            (PDict (container_attrs container)) "Created" e Hc)
                as [c3 [m3 ->]].
              unfold any_Exception, bind, logger, ret. eauto.
      * unfold any_Exception, bind, logger, ret. eauto.
  - unfold any_Exception, bind, logger, ret. eauto.
Qed.

Lemma running_container_without_networks_is_dropped_witness :
  exists text w1,
    collect_container docker_env hostnet_container World_init =
      (Return None,
       record_event
         (EvLog WARNING ("Failed to get stats for container proxy: " ++ text)) w1).
Proof.
  refine (running_container_without_networks_is_dropped docker_env hostnet_container
            World_init
            (match stats_without_networks with PDict d => d | _ => [] end)
            eq_refl eq_refl _ eq_refl _).
  - discriminate.
  - intros n. discriminate.
Defined.

(** The three sample containers together: the first is reported with its
    stats, the second is dropped, the third is reported with its static
    fields. *)
Example collect_docker_metrics_sample :
  exists first third w',
    collect_docker_metrics docker_env CollectionConfig.default World_init =
      (Return [PDict first; PDict third], w') /\
    dict_get "name" first = Some (PStr "web") /\
    dict_get "cpu_percent" first = Some (PFloat (2000 # 100)) /\
    dict_get "name" third = Some (PStr "db") /\
    dict_keys third = static_container_keys.
Proof.
  do 3 eexists. split; [vm_compute; reflexivity|]. repeat split.
Qed.

(** ** Secret substitution *)

Lemma get_last (s : string) (c : ascii) :
  get (String.length s) (s ++ String c EmptyString) = Some c.
Proof. induction s as [|a s IH]; simpl; [reflexivity | exact IH]. Qed.

Lemma length_append_one (s : string) (c : ascii) :
  String.length (s ++ String c EmptyString) = S (String.length s).
Proof. induction s as [|a s IH]; simpl; [reflexivity | now rewrite IH]. Qed.

Lemma substring_append (s t : string) : substring 0 (String.length s) (s ++ t) = s.
Proof.
  induction s as [|a s IH]; simpl.
  - destruct t; reflexivity.
  - now rewrite IH.
Qed.

Lemma placeholder_shape (name : string) :
  let k := "${" ++ name ++ "}" in
  prefix "${" k = true /\ ends_with_brace k = true /\
  substring 2 (String.length k - 3) k = name.
Proof.
  cbv zeta. split; [|split].
  - simpl. destruct name; reflexivity.
  - unfold ends_with_brace. simpl. rewrite length_append_one. simpl.
    now rewrite get_last.
  - simpl. rewrite length_append_one. simpl. rewrite Nat.sub_0_r.
    apply substring_append.
Qed.

(** X14.  When the document's [server.api_key] is a placeholder of the form
    dollar, brace, NAME, brace, the substitution replaces it by the value of
    the environment variable NAME, or by the empty string when the variable is
    not set, and changes nothing else; a key that does not begin with dollar
    and brace, or does not end with a brace, leaves the document as it is. *)
Theorem substitute_api_key_placeholder (env : Env) (d srv : dict) :
  dict_get "server" d = Some (PDict srv) ->
  (forall name,
     dict_get "api_key" srv = Some (PStr ("${" ++ name ++ "}")) ->
     substitute_api_key env (PDict d) =
       Return (PDict (dict_set "server"
                        (PDict (dict_set "api_key" (PStr (getenv_or_empty env name)) srv))
                        d)))
  /\
  (forall k,
     dict_get "api_key" srv = Some (PStr k) ->
     prefix "${" k = false \/ ends_with_brace k = false ->
     substitute_api_key env (PDict d) = Return (PDict d)).
Proof.
  intros Hs. split.
  - intros name Hk.
    destruct (placeholder_shape name) as [Hp [He Hsub]]. cbv zeta in *.
    unfold substitute_api_key, py_contains, py_getitem, dict_has.
    rewrite Hs. cbn [and_then]. rewrite Hk. cbn [and_then].
    rewrite Hp, He. cbn [andb]. rewrite Hsub. reflexivity.
  - intros k Hk Hno.
    unfold substitute_api_key, py_contains, py_getitem, dict_has.
    rewrite Hs. cbn [and_then]. rewrite Hk. cbn [and_then].
    destruct Hno as [Hp|He].
    + rewrite Hp. reflexivity.
    + rewrite He, andb_false_r. reflexivity.
Qed.

Lemma substitute_api_key_placeholder_witness :
  substitute_api_key quiet_env (minimal_document "http://monitor.local" "${MONITOR_KEY}") =
    Return (minimal_document "http://monitor.local" EmptyString)
  /\
  substitute_api_key quiet_env (minimal_document "http://monitor.local" "${MONITOR_KEY") =
    Return (minimal_document "http://monitor.local" "${MONITOR_KEY").
Proof.
  split.
  - exact (proj1 (substitute_api_key_placeholder quiet_env
                    [("server", PDict [("url", PStr "http://monitor.local");
                                       ("api_key", PStr "${MONITOR_KEY}")])]
                    [("url", PStr "http://monitor.local");
                     ("api_key", PStr "${MONITOR_KEY}")] eq_refl)
             "MONITOR_KEY" eq_refl).
  - exact (proj2 (substitute_api_key_placeholder quiet_env
                    [("server", PDict [("url", PStr "http://monitor.local");
                                       ("api_key", PStr "${MONITOR_KEY")])]
                    [("url", PStr "http://monitor.local");
                     ("api_key", PStr "${MONITOR_KEY")] eq_refl)
             "${MONITOR_KEY" eq_refl (or_intror eq_refl)).
Defined.

(** ** The outcome and the log of configuration loading *)

(** [load_config] with the world it leaves. *)
Lemma load_config_run (env : Env) (config_path : string) (w : World) :
  let w1 := record_event (EvOpen config_path) w in
  let w2 := record_event EvYamlLoad w1 in
  let failed cls msg w' :=
    (@Raise AgentConfig.t (SystemExit 1),
     record_event (EvLog ERROR (load_error_text config_path cls msg)) w') in
  match open_read env (step w) config_path with
  | Interrupted => load_config env config_path w = (Raise KeyboardInterrupt, w1)
  | Fails cls msg => load_config env config_path w = failed cls msg w1
  | Returns text =>
      match yaml_safe_load env text with
      | Interrupted => load_config env config_path w = (Raise KeyboardInterrupt, w2)
      | Fails cls msg => load_config env config_path w = failed cls msg w2
      | Returns doc =>
          match and_then (substitute_api_key env doc) (AgentConfig_construct env) with
          | Return config => load_config env config_path w = (Return config, w2)
          | Raise (Exception cls msg) => load_config env config_path w = failed cls msg w2
          | Raise _ => False
          end
      end
  end.
Proof.
  cbv zeta.
  unfold load_config, try_except_clauses, bind, call, lift, logger, raise, load_error_text.
  destruct (open_read env (step w) config_path) as [text|cls msg|]; [| |reflexivity].
  - destruct (yaml_safe_load env text) as [doc|cls msg|]; [| |reflexivity].
    + pose proof (substitute_api_key_raises env doc) as Hsub.
      destruct (substitute_api_key env doc) as [doc'|e]; cbn [and_then].
      * unfold AgentConfig_construct.
        destruct doc'; try reflexivity.
        destruct (validate_AgentConfig env d); reflexivity.
      * destruct (Hsub e eq_refl) as [cls [msg ->]]. simpl.
        destruct (is_FileNotFoundError cls); [reflexivity|].
        destruct (is_ValidationError cls); reflexivity.
    + simpl. destruct (is_FileNotFoundError cls); [reflexivity|].
      destruct (is_ValidationError cls); reflexivity.
  - simpl. destruct (is_FileNotFoundError cls); [reflexivity|].
    destruct (is_ValidationError cls); reflexivity.
Qed.

(** X15.  A configuration file that cannot be opened or parsed ends the
    process with status 1 after exactly one error line: a missing file is
    reported by its path, any other failure by the error's text. *)
Theorem load_config_reports_file_failures (env : Env) (config_path : string) (w : World) :
  (forall msg,
     open_read env (step w) config_path = Fails FileNotFoundError msg ->
     load_config env config_path w =
       (Raise (SystemExit 1),
        record_event (EvLog ERROR ("Configuration file not found: " ++ config_path))
          (record_event (EvOpen config_path) w)))
  /\
  (forall cls msg,
     open_read env (step w) config_path = Fails cls msg ->
     is_FileNotFoundError cls = false -> is_ValidationError cls = false ->
     load_config env config_path w =
       (Raise (SystemExit 1),
        record_event (EvLog ERROR ("Failed to load configuration: " ++ msg))
          (record_event (EvOpen config_path) w)))
  /\
  (forall text cls msg,
     open_read env (step w) config_path = Returns text ->
     yaml_safe_load env text = Fails cls msg ->
     is_FileNotFoundError cls = false -> is_ValidationError cls = false ->
     load_config env config_path w =
       (Raise (SystemExit 1),
        record_event (EvLog ERROR ("Failed to load configuration: " ++ msg))
          (record_event EvYamlLoad (record_event (EvOpen config_path) w)))).
Proof.
  pose proof (load_config_run env config_path w) as H. cbv zeta in H.
  split; [|split].
  - intros msg Ho. rewrite Ho in H. exact H.
  - intros cls msg Ho Hf Hv. rewrite Ho in H. unfold load_error_text in H.
    rewrite Hf, Hv in H. exact H.
  - intros text cls msg Ho Hy Hf Hv. rewrite Ho, Hy in H. unfold load_error_text in H.
    rewrite Hf, Hv in H. exact H.
Qed.

Lemma load_config_reports_file_failures_witness :
  load_config
    (sample_env (Returns {| status_code := 200 |}) (Returns 0)
       (Returns {| status_code := 200 |})
       (Fails FileNotFoundError "No such file or directory: 'agent.yaml'")
       (Returns (PDict [])))
    "agent.yaml" World_init =
    (Raise (SystemExit 1),
     {| trace := [EvOpen "agent.yaml";
                  EvLog ERROR "Configuration file not found: agent.yaml"];
        collector := MetricsCollector_init |}).
Proof.
  exact (proj1 (load_config_reports_file_failures
                  (sample_env (Returns {| status_code := 200 |}) (Returns 0)
                     (Returns {| status_code := 200 |})
                     (Fails FileNotFoundError "No such file or directory: 'agent.yaml'")
                     (Returns (PDict [])))
                  "agent.yaml" World_init)
           "No such file or directory: 'agent.yaml'" eq_refl).
Defined.

(** X16.  A document that is empty, that has no server section, or whose
    api_key is a number ends the process with status 1 after one error line.
    The missing server section is reported as a validation error; the empty
    document and the numeric key fail before validation, in the placeholder
    test, and are reported as a failure to load. *)
Theorem load_config_rejects_unusable_documents (env : Env) (config_path : string)
    (w : World) (text : string) :
  open_read env (step w) config_path = Returns text ->
  let w2 := record_event EvYamlLoad (record_event (EvOpen config_path) w) in
  (yaml_safe_load env text = Returns PNone ->
   exists detail,
     load_config env config_path w =
       (Raise (SystemExit 1),
        record_event (EvLog ERROR ("Failed to load configuration: " ++ detail)) w2))
  /\
  (forall d,
     yaml_safe_load env text = Returns (PDict d) ->
     dict_get "server" d = None ->
     exists detail,
       load_config env config_path w =
         (Raise (SystemExit 1),
          record_event (EvLog ERROR ("Configuration validation error: " ++ detail)) w2))
  /\
  (forall d srv n,
     yaml_safe_load env text = Returns (PDict d) ->
     dict_get "server" d = Some (PDict srv) ->
     dict_get "api_key" srv = Some (PInt n) ->
     exists detail,
       load_config env config_path w =
         (Raise (SystemExit 1),
          record_event (EvLog ERROR ("Failed to load configuration: " ++ detail)) w2)).
Proof.
  intros Ho w2. subst w2.
  pose proof (load_config_run env config_path w) as H. cbv zeta in H. rewrite Ho in H.
  split; [|split].
  - intros Hy. rewrite Hy in H. simpl in H. eexists. exact H.
  - intros d Hy Hs. rewrite Hy in H.
    unfold substitute_api_key, py_contains, dict_has in H. rewrite Hs in H.
    cbn [and_then] in H. unfold AgentConfig_construct, validate_AgentConfig in H.
    rewrite Hs in H. simpl in H. eexists. exact H.
  - intros d srv n Hy Hs Hk. rewrite Hy in H.
    unfold substitute_api_key, py_contains, py_getitem, dict_has in H.
    rewrite Hs in H. cbn [and_then] in H. rewrite Hk in H. cbn [and_then] in H.
    simpl in H. eexists. exact H.
Qed.

Lemma load_config_rejects_unusable_documents_witness :
  exists detail,
    load_config
      (sample_env (Returns {| status_code := 200 |}) (Returns 0)
         (Returns {| status_code := 200 |}) (Returns "collection: {}")
         (Returns (PDict [("collection", PDict [])])))
      "config.yaml" World_init =
      (Raise (SystemExit 1),
       {| trace := [EvOpen "config.yaml"; EvYamlLoad;
                    EvLog ERROR ("Configuration validation error: " ++ detail)];
          collector := MetricsCollector_init |}).
Proof.
  exact (proj1 (proj2 (load_config_rejects_unusable_documents
                         (sample_env (Returns {| status_code := 200 |}) (Returns 0)
                            (Returns {| status_code := 200 |}) (Returns "collection: {}")
                            (Returns (PDict [("collection", PDict [])])))
                         "config.yaml" World_init "collection: {}" eq_refl))
           [("collection", PDict [])] eq_refl eq_refl).
Defined.

(** X17.  A document with nothing but a server section loads without a log
    line and with every optional field at its default: interval 30, docker
    metrics on, the root mount, no health checks.  An api_key that is not a
    placeholder is kept; a placeholder is replaced by the variable's value, or
    by the empty string when the variable is not set, and the configuration
    still loads. *)
Theorem load_config_minimal_document (env : Env) (config_path : string) (w : World)
    (text url : string) :
  pydantic_exact env ->
  open_read env (step w) config_path = Returns text ->
  let w2 := record_event EvYamlLoad (record_event (EvOpen config_path) w) in
  (forall key,
     yaml_safe_load env text = Returns (minimal_document url key) ->
     prefix "${" key = false ->
     load_config env config_path w = (Return (default_config url key), w2))
  /\
  (forall name,
     yaml_safe_load env text = Returns (minimal_document url ("${" ++ name ++ "}")) ->
     load_config env config_path w =
       (Return (default_config url (getenv_or_empty env name)), w2)).
Proof.
  intros [Hint [Hstr Hbool]] Ho w2. subst w2.
  pose proof (load_config_run env config_path w) as H. cbv zeta in H. rewrite Ho in H.
  split.
  - intros key Hy Hp. rewrite Hy in H.
    unfold minimal_document, substitute_api_key in H. cbn in H. rewrite Hp in H.
    cbn in H. unfold validate_AgentConfig, validate_ServerConfig in H. cbn in H.
    rewrite !Hstr in H. exact H.
  - intros name Hy. rewrite Hy in H.
    destruct (placeholder_shape name) as [Hp [He Hsub]]. cbv zeta in *.
    unfold minimal_document, substitute_api_key, py_contains, py_getitem, dict_has in H.
    cbn [dict_get String.eqb Ascii.eqb Bool.eqb and_then] in H.
    rewrite Hp, He in H. cbn [andb] in H. rewrite Hsub in H.
    cbn [dict_set String.eqb Ascii.eqb Bool.eqb and_then] in H.
    unfold AgentConfig_construct, validate_AgentConfig, validate_ServerConfig in H.
    cbn [dict_get String.eqb Ascii.eqb Bool.eqb validate_required validate_default] in H.
    rewrite !Hstr in H. exact H.
Qed.

Lemma load_config_minimal_document_witness :
  load_config
    (sample_env (Returns {| status_code := 200 |}) (Returns 0)
       (Returns {| status_code := 200 |}) (Returns "server: ...")
       (Returns (minimal_document "http://monitor.local" "${MONITOR_KEY}")))
    "config.yaml" World_init =
    (Return (default_config "http://monitor.local" EmptyString),
     {| trace := [EvOpen "config.yaml"; EvYamlLoad];
        collector := MetricsCollector_init |}).
Proof.
  exact (proj2 (load_config_minimal_document
                  (sample_env (Returns {| status_code := 200 |}) (Returns 0)
                     (Returns {| status_code := 200 |}) (Returns "server: ...")
                     (Returns (minimal_document "http://monitor.local" "${MONITOR_KEY}")))
                  "config.yaml" World_init "server: ..." "http://monitor.local"
                  (sample_env_pydantic_exact _ _ _ _ _) eq_refl)
           "MONITOR_KEY" eq_refl).
Defined.

(** ** How far a reported percentage is from the exact one *)








(** ** The shape of a snapshot *)

Lemma collect_system_info_keys (env : Env) (w w' : World) (d : dict) :
  collect_system_info env w = (Return d, w') ->
  dict_keys d = ["hostname"; "boot_time"; "uptime_seconds"].
Proof.
  unfold collect_system_info. intros H.
  repeat (apply bind_Return in H; destruct H as [? [? [_ H]]]).
  unfold ret in H. injection H as <- _. reflexivity.
Qed.

Lemma collect_cpu_metrics_keys (env : Env) (w w' : World) (d : dict) :
  collect_cpu_metrics env w = (Return d, w') ->
  dict_keys d = ["percent"; "load_avg"; "count"].
Proof.
  unfold collect_cpu_metrics. intros H.
  repeat (apply bind_Return in H; destruct H as [? [? [_ H]]]).
  unfold ret in H. injection H as <- _. reflexivity.
Qed.

Lemma collect_memory_metrics_keys (env : Env) (w w' : World) (d : dict) :
  collect_memory_metrics env w = (Return d, w') ->
  dict_keys d = ["total"; "used"; "available"; "percent";
                 "swap_total"; "swap_used"; "swap_percent"].
Proof.
  unfold collect_memory_metrics. intros H.
  repeat (apply bind_Return in H; destruct H as [? [? [_ H]]]).
  unfold ret in H. injection H as <- _. reflexivity.
Qed.

Lemma collect_disk_io_metrics_keys (env : Env) (w w' : World) (d : dict) :
  collect_disk_io_metrics env w = (Return d, w') ->
  dict_keys d = ["read_bytes"; "write_bytes"; "read_bytes_per_sec"; "write_bytes_per_sec"].
Proof.
  intros H. unfold collect_disk_io_metrics in H.
  apply bind_Return in H. destruct H as [io [w1 [_ H]]].
  apply bind_Return in H. destruct H as [t [w2 [_ H]]].
  unfold with_collector, collect_disk_io_metrics_from, int_div_float in H.
  destruct (last_disk_io (collector w2)), (last_time (collector w2));
    try (simpl in H; injection H as <- _; reflexivity).
  destruct (Qeq_bool _ 0); simpl in H; [discriminate|].
  injection H as <- _. reflexivity.
Qed.

Lemma collect_network_metrics_keys (env : Env) (w w' : World) (d : dict) :
  collect_network_metrics env w = (Return d, w') ->
  dict_keys d = ["bytes_sent"; "bytes_recv"; "bytes_sent_per_sec"; "bytes_recv_per_sec"].
Proof.
  intros H. unfold collect_network_metrics in H.
  apply bind_Return in H. destruct H as [io [w1 [_ H]]].
  apply bind_Return in H. destruct H as [t [w2 [_ H]]].
  unfold with_collector, collect_network_metrics_from, int_div_float in H.
  destruct (last_net_io (collector w2)), (last_time (collector w2));
    try (simpl in H; injection H as <- _; reflexivity).
  destruct (Qeq_bool _ 0); simpl in H; [discriminate|].
  injection H as <- _. reflexivity.
Qed.

Lemma dict_keys_set_fresh (k : string) (v : pyval) (d : dict) :
  dict_has k d = false -> dict_keys (dict_set k v d) = (dict_keys d ++ [k])%list.
Proof.
  unfold dict_has. induction d as [|[k' v'] d IH]; simpl; [reflexivity|].
  destruct (String.eqb k k'); [discriminate|]. intros H. simpl. now rewrite IH.
Qed.

(** X19.  A snapshot that [collect_all] returns has the keys timestamp,
    system, metrics and containers, in this order; its system, cpu, memory,
    disk_io and network sections have a fixed set of keys each; and attaching
    the results of the health checks either changes nothing (no results) or
    appends the single key health_checks after the other four. *)
Theorem snapshot_has_fixed_shape (env : Env) (config : CollectionConfig.t) (w w' : World)
    (d : dict) :
  collect_all env config w = (Return d, w') ->
  dict_keys d = ["timestamp"; "system"; "metrics"; "containers"]
  /\
  (exists system cpu memory disk_io network disks,
     dict_get "system" d = Some (PDict system) /\
     dict_keys system = ["hostname"; "boot_time"; "uptime_seconds"] /\
     dict_get "metrics" d =
       Some (PDict [("cpu", PDict cpu); ("memory", PDict memory); ("disks", PList disks);
                    ("disk_io", PDict disk_io); ("network", PDict network)]) /\
     dict_keys cpu = ["percent"; "load_avg"; "count"] /\
     dict_keys memory = ["total"; "used"; "available"; "percent";
                         "swap_total"; "swap_used"; "swap_percent"] /\
     dict_keys disk_io = ["read_bytes"; "write_bytes";
                          "read_bytes_per_sec"; "write_bytes_per_sec"] /\
     dict_keys network = ["bytes_sent"; "bytes_recv";
                          "bytes_sent_per_sec"; "bytes_recv_per_sec"])
  /\
  (forall results,
     dict_keys (attach_health_checks d results) =
       match results with
       | [] => ["timestamp"; "system"; "metrics"; "containers"]
       | _ :: _ => ["timestamp"; "system"; "metrics"; "containers"; "health_checks"]
       end).
Proof.
  intros H. pose proof (collect_all_keys env config w w' d H) as [Hk Hno].
  split; [exact Hk|]. split.
  - unfold collect_all in H.
    apply bind_Return in H. destruct H as [ts [w1 [_ H]]].
    apply bind_Return in H. destruct H as [sys [w2 [H2 H]]].
    apply bind_Return in H. destruct H as [cpu [w3 [H3 H]]].
    apply bind_Return in H. destruct H as [mem [w4 [H4 H]]].
    apply bind_Return in H. destruct H as [disks [w5 [_ H]]].
    apply bind_Return in H. destruct H as [dio [w6 [H6 H]]].
    apply bind_Return in H. destruct H as [net [w7 [H7 H]]].
    apply bind_Return in H. destruct H as [cs [w8 [_ H]]].
    unfold ret in H. injection H as <- _.
    exists sys, cpu, mem, dio, net, disks.
    split; [reflexivity|].
    split; [eapply collect_system_info_keys; eauto|].
    split; [reflexivity|].
    split; [eapply collect_cpu_metrics_keys; eauto|].
    split; [eapply collect_memory_metrics_keys; eauto|].
    split; [eapply collect_disk_io_metrics_keys; eauto|].
    eapply collect_network_metrics_keys; eauto.
  - intros [|r rs]; simpl; [exact Hk|].
    rewrite dict_keys_set_fresh by exact Hno. rewrite Hk. reflexivity.
Qed.

Lemma snapshot_has_fixed_shape_witness :
  exists d,
    fst (collect_all quiet_env CollectionConfig.default World_init) = Return d /\
    dict_keys (attach_health_checks d [zero_disk_result]) =
      ["timestamp"; "system"; "metrics"; "containers"; "health_checks"].
Proof.
  destruct (collect_all quiet_env CollectionConfig.default World_init) as [[d|e] w']
    eqn:H; [|vm_compute in H; discriminate].
  exists d. split; [reflexivity|].
  exact (proj2 (proj2 (snapshot_has_fixed_shape quiet_env CollectionConfig.default
                         World_init w' d H)) [zero_disk_result]).
Defined.

(** ** Collectors without a guard *)

(** X20.  A psutil read that [collect_all] makes without a guard of its own
    fails the whole snapshot: when reading the boot time raises, nothing else
    is collected, nothing is sent in that pass, and the loop logs the error
    and sleeps. *)
Theorem unguarded_failure_aborts_snapshot (env : Env) (config : AgentConfig.t) (w : World)
    (cls : ExcClass) (msg : string) :
  psutil_boot_time env (step w) = Fails cls msg ->
  0 <= interval_of config ->
  sleep_interrupted env (S (S (step w))) = false ->
  collect_all env (AgentConfig.collection config) w =
    (Raise (Exception cls msg), record_event (EvPsutil "boot_time") w)
  /\
  run_iteration env config w =
    (Return Continue,
     {| trace := (trace w ++ [EvPsutil "boot_time";
                              EvLog ERROR ("Error in agent loop: " ++ msg);
                              EvSleep (interval_of config)])%list;
        collector := collector w |}).
Proof.
  intros Hboot Hi Hsleep.
  assert (Hc : collect_all env (AgentConfig.collection config) w =
               (Raise (Exception cls msg), record_event (EvPsutil "boot_time") w)).
  { unfold collect_all, bind, utc_now_isoformat, collect_system_info, bind, call.
    rewrite Hboot. reflexivity. }
  split; [exact Hc|].
  pose proof (run_iteration_cases env config w) as H.
  unfold cycle in H. unfold bind at 1 in H. rewrite Hc in H. cbv zeta in H.
  apply Z.ltb_ge in Hi. rewrite Hi in H.
  rewrite !step_record_event in H. rewrite Hsleep in H. rewrite H.
  unfold record_event. simpl. rewrite <- !app_assoc. reflexivity.
Qed.

Lemma unguarded_failure_aborts_snapshot_witness :
  posted_payloads (trace (snd (run_iteration no_boot_time_env (sample_config [])
                                 World_init))) = [].
Proof.
  rewrite (proj2 (unguarded_failure_aborts_snapshot no_boot_time_env (sample_config [])
                    World_init OSError "boot time unavailable" eq_refl
                    ltac:(vm_compute; discriminate) eq_refl)).
  reflexivity.
Defined.

(** ** Interrupts *)

(** X21.  An interrupt that arrives inside the cycle stops the loop cleanly,
    with the line "Agent stopped by user"; an interrupt that arrives during
    the sleep that follows a cycle error is not caught: it leaves [run] as a
    [KeyboardInterrupt] and that line is not logged. *)
Theorem interrupt_during_error_sleep_escapes (env : Env) (config : AgentConfig.t)
    (passes : nat) (w w1 : World) :
  0 <= interval_of config ->
  (cycle env config w = (Raise KeyboardInterrupt, w1) ->
   run_loop env config (S passes) w =
     (Stopped, record_event (EvLog INFO "Agent stopped by user") w1))
  /\
  (forall cls msg,
     cycle env config w = (Raise (Exception cls msg), w1) ->
     sleep_interrupted env (S (step w1)) = true ->
     run_loop env config (S passes) w =
       (Propagated KeyboardInterrupt,
        record_event (EvSleep (interval_of config))
          (record_event (EvLog ERROR ("Error in agent loop: " ++ msg)) w1))).
Proof.
  intros Hi. apply Z.ltb_ge in Hi.
  pose proof (run_iteration_cases env config w) as H.
  split.
  - intros Hc. rewrite Hc in H. simpl. rewrite H. reflexivity.
  - intros cls msg Hc Hs. rewrite Hc in H. cbv zeta in H. rewrite Hi in H.
    rewrite step_record_event in H. rewrite Hs in H. simpl. rewrite H. reflexivity.
Qed.

Lemma interrupt_during_error_sleep_escapes_witness :
  exists w',
    run_loop interrupted_sleep_env (sample_config []) 5 World_init = (Stopped, w') /\
    In (EvLog INFO "Agent stopped by user") (trace w').
Proof.
  destruct (cycle interrupted_sleep_env (sample_config []) World_init) as [o w1] eqn:Hc.
  assert (Ho : o = Raise KeyboardInterrupt).
  { apply (f_equal fst) in Hc. vm_compute in Hc. symmetry. exact Hc. }
  subst o.
  assert (Hi : 0 <= interval_of (sample_config [])) by (vm_compute; discriminate).
  exists (record_event (EvLog INFO "Agent stopped by user") w1). split.
  - exact (proj1 (interrupt_during_error_sleep_escapes interrupted_sleep_env
                    (sample_config []) 4 World_init w1 Hi) Hc).
  - unfold record_event. simpl. apply in_or_app. right. now left.
Defined.

(** ** Start-up *)

(** X22.  [main] builds the agent before anything is measured.  When the
    configuration loads, the loop starts from a fresh collector, right after
    the two lines "Agent initialized successfully" and "Starting agent loop
    (interval: Ns)".  When loading ends the process with status 1, [main]
    ends with it: all it did was open the file, possibly parse it, and log
    one error line; the collector is untouched. *)
Theorem main_startup_order (env : Env) (config_path : string) (passes : nat) (w : World) :
  (forall config w1,
     load_config env config_path w = (Return config, w1) ->
     main env config_path passes w =
       run_loop env config passes
         {| trace := (trace w1 ++
                      [EvLog INFO "Agent initialized successfully";
                       EvLog INFO ("Starting agent loop (interval: "
                                   ++ str_int (interval_of config) ++ "s)")])%list;
            collector := MetricsCollector_init |})
  /\
  (fst (load_config env config_path w) = Raise (SystemExit 1) ->
   exists cls msg,
     let line := EvLog ERROR (load_error_text config_path cls msg) in
     main env config_path passes w =
       (Propagated (SystemExit 1),
        {| trace := (trace w ++ [EvOpen config_path; line])%list;
           collector := collector w |})
     \/
     main env config_path passes w =
       (Propagated (SystemExit 1),
        {| trace := (trace w ++ [EvOpen config_path; EvYamlLoad; line])%list;
           collector := collector w |})).
Proof.
  split.
  - intros config w1 H. unfold main, Agent_init, bind. rewrite H.
    unfold with_collector, logger, ret, run, record_event, interval_of. simpl.
    rewrite <- app_assoc. reflexivity.
  - intros H. pose proof (load_config_run env config_path w) as R. cbv zeta in R.
    assert (Hm : forall w1, load_config env config_path w = (Raise (SystemExit 1), w1) ->
                 main env config_path passes w = (Propagated (SystemExit 1), w1)).
    { intros w1 E. unfold main, Agent_init, bind. rewrite E. reflexivity. }
    destruct (open_read env (step w) config_path) as [text|cls msg|].
    + destruct (yaml_safe_load env text) as [doc|cls msg|].
      * destruct (and_then (substitute_api_key env doc) (AgentConfig_construct env))
          as [config|[cls msg| |code]].
        -- rewrite R in H. discriminate.
        -- exists cls, msg. right. rewrite (Hm _ R).
           unfold record_event. simpl. rewrite <- !app_assoc. reflexivity.
        -- contradiction.
        -- contradiction.
      * exists cls, msg. right. rewrite (Hm _ R).
        unfold record_event. simpl. rewrite <- !app_assoc. reflexivity.
      * rewrite R in H. discriminate.
    + exists cls, msg. left. rewrite (Hm _ R).
      unfold record_event. simpl. rewrite <- !app_assoc. reflexivity.
    + rewrite R in H. discriminate.
Qed.

Lemma main_startup_order_witness :
  exists w',
    main
      (sample_env (Returns {| status_code := 200 |}) (Returns 0)
         (Returns {| status_code := 200 |})
         (Fails FileNotFoundError "No such file or directory: 'agent.yaml'")
         (Returns (PDict [])))
      "agent.yaml" 3 World_init = (Propagated (SystemExit 1), w') /\
    posted_payloads (trace w') = [].
Proof.
  destruct (proj2 (main_startup_order
                     (sample_env (Returns {| status_code := 200 |}) (Returns 0)
                        (Returns {| status_code := 200 |})
                        (Fails FileNotFoundError "No such file or directory: 'agent.yaml'")
                        (Returns (PDict [])))
                     "agent.yaml" 3 World_init) eq_refl) as [cls [msg [H|H]]];
    cbv zeta in H; eexists; (split; [exact H | reflexivity]).
Defined.

(** ** System information *)

Lemma int_of_float_floor (q : Q) :
  (0 <= q)%Q -> (q < inject_Z (int_of_float q) + 1)%Q.
Proof.
  destruct q as [n d]. unfold Qle, Qlt, Qplus, int_of_float. simpl. intros Hn.
  rewrite Z.quot_div_nonneg by lia.
  pose proof (Z.mod_pos_bound n (Zpos d) ltac:(lia)) as Hm.
  pose proof (Z.div_mod n (Zpos d) ltac:(lia)) as Hd.
  nia.
Qed.

(** X23.  With a psutil that has no [hostname] attribute the host is reported
    as "unknown" and psutil is asked for the boot time only.  The uptime is
    the time since boot cut to whole seconds: when the clock is not before
    the boot time it is non-negative and less than one second short; when
    the clock is before the boot time it is not clamped, and is zero or
    negative. *)
Theorem collect_system_info_uptime (env : Env) (w : World) (boot : Q) :
  psutil_boot_time env (step w) = Returns boot ->
  psutil_has_hostname env = false ->
  let t := time_time env (S (step w)) in
  let uptime := int_of_float (t - boot) in
  collect_system_info env w =
    (Return [("hostname", PStr "unknown");
             ("boot_time", PStr (isoformat_utc env boot));
             ("uptime_seconds", PInt uptime)],
     record_event (EvPsutil "boot_time") w)
  /\
  ((boot <= t)%Q ->
   0 <= uptime /\ (inject_Z uptime <= t - boot < inject_Z uptime + 1)%Q)
  /\
  ((t <= boot)%Q -> uptime <= 0).
Proof.
  intros Hb Hh t uptime. split; [|split].
  - unfold collect_system_info, bind, call, now, ret. rewrite Hb, Hh.
    rewrite step_record_event. reflexivity.
  - intros Hle. assert (H0 : (0 <= t - boot)%Q) by lra.
    destruct (int_of_float_nonneg _ H0) as [Hn Hl].
    split; [exact Hn|]. split; [exact Hl|]. apply int_of_float_floor. exact H0.
  - intros Hle. apply int_of_float_nonpos. lra.
Qed.

Lemma collect_system_info_uptime_witness :
  exists d,
    fst (collect_system_info quiet_env World_init) = Return d /\
    dict_get "hostname" d = Some (PStr "unknown").
Proof.
  destruct (psutil_boot_time quiet_env (step World_init)) as [boot| |] eqn:Hb;
    try (vm_compute in Hb; discriminate).
  eexists. split.
  - rewrite (proj1 (collect_system_info_uptime quiet_env World_init boot Hb eq_refl)).
    reflexivity.
  - reflexivity.
Defined.
